(** * Stratified split workflow: a shallow embedding

    The repository is a small offline workflow written in Python:
    [scripts/data_splitting.py] (class [DataSplitter]),
    [scripts/load_splits.py] ([load_data_splits]) and
    [scripts/train_model.py] ([catboost_pools]).

    Exceptions are returned as the left summand of [result]; the file system
    is a finite map from paths to nodes; the random generator handed to the
    stratified splitter is an interface ([RandomState]); fractions, which the
    scripts hold as binary floating point numbers, are exact rationals. *)

From Stdlib Require Import Ascii String ZArith QArith Qcanon Qround Lia Lqa.
From stdpp Require Import base tactics option list gmap strings pretty sorting.

(** ** Python values: exceptions and results *)

(** A path as [pathlib] holds it: the tuple [parts]; an absolute path starts
    with its root ["/"]. *)
Abbreviation Path := (list string).

(** The exceptions that reach the caller; a message is kept to its fixed
    words, without the figures the libraries format into it. *)
Inductive exn :=
| FileNotFoundError (path : Path)
| FileExistsError (path : Path)
| NotADirectoryError (path : Path)
| IsADirectoryError (path : Path)
| ValueError (msg : string)
| KeyError (key : string)
| NameError (name : string)
| ZeroDivisionError
| LibraryError (msg : string).

Definition result (A : Type) : Type := exn + A.

Definition raise {A} (e : exn) : result A := inl e.
Definition ret {A} (a : A) : result A := inr a.
Definition bind {A B} (m : result A) (k : A -> result B) : result B :=
  match m with
  | inl e => inl e
  | inr a => k a
  end.

Notation "'let*' x ':=' m 'in' k" := (bind m (fun x => k))
  (at level 10, x pattern, m at level 100, k at level 200).

(** ** pathlib *)

Module Pathlib.

Fixpoint split (sep : Ascii.ascii) (s : string) : list string :=
  match s with
  | EmptyString => [EmptyString]
  | String c s' =>
      if Ascii.eqb c sep then EmptyString :: split sep s'
      else match split sep s' with
           | [] => [String c EmptyString]
           | w :: ws => String c w :: ws
           end
  end.

Definition is_component (s : string) : bool :=
  negb (String.eqb s "") && negb (String.eqb s ".").

(** [Path(s)]: the separator splits the text, empty and ["."] components are
    dropped, a leading separator gives the root. *)
Definition of_str (s : string) : Path :=
  let comps := List.filter is_component (split "/"%char s) in
  match s with
  | String "/"%char _ => "/" :: comps
  | _ => comps
  end.

Definition is_absolute (p : Path) : bool :=
  match p with
  | "/" :: _ => true
  | _ => false
  end.

(** [p / q] on two paths: an absolute right operand replaces the left one. *)
Definition joinpath (p q : Path) : Path :=
  if is_absolute q then q else p ++ q.

(** [p / s] with a string operand. *)
Definition div (p : Path) (s : string) : Path := joinpath p (of_str s).

(** [p.name]: the final component, empty for a bare root. *)
Definition name (p : Path) : string :=
  match last p with
  | Some "/" => ""
  | Some s => s
  | None => ""
  end.

(** [s.rfind(c)] for a single character. *)
Fixpoint rfind (c : Ascii.ascii) (s : string) : option nat :=
  match s with
  | EmptyString => None
  | String a s' =>
      match rfind c s' with
      | Some i => Some (S i)
      | None => if Ascii.eqb a c then Some 0 else None
      end
  end.

(** [p.suffix]: [name[i:]] for the last dot [i] of the name when
    [0 < i < len(name) - 1], otherwise empty. *)
Definition suffix (p : Path) : string :=
  let nm := name p in
  match rfind "."%char nm with
  | Some i =>
      if Nat.ltb 0 i && Nat.ltb i (String.length nm - 1)
      then substring i (String.length nm - i) nm
      else ""
  | None => ""
  end.

(** [p.parent]. *)
Definition parent (p : Path) : Path := removelast p.

End Pathlib.

Infix "//" := Pathlib.div (at level 40, left associativity).

(** What the scripts accept where the docstrings say [str/Path]. *)
Inductive PathLike :=
| PStr (s : string)
| PPath (p : Path).

(** [Path(x)] *)
Definition Path_of (x : PathLike) : Path :=
  match x with
  | PStr s => Pathlib.of_str s
  | PPath p => p
  end.

(** ** The file system *)

Inductive node (bytes : Type) :=
| File (data : bytes)
| Dir.
Arguments File {bytes} data.
Arguments Dir {bytes}.

Abbreviation FS bytes := (gmap Path (node bytes)).

Section FileSystem.
Context {bytes : Type}.

(** [p.exists()] *)
Definition exists_ (fs : FS bytes) (p : Path) : bool :=
  match fs !! p with
  | Some _ => true
  | None => false
  end.

(** The working directory (the empty relative path) is always there. *)
Definition is_dir (fs : FS bytes) (p : Path) : bool :=
  match p, fs !! p with
  | [], _ => true
  | _, Some Dir => true
  | _, _ => false
  end.

(** [os.mkdir(p)] inside [mkdir(parents=True, exist_ok=True)]: one level. *)
Definition mkdir_one (full : Path) (fs : FS bytes) (p : Path) : result (FS bytes) :=
  match p, fs !! p with
  | [], _ => ret fs
  | _, Some Dir => ret fs
  | _, Some (File _) =>
      raise (if decide (p = full) then FileExistsError p else NotADirectoryError p)
  | _, None => ret (<[p := Dir]> fs)
  end.

Fixpoint mkdir_prefixes (full : Path) (done todo : Path) (fs : FS bytes)
  : result unit * FS bytes :=
  match todo with
  | [] => (ret tt, fs)
  | c :: todo' =>
      let p := done ++ [c] in
      match mkdir_one full fs p with
      | inl e => (inl e, fs)
      | inr fs' => mkdir_prefixes full p todo' fs'
      end
  end.

(** [p.mkdir(parents=True, exist_ok=True)]: the missing ancestors are made
    from the outermost one. *)
Definition mkdir_parents (p : Path) (fs : FS bytes) : result unit * FS bytes :=
  mkdir_prefixes p [] p fs.

(** [open(p, 'wb')] followed by writing [data] and closing. *)
Definition write_bytes (p : Path) (data : bytes) (fs : FS bytes) : result (FS bytes) :=
  if negb (is_dir fs (Pathlib.parent p)) then raise (FileNotFoundError p)
  else match fs !! p with
       | Some Dir => raise (IsADirectoryError p)
       | _ => ret (<[p := File data]> fs)
       end.

(** [open(p, 'rb')] followed by reading everything. *)
Definition read_bytes (fs : FS bytes) (p : Path) : result bytes :=
  match fs !! p with
  | Some (File data) => ret data
  | Some Dir => raise (IsADirectoryError p)
  | None => raise (FileNotFoundError p)
  end.

End FileSystem.

(** ** pandas: tables *)

(** The dtypes of a column.  Text is held as [object] by the readers of
    pandas up to 2; [str_] is the dtype that pandas 3 gives to text by
    default, [string_] is [pd.StringDtype()]. *)
Inductive dtype :=
| int64 | float64 | bool_ | datetime64 | object | category | str_ | string_.

Inductive value :=
| VInt (z : Z)
| VFloat (q : Qc)
| VStr (s : string)
| VBool (b : bool).

#[global] Instance dtype_eq_dec : EqDecision dtype.
Proof. solve_decision. Defined.

#[global] Instance value_eq_dec : EqDecision value.
Proof. solve_decision. Defined.

#[global] Instance value_inhabited : Inhabited value := populate (VInt 0).

(** The order [np.unique] sorts labels by; values of one kind compare as in
    Python, kinds are ranked among themselves. *)
Definition value_rank (v : value) : nat :=
  match v with
  | VBool _ => 0
  | VInt _ => 1
  | VFloat _ => 2
  | VStr _ => 3
  end.

Definition value_leb (a b : value) : bool :=
  match a, b with
  | VInt x, VInt y => (x <=? y)%Z
  | VFloat x, VFloat y => bool_decide (x <= y)%Qc
  | VStr x, VStr y => String.leb x y
  | VBool x, VBool y => implb x y
  | _, _ => Nat.leb (value_rank a) (value_rank b)
  end.

Definition value_le (a b : value) : Prop := value_leb a b = true.

#[global] Instance value_le_dec : RelDecision value_le.
Proof. intros a b. unfold value_le. apply _. Defined.

(** A column of a frame: its [dtype] and its cells, one per row. *)
Record Column := mkColumn { col_dtype : dtype; col_values : list value }.

(** A [pd.Series]: a named column with its row labels. *)
Record Series := mkSeries {
  s_name : string;
  s_index : list Z;
  s_dtype : dtype;
  s_values : list value
}.

(** A [pd.DataFrame]: row labels, column labels in order, and the column
    stored under each label.  Labels are distinct, as in every frame that
    [read_csv] or [read_excel] builds. *)
Record DataFrame := mkDataFrame {
  df_index : list Z;
  df_columns : list string;
  df_data : gmap string Column
}.

(** The listed labels are distinct, they are the labels of the stored
    columns, and every column has one cell per row. *)
Definition wf_table (df : DataFrame) : Prop :=
  NoDup (df_columns df) /\
  dom (df_data df) = list_to_set (df_columns df) /\
  map_Forall (fun _ col => length (col_values col) = length (df_index df))
             (df_data df).

Module Pandas.

(** [df.shape[0]] *)
Definition nrows (df : DataFrame) : nat := length (df_index df).

(** [len(s)] *)
Definition s_len (s : Series) : nat := length (s_values s).

(** [df[key]] for one column label. *)
Definition getitem (df : DataFrame) (key : string) : result Series :=
  match df_data df !! key with
  | Some col =>
      ret (mkSeries key (df_index df) (col_dtype col) (col_values col))
  | None => raise (KeyError key)
  end.

(** [df.drop(key, axis=1)] *)
Definition drop (df : DataFrame) (key : string) : result DataFrame :=
  if bool_decide (key ∈ df_columns df)
  then ret (mkDataFrame (df_index df)
              (List.filter (fun c => negb (String.eqb c key)) (df_columns df))
              (delete key (df_data df)))
  else raise (KeyError key).

(** Positional selection of the entries of a list.  A position out of
    range, which the splitter never hands over, reads a default value. *)
Definition take_at {A} `{Inhabited A} (l : list A) (pos : list nat) : list A :=
  (fun j => l !!! j) <$> pos.

(** [df.iloc[pos]] *)
Definition iloc (df : DataFrame) (pos : list nat) : DataFrame :=
  mkDataFrame (take_at (df_index df) pos) (df_columns df)
    ((fun col => mkColumn (col_dtype col) (take_at (col_values col) pos))
       <$> df_data df).

(** [s.iloc[pos]] *)
Definition s_iloc (s : Series) (pos : list nat) : Series :=
  mkSeries (s_name s) (take_at (s_index s) pos) (s_dtype s)
    (take_at (s_values s) pos).

(** [pd.api.types.is_numeric_dtype(d)] *)
Definition is_numeric (d : dtype) : bool :=
  match d with
  | int64 | float64 | bool_ => true
  | _ => false
  end.

End Pandas.

(** The objects the workflow pickles. *)
Inductive PyObj :=
| OFrame (df : DataFrame)
| OSeries (s : Series)
| OStrList (l : list string).

(** A Python [dict] with text keys, in insertion order. *)
Abbreviation Dict := (list (string * PyObj)).

Fixpoint dict_get (k : string) (d : Dict) : option PyObj :=
  match d with
  | [] => None
  | (k', v) :: d' => if String.eqb k k' then Some v else dict_get k d'
  end.

(** [d[k] = v] *)
Fixpoint dict_set (k : string) (v : PyObj) (d : Dict) : Dict :=
  match d with
  | [] => [(k, v)]
  | (k', v') :: d' =>
      if String.eqb k k' then (k, v) :: d' else (k', v') :: dict_set k v d'
  end.

(** ** External libraries, as interfaces *)

(** [pd.read_csv] and [pd.read_excel] on the bytes of a file. *)
Class TableReaders (bytes : Type) := {
  parse_csv : bytes -> result DataFrame;
  parse_excel : bytes -> result DataFrame
}.

(** [pickle]: loading what was dumped gives the object back. *)
Class Pickle (bytes : Type) := {
  pickle_dumps : PyObj -> bytes;
  pickle_loads : bytes -> result PyObj;
  pickle_loads_dumps : forall o, pickle_loads (pickle_dumps o) = inr o
}.

(** [numpy.random.RandomState]: every draw of the splitter goes through
    [permutation(n)], a shuffled [arange(n)]. *)
Class RandomState := {
  rng : Type;
  rng_seed : Z -> rng;
  rng_permutation : rng -> nat -> list nat * rng;
  rng_permutation_perm : forall g n, Permutation (rng_permutation g n).1 (seq 0 n)
}.

(** ** Module namespaces and logging *)

(** The names bound at the top level of each script when it is imported. *)
Definition data_splitting_globals : list string :=
  ["train_test_split"; "Path"; "pd"; "pickle"; "logging"; "logger";
   "DataSplitter"; "main"].

Definition load_splits_globals : list string :=
  ["Path"; "pickle"; "logging"; "logger"; "load_data_splits"].

Definition train_model_globals : list string :=
  ["Pool"; "catboost_pools"].

(** Evaluating a global name inside a function body. *)
Definition load_global (globals : list string) (name : string) : result unit :=
  if bool_decide (name ∈ globals) then ret tt else raise (NameError name).

(** [logger.info(...)]: the record goes to the log, the call needs the name
    [logger] in the module. *)
Definition logger_info (globals : list string) : result unit :=
  load_global globals "logger".

(** ** sklearn.model_selection.train_test_split, stratified

    [train_test_split(..., stratify=y, shuffle=True)] as scikit-learn runs
    it: [_validate_shuffle_split] for the sizes, then one iteration of
    [StratifiedShuffleSplit] with its checks on the classes, the allocation
    of [_approximate_mode] and a shuffle of the positions of each class. *)

Section Sklearn.
Context {R : RandomState}.

(** [rng.permutation(x)] on a sequence. *)
Definition rng_shuffle (g : rng) (x : list nat) : list nat * rng :=
  let '(p, g') := rng_permutation g (length x) in
  (Pandas.take_at x p, g').

(** [rng.choice(inds, size=size, replace=False)] *)
Definition rng_choice (g : rng) (inds : list nat) (size : nat) : list nat * rng :=
  let '(p, g') := rng_permutation g (length inds) in
  (Pandas.take_at inds (take size p), g').

(** [np.where(remainder == value)] *)
Definition np_where (value : nat) (remainder : list nat) : list nat :=
  filter (fun i => remainder !! i = Some value) (seq 0 (length remainder)).

(** How many entries of [remainder] take one of the given values. *)
Definition capacity (values remainder : list nat) : nat :=
  sum_list ((fun value => length (np_where value remainder)) <$> values).

(** The loop of [_approximate_mode] over the distinct remainders, largest
    first; it stops as soon as nothing is left to add. *)
Fixpoint add_by_remainder (values remainder floored : list nat)
    (need_to_add : nat) (g : rng) : list nat * rng :=
  match values with
  | [] => (floored, g)
  | value :: values' =>
      let inds := np_where value remainder in
      let add_now := length inds `min` need_to_add in
      let '(inds', g') := rng_choice g inds add_now in
      let floored' := foldr (alter S) floored inds' in
      let need_to_add' := need_to_add - add_now in
      if decide (need_to_add' = 0) then (floored', g')
      else add_by_remainder values' remainder floored' need_to_add' g'
  end.

(** [_approximate_mode(class_counts, n_draws, rng)].  The expected draws
    [class_counts / class_counts.sum() * n_draws] are the fractions
    [c * n_draws / total]: [floored] holds their integer parts and
    [remainder] the numerators of their fractional parts, so that two
    remainders tie exactly when the fractions do. *)
Definition approximate_mode (class_counts : list nat) (n_draws : nat) (g : rng)
  : list nat * rng :=
  let total := sum_list class_counts in
  let continuous := (fun c => c * n_draws) <$> class_counts in
  let floored := (fun a => a / total) <$> continuous in
  let need_to_add := n_draws - sum_list floored in
  if decide (0 < need_to_add) then
    let remainder := (fun a => a mod total) <$> continuous in
    let values := reverse (merge_sort le (remove_dups remainder)) in
    add_by_remainder values remainder floored need_to_add g
  else (floored, g).

(** [np.unique(y)] *)
Definition np_unique (y : list value) : list value :=
  merge_sort value_le (remove_dups y).

(** [np.bincount(y_indices)] *)
Definition bincount (classes y : list value) : list nat :=
  (fun c => length (filter (fun v => v = c) y)) <$> classes.

(** [np.split(np.argsort(y_indices, kind="mergesort"), ...)]: the positions
    of each class, in increasing order. *)
Definition class_positions (classes y : list value) : list (list nat) :=
  (fun c => filter (fun i => y !! i = Some c) (seq 0 (length y))) <$> classes.

(** How many of the positions [pos] hold the label [c]. *)
Definition count_at (y : list value) (c : value) (pos : list nat) : nat :=
  length (filter (fun i => y !! i = Some c) pos).

(** [a.take(idx, mode="clip")] *)
Definition take_clip (a idx : list nat) : list nat :=
  (fun j => a !!! (j `min` (length a - 1))) <$> idx.

(** The loop over the classes of [_iter_indices]. *)
Fixpoint draw_classes (class_counts : list nat) (class_indices : list (list nat))
    (n_i t_i : list nat) (g : rng) : list nat * list nat * rng :=
  match class_counts, class_indices, n_i, t_i with
  | count :: counts, indices :: class_indices', n :: n_i', t :: t_i' =>
      let '(permutation, g1) := rng_permutation g count in
      let perm_indices_class_i := take_clip indices permutation in
      let '(train, test, g2) := draw_classes counts class_indices' n_i' t_i' g1 in
      (take n perm_indices_class_i ++ train,
       take t (drop n perm_indices_class_i) ++ test, g2)
  | _, _, _, _ => ([], [], g)
  end.

(** [train] and [test] are made of one chunk per class; the two chunks of a
    class hold its positions, each once, [n] of them on the [train] side
    and [t] on the [test] side. *)
Inductive drawn :
  list (list nat) -> list nat -> list nat -> list nat -> list nat -> Prop :=
| drawn_nil : drawn [] [] [] [] []
| drawn_cons indices class_indices n n_i t t_i tr0 te0 train test :
    tr0 ++ te0 ≡ₚ indices ->
    length tr0 = n -> length te0 = t ->
    drawn class_indices n_i t_i train test ->
    drawn (indices :: class_indices) (n :: n_i) (t :: t_i)
          (tr0 ++ train) (te0 ++ test).

(** One iteration of [StratifiedShuffleSplit._iter_indices]. *)
Definition iter_indices (class_counts : list nat) (class_indices : list (list nat))
    (n_train n_test : nat) (g : rng) : list nat * list nat * rng :=
  let '(n_i, g1) := approximate_mode class_counts n_train g in
  let class_counts_remaining := zip_with Nat.sub class_counts n_i in
  let '(t_i, g2) := approximate_mode class_counts_remaining n_test g1 in
  let '(train, test, g3) := draw_classes class_counts class_indices n_i t_i g2 in
  let '(train, g4) := rng_shuffle g3 train in
  let '(test, g5) := rng_shuffle g4 test in
  (train, test, g5).

(** [_validate_shuffle_split(n_samples, test_size, train_size=None)] for a
    fractional [test_size]. *)
Definition validate_shuffle_split (n_samples : nat) (test_size : Q)
  : result (nat * nat) :=
  if Qle_bool test_size 0 || Qle_bool 1 test_size
  then raise (ValueError "test_size should be in the (0, 1) range")
  else
    let n_test := Z.to_nat (Qceiling (test_size * inject_Z (Z.of_nat n_samples))) in
    let n_train := n_samples - n_test in
    if decide (n_train = 0)
    then raise (ValueError "the resulting train set will be empty")
    else ret (n_train, n_test).

Definition np_min (l : list nat) : nat := foldr Nat.min (hd 0 l) l.

Definition valid_seed (seed : Z) : bool :=
  ((0 <=? seed) && (seed <? 2 ^ 32))%Z.

(** No seed, or one that [RandomState] accepts. *)
Definition seed_ok (random_state : option Z) : bool :=
  match random_state with
  | None => true
  | Some seed => valid_seed seed
  end.

(** [next(StratifiedShuffleSplit(test_size=n_test, train_size=n_train,
    random_state=random_state).split(X, y))].  [g] is the generator of the
    [numpy.random] module, used when no seed is given. *)
Definition stratified_shuffle_split (y : list value) (n_train n_test : nat)
    (random_state : option Z) (g : rng) : result (list nat * list nat) * rng :=
  let classes := np_unique y in
  let n_classes := length classes in
  let class_counts := bincount classes y in
  if decide (np_min class_counts < 2) then
    (raise (ValueError "The least populated class in y has only 1 member"), g)
  else if decide (n_train < n_classes) then
    (raise (ValueError "The train_size should be greater or equal to the number of classes"), g)
  else if decide (n_test < n_classes) then
    (raise (ValueError "The test_size should be greater or equal to the number of classes"), g)
  else
    let class_indices := class_positions classes y in
    match random_state with
    | None =>
        let '(train, test, g') :=
          iter_indices class_counts class_indices n_train n_test g in
        (ret (train, test), g')
    | Some seed =>
        if valid_seed seed then
          let '(train, test, _) :=
            iter_indices class_counts class_indices n_train n_test (rng_seed seed) in
          (ret (train, test), g)
        else (raise (ValueError "Seed must be between 0 and 2**32 - 1"), g)
    end.

(** The checks of [train_test_split], gathered. *)
Definition split_possible (x : DataFrame) (y : Series) (test_size : Q)
    (random_state : option Z) (n_train n_test : nat) : Prop :=
  Pandas.nrows x = Pandas.s_len y /\
  validate_shuffle_split (Pandas.nrows x) test_size = inr (n_train, n_test) /\
  2 <= np_min (bincount (np_unique (s_values y)) (s_values y)) /\
  length (np_unique (s_values y)) <= n_train /\
  length (np_unique (s_values y)) <= n_test /\
  seed_ok random_state = true.

(** [train_test_split(x, y, test_size=test_size, stratify=y,
    random_state=random_state, shuffle=True)] *)
Definition train_test_split (x : DataFrame) (y : Series) (test_size : Q)
    (random_state : option Z) (g : rng)
  : result (DataFrame * DataFrame * Series * Series) * rng :=
  if decide (Pandas.nrows x ≠ Pandas.s_len y) then
    (raise (ValueError "Found input variables with inconsistent numbers of samples"), g)
  else
    match validate_shuffle_split (Pandas.nrows x) test_size with
    | inl e => (inl e, g)
    | inr (n_train, n_test) =>
        match stratified_shuffle_split (s_values y) n_train n_test random_state g with
        | (inl e, g') => (inl e, g')
        | (inr (train, test), g') =>
            (ret (Pandas.iloc x train, Pandas.iloc x test,
                  Pandas.s_iloc y train, Pandas.s_iloc y test), g')
        end
    end.

End Sklearn.

(** ** scripts/data_splitting.py *)

Record DataSplitter := mkDataSplitter {
  test_size : Q;
  validation_size : Q;
  random_state : option Z
}.

(** [len(y[y == c])] *)
Definition count_of (c : value) (y : Series) : nat :=
  length (filter (fun v => v = c) (s_values y)).

(** [len(y[y == 1])], the rows the scripts report as eligible. *)
Definition eligible (y : Series) : nat := count_of (VInt 1) y.

(** What [split_data] returns:
    [x_train, x_val, x_test, y_train, y_val, y_test]. *)
Abbreviation Splits :=
  (DataFrame * DataFrame * DataFrame * Series * Series * Series)%type.

(** [s.replace(old, new)] for a non-empty [old]; [skip] counts the characters
    of a match still to be passed over. *)
Fixpoint str_replace_from (old new : string) (skip : nat) (s : string) : string :=
  match s with
  | EmptyString => EmptyString
  | String c s' =>
      match skip with
      | S k => str_replace_from old new k s'
      | O =>
          if String.prefix old s
          then new +:+ str_replace_from old new (String.length old - 1) s'
          else String c (str_replace_from old new 0 s')
      end
  end.

Definition str_replace (old new s : string) : string :=
  str_replace_from old new 0 s.

Definition dtype_str (d : dtype) : string :=
  match d with
  | int64 => "int64"
  | float64 => "float64"
  | bool_ => "bool"
  | datetime64 => "datetime64[ns]"
  | object => "object"
  | category => "category"
  | str_ => "str"
  | string_ => "string"
  end.

(** The keys of the bundle that [main] saves. *)
Definition bundle_names : list string :=
  ["x_train"; "x_val"; "x_test"; "y_train"; "y_val"; "y_test"; "categorical_cols"].

(** The directory that [save_splits] writes to and [load_data_splits] reads
    from, for a script [file], a root and a tag. *)
Definition split_dir (file : Path) (root : PathLike) (tag : option Z) : Path :=
  let project_root := Pathlib.parent (Pathlib.parent file) in
  let full := match root with PStr s => project_root // s | PPath p => p end in
  match tag with
  | Some r => full // ("split_" +:+ pretty r)
  | None => full
  end.

(** ** Sizes that are not fractions

    [DataSplitter] stores the sizes it is given.  The record above holds
    them as the fractions the scripts pass; a size can also be a Python
    [int], which [train_test_split] reads as a number of rows and line 90
    computes with as with any number. *)

Inductive number :=
| PyInt (z : Z)
| PyFloat (q : Q).

(** [float(a)] *)
Definition py_float (a : number) : Q :=
  match a with
  | PyInt z => inject_Z z
  | PyFloat q => q
  end.

(** [a - b] *)
Definition py_sub (a b : number) : number :=
  match a, b with
  | PyInt x, PyInt y => PyInt (x - y)
  | _, _ => PyFloat (py_float a - py_float b)
  end.

(** [a / b]: a float, or [ZeroDivisionError]. *)
Definition py_truediv (a b : number) : result number :=
  if Qeq_bool (py_float b) 0 then raise ZeroDivisionError
  else ret (PyFloat (py_float a / py_float b)).

Section DataSplitting.
Context {bytes : Type} {readers : TableReaders bytes} {pkl : Pickle bytes}
        {R : RandomState}.

(** [pd.read_csv(path)] *)
Definition pd_read_csv (fs : FS bytes) (path : Path) : result DataFrame :=
  let* data := read_bytes fs path in parse_csv data.

(** [pd.read_excel(path)] *)
Definition pd_read_excel (fs : FS bytes) (path : Path) : result DataFrame :=
  let* data := read_bytes fs path in parse_excel data.

(** [DataSplitter.load_dataset(dataset_path)] *)
Definition load_dataset (fs : FS bytes) (dataset_path : PathLike)
  : result DataFrame :=
  let dataset_path := Path_of dataset_path in
  if negb (exists_ fs dataset_path) then
    raise (FileNotFoundError dataset_path)
  else if String.eqb (Pathlib.suffix dataset_path) ".csv" then
    let* dataset := pd_read_csv fs dataset_path in
    let* _ := logger_info data_splitting_globals in
    ret dataset
  else if String.eqb (Pathlib.suffix dataset_path) ".xlsx" then
    let* dataset := pd_read_excel fs dataset_path in
    let* _ := logger_info data_splitting_globals in
    ret dataset
  else
    raise (ValueError "Formato do ficheiro não é compatível com o workflow -> Aceita csv e xlsx").

(** [self.split_data(dataset, target_col)]; [g] is the generator of the
    [numpy.random] module before the call, returned as it is after it. *)
Definition split_data (self : DataSplitter) (dataset : DataFrame)
    (target_col : string) (g : rng) : result Splits * rng :=
  match Pandas.drop dataset target_col with
  | inl e => (inl e, g)
  | inr x =>
  match Pandas.getitem dataset target_col with
  | inl e => (inl e, g)
  | inr y =>
  match logger_info data_splitting_globals with
  | inl e => (inl e, g)
  | inr _ =>
  match train_test_split x y (test_size self) (random_state self) g with
  | (inl e, g1) => (inl e, g1)
  | (inr (x_train, x_test, y_train, y_test), g1) =>
  if Qeq_bool (1 - test_size self) 0 then (raise ZeroDivisionError, g1)
  else
  let val_size_adjusted := (validation_size self / (1 - test_size self))%Q in
  match train_test_split x_train y_train val_size_adjusted (random_state self) g1 with
  | (inl e, g2) => (inl e, g2)
  | (inr (x_train, x_val, y_train, y_val), g2) =>
  match logger_info data_splitting_globals with
  | inl e => (inl e, g2)
  | inr _ => (ret (x_train, x_val, x_test, y_train, y_val, y_test), g2)
  end end end end end end.

(** The test of the comprehension in [identify_categorical_features]. *)
Definition is_categorical (d : dtype) : bool :=
  String.eqb (dtype_str d) "object" || String.eqb (dtype_str d) "category".

Fixpoint categorical_among (x_train : DataFrame) (columns : list string)
  : result (list string) :=
  match columns with
  | [] => ret []
  | col :: columns' =>
      let* s := Pandas.getitem x_train col in
      let* rest := categorical_among x_train columns' in
      ret (if is_categorical (s_dtype s) then col :: rest else rest)
  end.

(** [DataSplitter.identify_categorical_features(x_train)] *)
Definition identify_categorical_features (x_train : DataFrame)
  : result (list string) :=
  let* categorical_cols := categorical_among x_train (df_columns x_train) in
  let* _ := logger_info data_splitting_globals in
  ret categorical_cols.

(** The loop of [save_splits] over [splits_data.items()]. *)
Fixpoint dump_items (full_output_path : Path) (items : Dict) (fs : FS bytes)
  : result unit * FS bytes :=
  match items with
  | [] => (ret tt, fs)
  | (name, data) :: items' =>
      let file_path := full_output_path // (name +:+ ".pkl") in
      match write_bytes file_path (pickle_dumps data) fs with
      | inl e => (inl e, fs)
      | inr fs' =>
          match logger_info data_splitting_globals with
          | inl e => (inl e, fs')
          | inr _ => dump_items full_output_path items' fs'
          end
      end
  end.

(** [self.save_splits(splits_data, output_dir, random_state)]; [file] is
    [__file__] of the script. *)
Definition save_splits (file : Path) (self : DataSplitter) (splits_data : Dict)
    (output_dir : PathLike) (random_state : option Z) (fs : FS bytes)
  : result unit * FS bytes :=
  let script_dir := Pathlib.parent file in
  let project_root := Pathlib.parent script_dir in
  let full_output_path :=
    match output_dir with
    | PStr s => project_root // s
    | PPath p => p
    end in
  let full_output_path :=
    match random_state with
    | Some r => full_output_path // ("split_" +:+ pretty r)
    | None => full_output_path
    end in
  match mkdir_parents full_output_path fs with
  | (inl e, fs1) => (inl e, fs1)
  | (inr _, fs1) =>
      match logger_info data_splitting_globals with
      | inl e => (inl e, fs1)
      | inr _ => dump_items full_output_path splits_data fs1
      end
  end.

(** [_validate_shuffle_split(n_samples, test_size, train_size=None)] for a
    [test_size] that is an int or a float. *)
Definition validate_shuffle_split_number (n_samples : nat) (test_size : number)
  : result (nat * nat) :=
  match test_size with
  | PyFloat q => validate_shuffle_split n_samples q
  | PyInt z =>
      if ((z <=? 0) || (Z.of_nat n_samples <=? z))%Z
      then raise (ValueError
             "test_size should be positive and smaller than the number of samples")
      else
        let n_test := Z.to_nat z in
        let n_train := n_samples - n_test in
        if decide (n_train = 0)
        then raise (ValueError "the resulting train set will be empty")
        else ret (n_train, n_test)
  end.

(** [train_test_split(x, y, test_size=test_size, stratify=y,
    random_state=random_state, shuffle=True)] for such a [test_size]. *)
Definition train_test_split_number (x : DataFrame) (y : Series) (test_size : number)
    (random_state : option Z) (g : rng)
  : result (DataFrame * DataFrame * Series * Series) * rng :=
  if decide (Pandas.nrows x ≠ Pandas.s_len y) then
    (raise (ValueError "Found input variables with inconsistent numbers of samples"), g)
  else
    match validate_shuffle_split_number (Pandas.nrows x) test_size with
    | inl e => (inl e, g)
    | inr (n_train, n_test) =>
        match stratified_shuffle_split (s_values y) n_train n_test random_state g with
        | (inl e, g') => (inl e, g')
        | (inr (train, test), g') =>
            (ret (Pandas.iloc x train, Pandas.iloc x test,
                  Pandas.s_iloc y train, Pandas.s_iloc y test), g')
        end
    end.

(** [DataSplitter(test_size, validation_size, random_state)
      .split_data(dataset, target_col)] for sizes that are ints or floats. *)
Definition split_data_number (test_size validation_size : number)
    (random_state : option Z) (dataset : DataFrame) (target_col : string) (g : rng)
  : result Splits * rng :=
  match Pandas.drop dataset target_col with
  | inl e => (inl e, g)
  | inr x =>
  match Pandas.getitem dataset target_col with
  | inl e => (inl e, g)
  | inr y =>
  match logger_info data_splitting_globals with
  | inl e => (inl e, g)
  | inr _ =>
  match train_test_split_number x y test_size random_state g with
  | (inl e, g1) => (inl e, g1)
  | (inr (x_train, x_test, y_train, y_test), g1) =>
  match py_truediv validation_size (py_sub (PyInt 1) test_size) with
  | inl e => (inl e, g1)
  | inr val_size_adjusted =>
  match train_test_split_number x_train y_train val_size_adjusted random_state g1 with
  | (inl e, g2) => (inl e, g2)
  | (inr (x_train, x_val, y_train, y_val), g2) =>
  match logger_info data_splitting_globals with
  | inl e => (inl e, g2)
  | inr _ => (ret (x_train, x_val, x_test, y_train, y_val, y_test), g2)
  end end end end end end end.

(** ** scripts/load_splits.py *)

Definition required_files : list string :=
  ["x_train.pkl"; "x_val.pkl"; "x_test.pkl";
   "y_train.pkl"; "y_val.pkl"; "y_test.pkl"; "categorical_cols.pkl"].

(** The first loop of [load_data_splits]. *)
Fixpoint check_files (full_splits_path : Path) (files : list string)
    (fs : FS bytes) : result unit :=
  match files with
  | [] => ret tt
  | file :: files' =>
      let file_path := full_splits_path // file in
      if negb (exists_ fs file_path) then raise (FileNotFoundError file_path)
      else check_files full_splits_path files' fs
  end.

(** The second loop; [opened] lists the files handed to [pickle.load]. *)
Fixpoint load_files (full_splits_path : Path) (files : list string)
    (fs : FS bytes) (loaded_data : Dict) (opened : list Path)
  : result Dict * list Path :=
  match files with
  | [] => (ret loaded_data, opened)
  | file_name :: files' =>
      let name := str_replace ".pkl" "" file_name in
      let file_path := full_splits_path // file_name in
      match read_bytes fs file_path with
      | inl e => (inl e, opened)
      | inr data =>
          match pickle_loads data with
          | inl e => (inl e, opened ++ [file_path])
          | inr obj =>
              match logger_info load_splits_globals with
              | inl e => (inl e, opened ++ [file_path])
              | inr _ =>
                  load_files full_splits_path files' fs
                    (dict_set name obj loaded_data) (opened ++ [file_path])
              end
          end
      end
  end.

(** [load_data_splits(splits_path, random_state)]: the result, and the files
    that were deserialized on the way. *)
Definition load_data_splits (file : Path) (splits_path : PathLike)
    (random_state : option Z) (fs : FS bytes) : result Dict * list Path :=
  let script_dir := Pathlib.parent file in
  let project_root := Pathlib.parent script_dir in
  let full_splits_path :=
    match splits_path with
    | PStr s => project_root // s
    | PPath p => p
    end in
  let full_splits_path :=
    match random_state with
    | Some r => full_splits_path // ("split_" +:+ pretty r)
    | None => full_splits_path
    end in
  match check_files full_splits_path required_files fs with
  | inl e => (inl e, [])
  | inr _ => load_files full_splits_path required_files fs [] []
  end.

End DataSplitting.

(** ** scripts/train_model.py *)

(** [catboost.Pool(data, label, cat_features=...)] *)
Class CatBoost := {
  PoolT : Type;
  Pool : DataFrame -> Series -> list string -> result PoolT
}.

Section TrainModel.
Context {cb : CatBoost}.

(** [catboost_pools(x_train, x_val, x_test, y_train, y_val, y_test,
    categorical_cols)] *)
Definition catboost_pools (x_train x_val x_test : DataFrame)
    (y_train y_val y_test : Series) (categorical_cols : list string)
  : result (PoolT * PoolT * PoolT) :=
  let* _ := logger_info train_model_globals in
  let* train_pool := Pool x_train y_train categorical_cols in
  let* val_pool := Pool x_val y_val categorical_cols in
  let* test_pool := Pool x_test y_test categorical_cols in
  let* _ := logger_info train_model_globals in
  ret (train_pool, val_pool, test_pool).

End TrainModel.

(** ** The entry point of scripts/data_splitting.py *)

(** The default of the parameter [splits_path] of [load_data_splits]. *)
Definition default_splits_path : PathLike := PStr "outputs/splits".

(** The default of the parameter [target_col] of [split_data]. *)
Definition default_target_col : string := "Elegível?".

Section EntryPoint.
Context {bytes : Type} {readers : TableReaders bytes} {pkl : Pickle bytes}
        {R : RandomState}.

(** [main()]: the outcome, the file system and the generator of
    [numpy.random] after the run.  An exception is logged and raised again;
    what the run prints is left out.  [file] is [__file__] of the script. *)
Definition main (file : Path) (fs : FS bytes) (g : rng)
  : result unit * FS bytes * rng :=
  let script_dir := Pathlib.parent file in
  let project_root := Pathlib.parent script_dir in
  let dataset_path :=
    project_root // "data" // "processed" // "Ficheiro_Compras_Processado.csv" in
  let output_dir := project_root // "outputs" // "splits" in
  let random_state := 1%Z in
  let spliter := mkDataSplitter (1 # 5) (1 # 5) (Some random_state) in
  match load_dataset fs (PPath dataset_path) with
  | inl e => (inl e, fs, g)
  | inr dataset =>
  match split_data spliter dataset default_target_col g with
  | (inl e, g1) => (inl e, fs, g1)
  | (inr (x_train, x_val, x_test, y_train, y_val, y_test), g1) =>
  match identify_categorical_features x_train with
  | inl e => (inl e, fs, g1)
  | inr categorical_cols =>
  let splits_data :=
    [("x_train", OFrame x_train); ("x_val", OFrame x_val);
     ("x_test", OFrame x_test); ("y_train", OSeries y_train);
     ("y_val", OSeries y_val); ("y_test", OSeries y_test);
     ("categorical_cols", OStrList categorical_cols)] in
  match save_splits file spliter splits_data (PPath output_dir)
          (Some random_state) fs with
  | (inl e, fs1) => (inl e, fs1, g1)
  | (inr _, fs1) =>
  match logger_info data_splitting_globals with
  | inl e => (inl e, fs1, g1)
  | inr _ => (ret tt, fs1, g1)
  end end end end end.

End EntryPoint.

(** The paths and the bundle of [main] *)

(** [Path(__file__).parent.parent] *)
Definition project_root (file : Path) : Path :=
  Pathlib.parent (Pathlib.parent file).

(** [dataset_path] of [main] *)
Definition main_dataset_path (file : Path) : Path :=
  project_root file // "data" // "processed" // "Ficheiro_Compras_Processado.csv".

(** [output_dir] of [main] *)
Definition main_output_dir (file : Path) : Path :=
  project_root file // "outputs" // "splits".

(** [splits_data] of [main], for the outputs of [split_data] and the list
    of categorical columns. *)
Definition splits_data_of (outputs : Splits) (categorical_cols : list string) : Dict :=
  let '(x_train, x_val, x_test, y_train, y_val, y_test) := outputs in
  [("x_train", OFrame x_train); ("x_val", OFrame x_val);
   ("x_test", OFrame x_test); ("y_train", OSeries y_train);
   ("y_val", OSeries y_val); ("y_test", OSeries y_test);
   ("categorical_cols", OStrList categorical_cols)].

(** ** Instances of the interfaces, for running the model *)

(** Files that hold the object itself: the simplest faithful pickle. *)
#[local] Instance plain_pickle : Pickle PyObj := {|
  pickle_dumps := fun o => o;
  pickle_loads := fun o => inr o;
  pickle_loads_dumps := fun o => eq_refl
|}.

#[local] Instance plain_readers : TableReaders PyObj := {|
  parse_csv := fun o =>
    match o with
    | OFrame df => inr df
    | _ => inl (LibraryError "ParserError")
    end;
  parse_excel := fun o =>
    match o with
    | OFrame df => inr df
    | _ => inl (LibraryError "BadZipFile")
    end
|}.

(** A container that records what it is given and checks nothing. *)
#[local] Instance plain_catboost : CatBoost := {|
  PoolT := DataFrame * Series * list string;
  Pool := fun data label cat_features => inr (data, label, cat_features)
|}.

(** A small generator: a linear congruential state, a rotation of
    [arange(n)] for each draw. *)
Definition lcg_next (g : Z) : Z := ((g * 1103515245 + 12345) mod 2 ^ 31)%Z.

Definition lcg_permutation (g : Z) (n : nat) : list nat * Z :=
  let k := Z.to_nat (g mod Z.of_nat (S n)) in
  (drop k (seq 0 n) ++ take k (seq 0 n), lcg_next g).

Lemma lcg_permutation_perm g n : Permutation (lcg_permutation g n).1 (seq 0 n).
Proof.
  unfold lcg_permutation. simpl.
  rewrite Permutation_app_comm. by rewrite take_drop.
Qed.

#[local] Instance lcg_random_state : RandomState := {|
  rng := Z;
  rng_seed := fun seed => seed;
  rng_permutation := lcg_permutation;
  rng_permutation_perm := lcg_permutation_perm
|}.

(** ** Tables and runs used as examples *)

Definition int_column (cells : list Z) : Column := mkColumn int64 (VInt <$> cells).
Definition text_column (cells : list string) : Column := mkColumn object (VStr <$> cells).
Definition str_column (cells : list string) : Column := mkColumn str_ (VStr <$> cells).

Definition range_index (n : nat) : list Z := Z.of_nat <$> seq 0 n.

(** Ten purchases, two of them eligible. *)
Definition table_small : DataFrame :=
  mkDataFrame (range_index 10) ["valor"; "fornecedor"; "y"]
    (<["valor" := int_column [120; 80; 45; 300; 15; 60; 75; 90; 10; 500]%Z]>
     (<["fornecedor" := text_column ["a"; "b"; "a"; "c"; "b"; "a"; "c"; "b"; "a"; "c"]]>
      (<["y" := int_column [0; 0; 1; 0; 0; 0; 0; 1; 0; 0]%Z]> ∅))).

(** The ten purchases with the supplier held under the string dtype of
    pandas 3. *)
Definition table_str : DataFrame :=
  mkDataFrame (range_index 10) ["valor"; "fornecedor"; "y"]
    (<["valor" := int_column [120; 80; 45; 300; 15; 60; 75; 90; 10; 500]%Z]>
     (<["fornecedor" := str_column ["a"; "b"; "a"; "c"; "b"; "a"; "c"; "b"; "a"; "c"]]>
      (<["y" := int_column [0; 0; 1; 0; 0; 0; 0; 1; 0; 0]%Z]> ∅))).

(** Four purchases, two of each class. *)
Definition table_tiny : DataFrame :=
  mkDataFrame (range_index 4) ["valor"; "y"]
    (<["valor" := int_column [120; 80; 45; 300]%Z]>
     (<["y" := int_column [0; 1; 0; 1]%Z]> ∅)).

(** Five purchases, a single one eligible. *)
Definition table_single : DataFrame :=
  mkDataFrame (range_index 5) ["valor"; "y"]
    (<["valor" := int_column [120; 80; 45; 300; 15]%Z]>
     (<["y" := int_column [0; 0; 0; 1; 0]%Z]> ∅)).

(** A thousand purchases, every fifth one eligible. *)
Definition table_1000 : DataFrame :=
  mkDataFrame (range_index 1000) ["valor"; "y"]
    (<["valor" := int_column (range_index 1000)]>
     (<["y" := int_column ((fun i => if (i mod 5 =? 0)%nat then 1 else 0)%Z
                            <$> seq 0 1000)]> ∅)).

(** The splitter that [main] builds. *)
Definition main_splitter : DataSplitter := mkDataSplitter (1 # 5) (1 # 5) (Some 1%Z).

(** A bundle as [main] saves it, for the ten purchases. *)
Definition bundle_small : Dict :=
  match (split_data (R := lcg_random_state) main_splitter table_small "y" 0%Z).1 with
  | inr (x_train, x_val, x_test, y_train, y_val, y_test) =>
      [("x_train", OFrame x_train); ("x_val", OFrame x_val); ("x_test", OFrame x_test);
       ("y_train", OSeries y_train); ("y_val", OSeries y_val);
       ("y_test", OSeries y_test); ("categorical_cols", OStrList ["fornecedor"])]
  | inl _ => []
  end.

Definition scripts_dir : Path := ["/"; "repo"; "scripts"].

(** The six outputs of [main]'s split of the ten purchases. *)
Definition outputs_small : Splits :=
  match (split_data (R := lcg_random_state) main_splitter table_small "y" 0%Z).1 with
  | inr outputs => outputs
  | inl _ => (table_small, table_small, table_small,
              mkSeries "" [] int64 [], mkSeries "" [] int64 [], mkSeries "" [] int64 [])
  end.

(** The row labels of the train part of a run, when it returned. *)
Definition train_index (r : result Splits) : list Z :=
  match r with
  | inr (x_train, _, _, _, _, _) => df_index x_train
  | inl _ => []
  end.

(** The file system after [main] saved the bundle of the ten purchases. *)
Definition fs_saved : FS PyObj :=
  (save_splits (pkl := plain_pickle) (scripts_dir ++ ["data_splitting.py"])
     main_splitter bundle_small (PStr "outputs/splits") (Some 1%Z) ∅).2.

(** A directory with the ten purchases as a csv file. *)
Definition fs_data : FS PyObj :=
  <[ ["data"; "compras.csv"] := File (OFrame table_small) ]>
    (<[ ["data"; "notas.txt"] := File (OStrList ["nota"]) ]>
       (<[ ["data"] := Dir ]> ∅)).

(** [stated] and [actual] differ by at most a fifth of [stated]. *)
Definition approximately (stated actual : nat) : Prop :=
  5 * (actual - stated) <= stated /\ 5 * (stated - actual) <= stated.

(** Ten purchases with the target column under the name [main] expects. *)
Definition table_compras : DataFrame :=
  mkDataFrame (range_index 10) ["valor"; "fornecedor"; "Elegível?"]
    (<["valor" := int_column [120; 80; 45; 300; 15; 60; 75; 90; 10; 500]%Z]>
     (<["fornecedor" := text_column ["a"; "b"; "a"; "c"; "b"; "a"; "c"; "b"; "a"; "c"]]>
      (<["Elegível?" := int_column [0; 0; 1; 0; 0; 0; 0; 1; 0; 0]%Z]> ∅))).

(** A repository with the processed dataset in its place. *)
Definition fs_repo : FS PyObj :=
  <[ ["/"; "repo"; "data"; "processed"; "Ficheiro_Compras_Processado.csv"]
       := File (OFrame table_compras) ]>
    (<[ ["/"; "repo"; "data"; "processed"] := Dir ]>
       (<[ ["/"; "repo"; "data"] := Dir ]>
          (<[ ["/"; "repo"] := Dir ]> (<[ ["/"] := Dir ]> ∅)))).

(** The same repository with a dataset that has no column [Elegível?]. *)
Definition fs_repo_other : FS PyObj :=
  <[ ["/"; "repo"; "data"; "processed"; "Ficheiro_Compras_Processado.csv"]
       := File (OFrame table_small) ]> ∅.

(** A file where the output directory should go. *)
Definition fs_blocked : FS PyObj :=
  <[ ["/"; "repo"; "outputs"] := File (OStrList []) ]> ∅.

(** A file whose name is an extension and nothing else. *)
Definition fs_hidden : FS PyObj :=
  <[ ["data"; ".csv"] := File (OFrame table_small) ]> ∅.

(** Four purchases, none of them eligible. *)
Definition table_uniform : DataFrame :=
  mkDataFrame (range_index 4) ["valor"; "y"]
    (<["valor" := int_column [120; 80; 45; 300]%Z]>
     (<["y" := int_column [0; 0; 0; 0]%Z]> ∅)).

(** The ten purchases under other column names, with other labels in
    another order. *)
Definition table_other : DataFrame :=
  mkDataFrame (range_index 10) ["preco"; "alvo"]
    (<["preco" := int_column [1; 2; 3; 4; 5; 6; 7; 8; 9; 10]%Z]>
     (<["alvo" := int_column [1; 1; 1; 0; 0; 1; 0; 1; 0; 0]%Z]> ∅)).

(** The numbers of rows of the train, validation and test parts. *)
Definition part_sizes (outputs : Splits) : nat * nat * nat :=
  let '(x_train, x_val, x_test, _, _, _) := outputs in
  (Pandas.nrows x_train, Pandas.nrows x_val, Pandas.nrows x_test).

(** * Properties *)

(** ** Results and logging *)

Lemma logger_info_data_splitting : logger_info data_splitting_globals = inr tt.
Proof. reflexivity. Qed.

Lemma logger_info_load_splits : logger_info load_splits_globals = inr tt.
Proof. reflexivity. Qed.

Lemma logger_info_train_model :
  logger_info train_model_globals = inl (NameError "logger").
Proof. reflexivity. Qed.

(** ** The dataset loader *)

Section LoaderProperties.
Context {bytes : Type} {readers : TableReaders bytes}.

Lemma load_dataset_csv (fs : FS bytes) p :
  exists_ fs (Path_of p) = true ->
  Pathlib.suffix (Path_of p) = ".csv" ->
  load_dataset fs p = pd_read_csv fs (Path_of p).
Proof.
  intros Hex Hsuf. unfold load_dataset. rewrite Hex, Hsuf. simpl.
  by destruct (pd_read_csv fs (Path_of p)).
Qed.

Lemma load_dataset_xlsx (fs : FS bytes) p :
  exists_ fs (Path_of p) = true ->
  Pathlib.suffix (Path_of p) = ".xlsx" ->
  load_dataset fs p = pd_read_excel fs (Path_of p).
Proof.
  intros Hex Hsuf. unfold load_dataset. rewrite Hex, Hsuf. simpl.
  by destruct (pd_read_excel fs (Path_of p)).
Qed.

Lemma load_dataset_missing (fs : FS bytes) p :
  exists_ fs (Path_of p) = false ->
  load_dataset fs p = inl (FileNotFoundError (Path_of p)).
Proof. intros Hex. unfold load_dataset. by rewrite Hex. Qed.

Lemma load_dataset_other (fs : FS bytes) p :
  exists_ fs (Path_of p) = true ->
  Pathlib.suffix (Path_of p) ≠ ".csv" ->
  Pathlib.suffix (Path_of p) ≠ ".xlsx" ->
  exists msg, load_dataset fs p = inl (ValueError msg).
Proof.
  intros Hex Hcsv Hxlsx. unfold load_dataset. rewrite Hex. simpl.
  apply String.eqb_neq in Hcsv, Hxlsx. rewrite Hcsv, Hxlsx. eauto.
Qed.

(** C6: [load_dataset] raises [FileNotFoundError] for a path that does not
    exist, raises [ValueError] (the unsupported-format error) for an existing
    path whose suffix is neither [.csv] nor [.xlsx], and for an existing
    [.csv] or [.xlsx] path hands back exactly what the reader of that format
    produced, with no check of its own on the table. *)
Theorem load_dataset_contract (fs : FS bytes) (dataset_path : PathLike) :
  let path := Path_of dataset_path in
  (exists_ fs path = false ->
     load_dataset fs dataset_path = inl (FileNotFoundError path)) /\
  (exists_ fs path = true ->
     Pathlib.suffix path ≠ ".csv" -> Pathlib.suffix path ≠ ".xlsx" ->
     exists msg, load_dataset fs dataset_path = inl (ValueError msg)) /\
  (exists_ fs path = true -> Pathlib.suffix path = ".csv" ->
     load_dataset fs dataset_path = pd_read_csv fs path /\
     forall table, pd_read_csv fs path = inr table ->
                   load_dataset fs dataset_path = inr table) /\
  (exists_ fs path = true -> Pathlib.suffix path = ".xlsx" ->
     load_dataset fs dataset_path = pd_read_excel fs path /\
     forall table, pd_read_excel fs path = inr table ->
                   load_dataset fs dataset_path = inr table).
Proof.
  intros path. repeat split.
  - apply load_dataset_missing.
  - apply load_dataset_other.
  - by apply load_dataset_csv.
  - intros table Ht. rewrite <- Ht. by apply load_dataset_csv.
  - by apply load_dataset_xlsx.
  - intros table Ht. rewrite <- Ht. by apply load_dataset_xlsx.
Qed.

(** C10: the existence test comes before the dispatch on the suffix: a path
    that does not exist gives [FileNotFoundError] whatever its suffix, and
    any other outcome of [load_dataset], the unsupported-format
    [ValueError] among them, is only seen for a path that exists. *)
Theorem load_dataset_existence_first (fs : FS bytes) (dataset_path : PathLike) :
  let path := Path_of dataset_path in
  (exists_ fs path = false ->
     load_dataset fs dataset_path = inl (FileNotFoundError path)) /\
  (forall msg, load_dataset fs dataset_path = inl (ValueError msg) ->
     exists_ fs path = true) /\
  (load_dataset fs dataset_path ≠ inl (FileNotFoundError path) ->
     exists_ fs path = true).
Proof.
  intros path. split; [apply load_dataset_missing|]. split.
  - intros msg Hload. destruct (exists_ fs path) eqn:Hex; [done|].
    rewrite (load_dataset_missing _ _ Hex) in Hload. discriminate.
  - intros Hne. destruct (exists_ fs path) eqn:Hex; [done|].
    by rewrite (load_dataset_missing _ _ Hex) in Hne.
Qed.

End LoaderProperties.

(** ** The pool adapter *)

Section PoolProperties.
Context {cb : CatBoost}.

(** C9 (as the code has it): [catboost_pools] evaluates [logger] first, a
    name the script never binds, so every call ends in [NameError] before a
    single pool is built. *)
Theorem catboost_pools_name_error (x_train x_val x_test : DataFrame)
    (y_train y_val y_test : Series) (categorical_cols : list string) :
  catboost_pools x_train x_val x_test y_train y_val y_test categorical_cols
  = inl (NameError "logger").
Proof. reflexivity. Qed.

End PoolProperties.

(** ** The categorical feature identifier *)

Lemma is_categorical_spec d :
  is_categorical d = true <-> d = object \/ d = category.
Proof. destruct d; simpl; split; intros H; try done; try (by left); try (by right); by destruct H. Qed.

Lemma is_categorical_not_numeric d :
  Pandas.is_numeric d = true -> is_categorical d = false.
Proof. by destruct d. Qed.

Lemma categorical_among_spec (x_train : DataFrame) (columns : list string) :
  (forall c, c ∈ columns -> is_Some (df_data x_train !! c)) ->
  exists cats, categorical_among x_train columns = inr cats /\
    forall c, c ∈ cats <->
      c ∈ columns /\ exists col, df_data x_train !! c = Some col /\
                                 is_categorical (col_dtype col) = true.
Proof.
  induction columns as [|c0 columns IH]; intros Hall.
  - exists []. split; [done|]. intros c. split; [by intros ?%elem_of_nil|].
    by intros [?%elem_of_nil _].
  - destruct IH as (rest & Hrest & Hspec).
    { intros c Hc. apply Hall. by right. }
    destruct (Hall c0) as [col0 Hcol0]; [by left|].
    exists (if is_categorical (col_dtype col0) then c0 :: rest else rest).
    split.
    { simpl. unfold Pandas.getitem. rewrite Hcol0. simpl. by rewrite Hrest. }
    intros c. destruct (is_categorical (col_dtype col0)) eqn:Hcat.
    + rewrite elem_of_cons, Hspec, elem_of_cons. split.
      * intros [-> | [Hc Hex]]; [|by auto]. split; [by left|]. eauto.
      * intros [[-> | Hc] Hex]; [by left | by right].
    + rewrite Hspec, elem_of_cons. split; [by intros [Hc Hex]; auto|].
      intros [[-> | Hc] Hex]; [|done].
      destruct Hex as (col & Hcol & Hcat'). congruence.
Qed.


(** ** Reading the persisted splits *)

Section LoadProperties.
Context {bytes : Type} {pkl : Pickle bytes}.

Lemma load_data_splits_dir (file : Path) (root : PathLike) (tag : option Z)
    (fs : FS bytes) :
  load_data_splits file root tag fs =
  match check_files (split_dir file root tag) required_files fs with
  | inl e => (inl e, [])
  | inr _ => load_files (split_dir file root tag) required_files fs [] []
  end.
Proof. reflexivity. Qed.

Lemma check_files_first_missing (full : Path) (files : list string)
    (fs : FS bytes) :
  (exists f, f ∈ files /\ exists_ fs (full // f) = false) ->
  exists before first after,
    files = before ++ first :: after /\
    Forall (fun f => exists_ fs (full // f) = true) before /\
    exists_ fs (full // first) = false /\
    check_files full files fs = inl (FileNotFoundError (full // first)).
Proof.
  induction files as [|f0 files IH]; intros (f & Hin & Hmiss).
  - by apply elem_of_nil in Hin.
  - destruct (exists_ fs (full // f0)) eqn:Hex0.
    + destruct IH as (before & first & after & -> & Hbefore & Hfirst & Hrun).
      { apply elem_of_cons in Hin as [-> | Hin]; [congruence | eauto]. }
      exists (f0 :: before), first, after. simpl. rewrite Hex0. simpl.
      repeat split; auto.
    + exists [], f0, files. simpl. rewrite Hex0. simpl. repeat split; auto.
Qed.

(** C5: when one of the seven expected files is absent from the resolved
    split directory, [load_data_splits] raises [FileNotFoundError] naming the
    first absent file in the order of [required_files]; no file has been
    handed to [pickle.load], and no mapping is returned. *)
Theorem load_data_splits_fail_fast (file : Path) (splits_path : PathLike)
    (random_state : option Z) (fs : FS bytes) :
  (exists f, f ∈ required_files /\
             exists_ fs (split_dir file splits_path random_state // f) = false) ->
  exists before first after,
    required_files = before ++ first :: after /\
    Forall (fun f => exists_ fs (split_dir file splits_path random_state // f) = true)
           before /\
    exists_ fs (split_dir file splits_path random_state // first) = false /\
    load_data_splits file splits_path random_state fs =
      (inl (FileNotFoundError (split_dir file splits_path random_state // first)), []).
Proof.
  intros Hmiss.
  destruct (check_files_first_missing _ _ _ Hmiss)
    as (before & first & after & Hsplit & Hbefore & Hfirst & Hrun).
  exists before, first, after. repeat split; auto.
  by rewrite load_data_splits_dir, Hrun.
Qed.

End LoadProperties.

(** ** Writing the splits and reading them back *)

Lemma dict_get_elem_of (k : string) (d : Dict) :
  k ∈ d.*1 -> exists v, dict_get k d = Some v /\ (k, v) ∈ d.
Proof.
  induction d as [|[k0 v0] d IH]; simpl; [by intros ?%elem_of_nil|].
  intros Hin. destruct (String.eqb k k0) eqn:Heq.
  - apply String.eqb_eq in Heq as ->. exists v0. split; [done | by left].
  - apply String.eqb_neq in Heq.
    apply elem_of_cons in Hin as [? | Hin]; [done|].
    destruct (IH Hin) as (v & Hv & Hel). exists v. split; [done | by right].
Qed.

Lemma dict_get_not_elem_of (k : string) (d : Dict) :
  k ∉ d.*1 -> dict_get k d = None.
Proof.
  induction d as [|[k0 v0] d IH]; simpl; [done|].
  intros Hin. apply not_elem_of_cons in Hin as [Hne Hin].
  apply String.eqb_neq in Hne. rewrite Hne. auto.
Qed.

Lemma required_file_path (full : Path) (name : string) :
  name ∈ bundle_names -> full // (name +:+ ".pkl") = full ++ [name +:+ ".pkl"].
Proof.
  unfold bundle_names. intros Hin.
  repeat (apply elem_of_cons in Hin as [-> | Hin]; [reflexivity|]).
  by apply elem_of_nil in Hin.
Qed.

Lemma bundle_file_inj (name name' : string) :
  name ∈ bundle_names -> name' ∈ bundle_names ->
  name +:+ ".pkl" = name' +:+ ".pkl" -> name = name'.
Proof.
  unfold bundle_names. intros Hin Hin'.
  repeat (apply elem_of_cons in Hin as [-> | Hin];
          [repeat (apply elem_of_cons in Hin' as [-> | Hin'];
                   [by (reflexivity || discriminate)|]);
           by apply elem_of_nil in Hin'|]).
  by apply elem_of_nil in Hin.
Qed.

Lemma parent_child (p : Path) (c : string) : Pathlib.parent (p ++ [c]) = p.
Proof.
  unfold Pathlib.parent. induction p as [|a p IH]; [done|].
  simpl. rewrite IH. by destruct p.
Qed.

Section RoundTrip.
Context {bytes : Type} {pkl : Pickle bytes}.

Lemma save_splits_dir (file : Path) (self : DataSplitter) (splits_data : Dict)
    (output_dir : PathLike) (tag : option Z) (fs : FS bytes) :
  save_splits file self splits_data output_dir tag fs =
  match mkdir_parents (split_dir file output_dir tag) fs with
  | (inl e, fs1) => (inl e, fs1)
  | (inr _, fs1) => dump_items (split_dir file output_dir tag) splits_data fs1
  end.
Proof.
  unfold save_splits. fold (split_dir file output_dir tag).
  by destruct (mkdir_parents _ fs) as [[e|[]] fs1].
Qed.

Lemma write_bytes_inr (p : Path) (data : bytes) (fs fs' : FS bytes) :
  write_bytes p data fs = inr fs' -> fs' = <[p := File data]> fs.
Proof.
  unfold write_bytes, ret, raise. destruct (negb _); [discriminate|].
  destruct (fs !! p) as [[d|]|]; congruence.
Qed.

(** The writes of [dump_items] touch the files of its items only. *)
Lemma dump_items_other (full : Path) (items : Dict) (fs fs' : FS bytes) (p : Path) :
  dump_items full items fs = (inr tt, fs') ->
  (forall k, k ∈ items.*1 -> full // (k +:+ ".pkl") ≠ p) ->
  fs' !! p = fs !! p.
Proof.
  revert fs. induction items as [|[k0 v0] items IH]; intros fs Hrun Hother.
  - simpl in Hrun. congruence.
  - simpl in Hrun.
    destruct (write_bytes _ _ fs) as [e|fs1] eqn:Hw; [discriminate|].
    apply write_bytes_inr in Hw as ->.
    rewrite (IH _ Hrun); [|intros k Hk; apply Hother; by right].
    apply lookup_insert_ne, Hother. by left.
Qed.

(** After a successful [dump_items], every item is in its own file. *)
Lemma dump_items_written (full : Path) (items : Dict) (fs fs' : FS bytes) :
  dump_items full items fs = (inr tt, fs') ->
  NoDup items.*1 ->
  (forall k k', k ∈ items.*1 -> k' ∈ items.*1 ->
     full // (k +:+ ".pkl") = full // (k' +:+ ".pkl") -> k = k') ->
  forall k v, (k, v) ∈ items ->
    fs' !! (full // (k +:+ ".pkl")) = Some (File (pickle_dumps v)).
Proof.
  revert fs. induction items as [|[k0 v0] items IH];
    intros fs Hrun Hnodup Hinj k v Hin; [by apply elem_of_nil in Hin|].
  simpl in Hrun.
  destruct (write_bytes _ _ fs) as [e|fs1] eqn:Hw; [discriminate|].
  apply write_bytes_inr in Hw as ->.
  apply NoDup_cons in Hnodup as [Hk0 Hnodup].
  apply elem_of_cons in Hin as [[= -> ->] | Hin].
  - rewrite (dump_items_other _ _ _ _ _ Hrun); [apply lookup_insert_eq|].
    intros k Hk Heq. apply Hinj in Heq; [|by right | by left].
    by subst.
  - eapply IH; eauto.
    intros k1 k2 H1 H2. apply Hinj; by right.
Qed.

Lemma check_files_ok (full : Path) (files : list string) (fs : FS bytes) :
  Forall (fun f => exists_ fs (full // f) = true) files ->
  check_files full files fs = inr tt.
Proof.
  induction 1 as [|f files Hf _ IH]; simpl; [done|]. by rewrite Hf.
Qed.

Lemma load_files_all (full : Path) (files : list string) (objs : list PyObj)
    (fs : FS bytes) (loaded : Dict) (opened : list Path) :
  Forall2 (fun f o => fs !! (full // f) = Some (File (pickle_dumps o))) files objs ->
  load_files full files fs loaded opened =
  (inr (foldl (fun d fo => dict_set (str_replace ".pkl" "" fo.1) fo.2 d)
              loaded (zip files objs)),
   opened ++ ((fun f => full // f) <$> files)).
Proof.
  intros Hall. revert loaded opened.
  induction Hall as [|f o files objs Hf _ IH]; intros loaded opened.
  - simpl. by rewrite app_nil_r.
  - cbn [load_files]. unfold read_bytes. rewrite Hf. cbn [ret bind].
    rewrite pickle_loads_dumps, logger_info_load_splits, IH.
    cbn [zip zip_with foldl fmap list_fmap]. by rewrite <- app_assoc.
Qed.

(** C2: a bundle with the seven named items that [save_splits] wrote under
    a root and a tag is read back by [load_data_splits] from the same root
    and tag as a mapping with the same seven keys and, under each key, the
    very object that was saved: the same frame, series or list, with the
    same dtype and the same kind of value in every cell. *)
Theorem save_load_round_trip (scripts : Path) (self : DataSplitter)
    (bundle : Dict) (root : PathLike) (tag : option Z) (fs fs' : FS bytes) :
  bundle.*1 ≡ₚ bundle_names ->
  save_splits (scripts ++ ["data_splitting.py"]) self bundle root tag fs
    = (inr tt, fs') ->
  exists loaded opened,
    load_data_splits (scripts ++ ["load_splits.py"]) root tag fs'
      = (inr loaded, opened) /\
    loaded.*1 = bundle_names /\
    forall name, dict_get name loaded = dict_get name bundle.
Proof.
  intros Hkeys Hsave.
  rewrite save_splits_dir in Hsave. rewrite load_data_splits_dir.
  assert (split_dir (scripts ++ ["load_splits.py"]) root tag
          = split_dir (scripts ++ ["data_splitting.py"]) root tag) as ->.
  { unfold split_dir. by rewrite !parent_child. }
  set (dir := split_dir (scripts ++ ["data_splitting.py"]) root tag) in *.
  destruct (mkdir_parents dir fs) as [[e|[]] fs1]; [discriminate|].
  assert (NoDup bundle.*1) as Hnodup.
  { rewrite Hkeys. unfold bundle_names. compute_done. }
  assert (forall k, k ∈ bundle_names -> exists v,
            dict_get k bundle = Some v /\
            fs' !! (dir // (k +:+ ".pkl")) = Some (File (pickle_dumps v))) as Hfile.
  { intros k Hk. rewrite <- Hkeys in Hk.
    destruct (dict_get_elem_of _ _ Hk) as (v & Hget & Hel).
    exists v. split; [done|].
    eapply dump_items_written; eauto.
    intros k1 k2 H1 H2. rewrite Hkeys in H1, H2.
    rewrite !required_file_path by done.
    intros Heq%app_inv_head. injection Heq as Heq.
    by apply bundle_file_inj. }
  destruct (Hfile "x_train") as (v1 & Hg1 & Hf1); [compute_done|].
  destruct (Hfile "x_val") as (v2 & Hg2 & Hf2); [compute_done|].
  destruct (Hfile "x_test") as (v3 & Hg3 & Hf3); [compute_done|].
  destruct (Hfile "y_train") as (v4 & Hg4 & Hf4); [compute_done|].
  destruct (Hfile "y_val") as (v5 & Hg5 & Hf5); [compute_done|].
  destruct (Hfile "y_test") as (v6 & Hg6 & Hf6); [compute_done|].
  destruct (Hfile "categorical_cols") as (v7 & Hg7 & Hf7); [compute_done|].
  assert (Forall2 (fun f o => fs' !! (dir // f) = Some (File (pickle_dumps o)))
            required_files [v1; v2; v3; v4; v5; v6; v7]) as Hall.
  { unfold required_files. by repeat constructor. }
  rewrite check_files_ok.
  2:{ eapply Forall2_Forall_l; [exact Hall|].
      apply Forall_forall. intros o _ f Hf. unfold exists_. by rewrite Hf. }
  rewrite (load_files_all _ _ _ _ _ _ Hall).
  exists [("x_train", v1); ("x_val", v2); ("x_test", v3); ("y_train", v4);
          ("y_val", v5); ("y_test", v6); ("categorical_cols", v7)].
  eexists. split; [reflexivity|]. split; [reflexivity|].
  intros name.
  destruct (decide (name ∈ bundle_names)) as [Hin|Hout].
  - unfold bundle_names in Hin.
    repeat (apply elem_of_cons in Hin as [-> | Hin]; [by simpl|]).
    by apply elem_of_nil in Hin.
  - rewrite (dict_get_not_elem_of name bundle) by (by rewrite Hkeys).
    unfold bundle_names in Hout. simpl.
    repeat (apply not_elem_of_cons in Hout as [Hne%String.eqb_neq Hout];
            rewrite Hne; clear Hne).
    done.
Qed.

End RoundTrip.

(** ** Positions and counting *)

Section Positions.
Context {A : Type} `{Inhabited A}.

Lemma length_take_at (l : list A) (pos : list nat) :
  length (Pandas.take_at l pos) = length pos.
Proof. unfold Pandas.take_at. by rewrite length_fmap. Qed.

Lemma take_at_app (l : list A) (p q : list nat) :
  Pandas.take_at l (p ++ q) = Pandas.take_at l p ++ Pandas.take_at l q.
Proof. unfold Pandas.take_at. by rewrite fmap_app. Qed.

Lemma take_at_seq (l : list A) : Pandas.take_at l (seq 0 (length l)) = l.
Proof.
  apply list_eq. intros i. unfold Pandas.take_at.
  rewrite list_lookup_fmap.
  destruct (decide (i < length l)) as [Hlt|Hge].
  - rewrite (lookup_seq_lt 0 _ _ Hlt). simpl.
    symmetry. by apply list_lookup_lookup_total_lt.
  - rewrite lookup_seq_ge by lia. rewrite lookup_ge_None_2 by lia. done.
Qed.

Lemma take_at_Permutation (l : list A) (p q : list nat) :
  p ≡ₚ q -> Pandas.take_at l p ≡ₚ Pandas.take_at l q.
Proof. intros Hpq. unfold Pandas.take_at. by rewrite Hpq. Qed.

Lemma take_at_all (l : list A) (p : list nat) :
  p ≡ₚ seq 0 (length l) -> Pandas.take_at l p ≡ₚ l.
Proof. intros Hp. rewrite (take_at_Permutation _ _ _ Hp). by rewrite take_at_seq. Qed.

(** Selecting from a selection is selecting at the selected positions. *)
Lemma take_at_take_at (l : list A) (p q : list nat) :
  Forall (fun j => j < length p) q ->
  Pandas.take_at (Pandas.take_at l p) q = Pandas.take_at l (Pandas.take_at p q).
Proof.
  intros Hq. unfold Pandas.take_at. rewrite <- list_fmap_compose.
  apply Forall_fmap_ext_1. eapply Forall_impl; [exact Hq|].
  intros j Hj. simpl.
  exact (list_lookup_total_fmap (fun k => l !!! k) p j Hj).
Qed.

(** Filtering the selected entries and filtering the positions agree. *)
Lemma filter_take_at (P : A -> Prop) `{forall a, Decision (P a)}
    (l : list A) (pos : list nat) :
  filter P (Pandas.take_at l pos)
  = Pandas.take_at l (filter (fun j => P (l !!! j)) pos).
Proof.
  unfold Pandas.take_at. induction pos as [|j pos IH]; [done|].
  rewrite fmap_cons, !filter_cons, IH. by destruct (decide (P (l !!! j))).
Qed.

End Positions.

Lemma Permutation_seq_bound (p : list nat) (n : nat) :
  p ≡ₚ seq 0 n -> Forall (fun j => j < n) p.
Proof.
  intros Hp. apply Forall_forall. intros j Hj.
  rewrite Hp in Hj. apply elem_of_seq in Hj. lia.
Qed.

Lemma sum_list_alter_S (l : list nat) (i : nat) :
  i < length l -> sum_list (alter S i l) = S (sum_list l).
Proof.
  revert i. induction l as [|a l IH]; intros [|i] Hi; simpl in *; try lia.
  specialize (IH i ltac:(lia)). unfold alter in IH. lia.
Qed.

Lemma sum_list_foldr_alter_S (l : list nat) (chosen : list nat) :
  Forall (fun i => i < length l) chosen ->
  sum_list (foldr (alter S) l chosen) = sum_list l + length chosen.
Proof.
  induction 1 as [|i chosen Hi _ IH]; simpl; [lia|].
  rewrite sum_list_alter_S; [lia|].
  clear IH. induction chosen as [|j chosen IH]; simpl; [done|].
  by rewrite length_alter.
Qed.

Lemma length_foldr_alter (l : list nat) (chosen : list nat) :
  length (foldr (alter S) l chosen) = length l.
Proof. induction chosen as [|j chosen IH]; simpl; [done|]. by rewrite length_alter. Qed.

Lemma lookup_foldr_alter_S (l : list nat) (chosen : list nat) (i : nat) :
  NoDup chosen ->
  foldr (alter S) l chosen !! i
  = if decide (i ∈ chosen) then S <$> l !! i else l !! i.
Proof.
  induction 1 as [|j chosen Hj _ IH]; simpl; [done|].
  rewrite list_lookup_alter. destruct (decide (j = i)) as [->|Hne].
  - rewrite IH. rewrite decide_False by done.
    by rewrite decide_True by (by left).
  - rewrite IH. destruct (decide (i ∈ chosen)) as [Hin|Hout].
    + by rewrite decide_True by (by right).
    + rewrite decide_False; [done|]. intros [?|?]%elem_of_cons; by subst.
Qed.

(** Two lists with equal sums, one pointwise below the other, are equal. *)
Lemma Forall2_le_sum_eq (a b : list nat) :
  Forall2 le a b -> sum_list a = sum_list b -> a = b.
Proof.
  intros Hle. assert (sum_list a <= sum_list b) as Hsum.
  { induction Hle; simpl; lia. }
  induction Hle as [|x y a b Hxy Hab IH]; simpl; [done|]. intros Heq.
  assert (sum_list a <= sum_list b) by (clear -Hab; induction Hab; simpl; lia).
  assert (x = y) as -> by lia. f_equal. apply IH; lia.
Qed.

(** ** The stratified splitter: the allocation of draws to classes *)

Section Allocation.
Context {R : RandomState}.

Lemma rng_shuffle_perm (g : rng) (x : list nat) : (rng_shuffle g x).1 ≡ₚ x.
Proof.
  unfold rng_shuffle. pose proof (rng_permutation_perm g (length x)) as Hp.
  destruct (rng_permutation g (length x)) as [p g']. simpl in *.
  by apply take_at_all.
Qed.

Lemma NoDup_take_at (l q : list nat) :
  NoDup l -> NoDup q -> Forall (fun j => j < length l) q ->
  NoDup (Pandas.take_at l q).
Proof.
  intros Hl Hq Hlt. unfold Pandas.take_at.
  apply NoDup_fmap_2_strong; [|done].
  intros i j Hi Hj Heq. rewrite Forall_forall in Hlt.
  pose proof (list_lookup_lookup_total_lt l i (Hlt i Hi)) as Hli.
  pose proof (list_lookup_lookup_total_lt l j (Hlt j Hj)) as Hlj.
  rewrite Heq in Hli. exact (NoDup_lookup l i j _ Hl Hli Hlj).
Qed.

Lemma rng_choice_spec (g : rng) (inds : list nat) (size : nat) :
  NoDup inds ->
  NoDup (rng_choice g inds size).1 /\
  (forall i, i ∈ (rng_choice g inds size).1 -> i ∈ inds) /\
  length (rng_choice g inds size).1 = size `min` length inds.
Proof.
  intros Hinds. unfold rng_choice.
  pose proof (rng_permutation_perm g (length inds)) as Hp.
  destruct (rng_permutation g (length inds)) as [p g']. simpl in *.
  assert (Forall (fun j => j < length inds) (take size p)) as Hlt.
  { apply Forall_forall. intros j [k [Hk _]]%elem_of_take.
    apply list_elem_of_lookup_2 in Hk. rewrite Hp in Hk.
    apply elem_of_seq in Hk. lia. }
  split; [|split].
  - apply NoDup_take_at; [done| |done].
    apply (sublist_NoDup (take size p) p); [|apply sublist_take].
    rewrite Hp. apply NoDup_seq.
  - intros i (j & -> & Hj)%list_elem_of_fmap.
    rewrite Forall_forall in Hlt.
    apply list_elem_of_lookup_total_2. by apply Hlt.
  - rewrite length_take_at, length_take. by rewrite Hp, length_seq.
Qed.

Lemma NoDup_np_where (value : nat) (remainder : list nat) :
  NoDup (np_where value remainder).
Proof. apply NoDup_filter, NoDup_seq. Qed.

Lemma elem_of_np_where (value : nat) (remainder : list nat) (i : nat) :
  i ∈ np_where value remainder <-> remainder !! i = Some value.
Proof.
  unfold np_where. rewrite list_elem_of_filter, elem_of_seq. split; [by intros []|].
  intros Hi. split; [done|]. apply lookup_lt_Some in Hi. lia.
Qed.

Lemma capacity_cons (value : nat) (values remainder : list nat) :
  capacity (value :: values) remainder
  = length (np_where value remainder) + capacity values remainder.
Proof. reflexivity. Qed.

(** What the loop over the remainders does: it adds one to
    [need_to_add] entries (as many as the values hold, if they hold fewer),
    never twice to the same entry, and an entry is only raised when the
    values before its own hold fewer than [need_to_add] entries. *)
Lemma add_by_remainder_spec (values remainder floored : list nat)
    (need_to_add : nat) (g : rng) :
  NoDup values -> length floored = length remainder ->
  length (add_by_remainder values remainder floored need_to_add g).1
    = length floored /\
  sum_list (add_by_remainder values remainder floored need_to_add g).1
    = sum_list floored + need_to_add `min` capacity values remainder /\
  forall i a, floored !! i = Some a ->
    (add_by_remainder values remainder floored need_to_add g).1 !! i = Some a \/
    ((add_by_remainder values remainder floored need_to_add g).1 !! i = Some (S a) /\
     exists vs1 v vs2, values = vs1 ++ v :: vs2 /\ remainder !! i = Some v /\
                       capacity vs1 remainder < need_to_add).
Proof.
  revert floored need_to_add g.
  induction values as [|v vs IH]; intros fl need g Hnodup Hlen.
  { simpl. split; [done|]. split; [unfold capacity; simpl; lia|]. auto. }
  apply NoDup_cons in Hnodup as [Hv Hvs].
  cbn [add_by_remainder].
  set (inds := np_where v remainder).
  destruct (rng_choice_spec g inds (length inds `min` need) (NoDup_np_where _ _))
    as (Hch_nodup & Hch_in & Hch_len).
  destruct (rng_choice g inds (length inds `min` need)) as [chosen g'].
  simpl in Hch_nodup, Hch_in, Hch_len.
  assert (Forall (fun i => i < length fl) chosen) as Hch_lt.
  { apply Forall_forall. intros i Hi%Hch_in. apply elem_of_np_where in Hi.
    apply lookup_lt_Some in Hi. lia. }
  assert (forall i a, fl !! i = Some a ->
            foldr (alter S) fl chosen !! i
            = if decide (i ∈ chosen) then Some (S a) else Some a) as Hfl1.
  { intros i a Hi. rewrite lookup_foldr_alter_S, Hi by done. by destruct (decide _). }
  rewrite capacity_cons. fold inds.
  destruct (decide (need - length inds `min` need = 0)) as [Hstop|Hgo]; simpl.
  - split; [apply length_foldr_alter|]. split.
    { rewrite sum_list_foldr_alter_S by done. lia. }
    intros i a Hi. rewrite (Hfl1 i a Hi).
    destruct (decide (i ∈ chosen)) as [Hin|Hout]; [right|by left].
    split; [done|]. exists [], v, vs. split; [done|]. split.
    + by apply elem_of_np_where, Hch_in.
    + unfold capacity. simpl. destruct chosen; [by apply elem_of_nil in Hin|].
      simpl in Hch_len. lia.
  - destruct (IH (foldr (alter S) fl chosen)
                (need - length inds `min` need) g' Hvs) as (IHlen & IHsum & IHpt).
    { by rewrite length_foldr_alter. }
    split; [by rewrite IHlen, length_foldr_alter|]. split.
    { rewrite IHsum, sum_list_foldr_alter_S by done. lia. }
    intros i a Hi. pose proof (Hfl1 i a Hi) as Hi1.
    destruct (decide (i ∈ chosen)) as [Hin|Hout].
    + destruct (IHpt i (S a) Hi1) as [Hsame | (_ & vs1 & v' & vs2 & -> & Hrem & _)].
      * right. split; [done|]. exists [], v, (vs). split; [done|]. split.
        -- by apply elem_of_np_where, Hch_in.
        -- unfold capacity. simpl. lia.
      * exfalso. apply Hch_in, elem_of_np_where in Hin.
        assert (v = v') as <- by congruence.
        apply Hv. rewrite elem_of_app. right. by left.
    + destruct (IHpt i a Hi1) as [Hsame | (Hup & vs1 & v' & vs2 & -> & Hrem & Hcap)];
        [by left|right].
      split; [done|]. exists (v :: vs1), v', vs2. split; [done|]. split; [done|].
      rewrite capacity_cons. fold inds. lia.
Qed.

Lemma filter_ext_elem {A} (P Q : A -> Prop) `{forall x, Decision (P x)}
    `{forall x, Decision (Q x)} (l : list A) :
  (forall x, x ∈ l -> P x <-> Q x) -> filter P l = filter Q l.
Proof.
  induction l as [|a l IH]; intros Hext; [done|].
  rewrite !filter_cons, IH by (intros x Hx; apply Hext; by right).
  apply decide_ext, Hext. by left.
Qed.

Lemma filter_all {A} (P : A -> Prop) `{forall x, Decision (P x)} (l : list A) :
  (forall x, x ∈ l -> P x) -> filter P l = l.
Proof.
  induction l as [|a l IH]; intros Hall; [done|].
  rewrite filter_cons, decide_True by (apply Hall; by left).
  f_equal. apply IH. intros x Hx. apply Hall. by right.
Qed.

Lemma filter_none {A} (P : A -> Prop) `{forall x, Decision (P x)} (l : list A) :
  (forall x, x ∈ l -> ~ P x) -> filter P l = [].
Proof.
  induction l as [|a l IH]; intros Hall; [done|].
  rewrite filter_cons, decide_False by (apply Hall; by left).
  apply IH. intros x Hx. apply Hall. by right.
Qed.

Lemma length_filter_mono {A} (P Q : A -> Prop) `{forall x, Decision (P x)}
    `{forall x, Decision (Q x)} (l : list A) :
  (forall x, x ∈ l -> P x -> Q x) ->
  length (filter P l) <= length (filter Q l).
Proof.
  induction l as [|a l IH]; intros Himp; [done|].
  rewrite !filter_cons. specialize (IH (fun x Hx => Himp x (list_elem_of_further _ _ _ Hx))).
  pose proof (Himp a (list_elem_of_here _ _)).
  destruct (decide (P a)), (decide (Q a)); simpl; try lia. tauto.
Qed.

(** Positions holding a value are as many as the entries equal to it. *)
Lemma filter_lookup_snoc {A} `{EqDecision A} (y : list A) (x c : A) :
  filter (fun i => (y ++ [x]) !! i = Some c) (seq 0 (length (y ++ [x])))
  = filter (fun i => y !! i = Some c) (seq 0 (length y))
    ++ (if decide (x = c) then [length y] else []).
Proof.
  rewrite length_app. simpl. rewrite seq_app, filter_app. simpl. f_equal.
  - apply filter_ext_elem. intros i Hi%elem_of_seq.
    by rewrite lookup_app_l by lia.
  - rewrite filter_cons, filter_nil.
    rewrite lookup_app_r by lia. rewrite Nat.sub_diag. simpl.
    destruct (decide (x = c)) as [->|Hne].
    + by rewrite decide_True.
    + rewrite decide_False; [done|]. congruence.
Qed.

Lemma length_filter_lookup {A} `{EqDecision A} (y : list A) (c : A) :
  length (filter (fun i => y !! i = Some c) (seq 0 (length y)))
  = length (filter (fun v => v = c) y).
Proof.
  induction y as [|x y IH] using rev_ind; [done|].
  rewrite filter_lookup_snoc, filter_app, !length_app, IH. f_equal.
  rewrite filter_cons, filter_nil. by destruct (decide (x = c)).
Qed.

Lemma capacity_filter (values remainder : list nat) :
  NoDup values ->
  capacity values remainder = length (filter (fun r => r ∈ values) remainder).
Proof.
  induction 1 as [|v vs Hv _ IH].
  - unfold capacity. simpl. induction remainder as [|r rs IHr]; [done|].
    rewrite filter_cons. rewrite decide_False; [done|]. apply not_elem_of_nil.
  - rewrite capacity_cons, IH. unfold np_where. rewrite length_filter_lookup.
    clear IH. induction remainder as [|r rs IHr]; [done|].
    rewrite !filter_cons.
    destruct (decide (r = v)) as [->|Hne].
    + rewrite (decide_False (P := v ∈ vs)) by done.
      rewrite decide_True by (by left). simpl. lia.
    + destruct (decide (r ∈ vs)) as [Hin|Hout].
      * rewrite decide_True by (by right). simpl. lia.
      * rewrite decide_False; [done|]. intros [?|?]%elem_of_cons; by subst.
Qed.

Lemma sum_list_scale (counts : list nat) (n : nat) :
  sum_list ((fun c => c * n) <$> counts) = sum_list counts * n.
Proof. induction counts as [|c counts IH]; csimpl; [done|]. rewrite IH. lia. Qed.

Lemma sum_list_div_mod (a : list nat) (N : nat) :
  sum_list a
  = N * sum_list ((fun x => x / N) <$> a) + sum_list ((fun x => x mod N) <$> a).
Proof.
  induction a as [|x a IH]; csimpl; [lia|].
  pose proof (Nat.div_mod_eq x N). lia.
Qed.

Lemma sum_list_nonzero_bound (r : list nat) (N : nat) :
  Forall (fun x => x < N) r ->
  sum_list r <= (N - 1) * length (filter (fun x => x ≠ 0) r).
Proof.
  induction 1 as [|x r Hx _ IH]; simpl; [lia|].
  rewrite filter_cons. destruct (decide (x ≠ 0)); simpl; lia.
Qed.

Lemma floored_le (c n N : nat) : n <= N -> 0 < N -> c * n / N <= c.
Proof.
  intros Hn HN. pose proof (Nat.div_mod_eq (c * n) N). nia.
Qed.

Lemma floored_lt (c n N : nat) :
  n <= N -> 0 < N -> (c * n) mod N ≠ 0 -> S (c * n / N) <= c.
Proof.
  intros Hn HN Hr. pose proof (Nat.div_mod_eq (c * n) N). nia.
Qed.

(** In the list of distinct remainders, largest first, zero comes last. *)
Lemma zero_last (rs vs1 vs2 : list nat) :
  reverse (merge_sort le (remove_dups rs)) = vs1 ++ 0 :: vs2 -> vs2 = [].
Proof.
  intros Hvals.
  assert (NoDup (vs1 ++ 0 :: vs2)) as Hnodup.
  { rewrite <- Hvals, reverse_Permutation, merge_sort_Permutation.
    apply NoDup_remove_dups. }
  assert (StronglySorted le (reverse vs2 ++ 0 :: reverse vs1)) as Hsorted.
  { replace (reverse vs2 ++ 0 :: reverse vs1) with (reverse (vs1 ++ 0 :: vs2)).
    - rewrite <- Hvals, reverse_involutive. apply StronglySorted_merge_sort; apply _.
    - rewrite reverse_app, reverse_cons, <- app_assoc. done. }
  destruct vs2 as [|x vs2] using rev_ind; [done|]. exfalso.
  rewrite reverse_app in Hsorted. simpl in Hsorted.
  apply StronglySorted_inv in Hsorted as [_ Hx].
  rewrite Forall_forall in Hx. specialize (Hx 0).
  assert (x = 0) as -> by (apply Nat.le_0_r, Hx; set_solver).
  apply NoDup_app in Hnodup as (_ & _ & Hnd).
  apply NoDup_cons in Hnd as [Hnd _]. set_solver.
Qed.

(** [_approximate_mode] hands out exactly [n_draws] draws, never more to a
    class than it has members. *)
Lemma approximate_mode_spec (class_counts : list nat) (n_draws : nat) (g : rng) :
  0 < sum_list class_counts -> n_draws <= sum_list class_counts ->
  length (approximate_mode class_counts n_draws g).1 = length class_counts /\
  sum_list (approximate_mode class_counts n_draws g).1 = n_draws /\
  Forall2 le (approximate_mode class_counts n_draws g).1 class_counts.
Proof.
  intros HN Hn. unfold approximate_mode. cbv zeta.
  set (N := sum_list class_counts) in *.
  set (a := (fun c => c * n_draws) <$> class_counts).
  set (fl := (fun x => x / N) <$> a).
  set (rem := (fun x => x mod N) <$> a).
  assert (N * n_draws = N * sum_list fl + sum_list rem) as Hsum.
  { pose proof (sum_list_div_mod a N) as Hdm. unfold a in Hdm at 1.
    rewrite sum_list_scale in Hdm. unfold fl, rem. fold N in Hdm. lia. }
  assert (Forall (fun x => x < N) rem) as Hrem.
  { unfold rem. apply Forall_fmap, Forall_true. intros x. simpl.
    apply Nat.mod_upper_bound. lia. }
  pose proof (sum_list_nonzero_bound rem N Hrem) as Hbound.
  set (P := length (filter (fun x => x ≠ 0) rem)) in *.
  assert (sum_list fl <= n_draws) as Hfl by nia.
  assert (length fl = length class_counts) as Hlen_fl.
  { unfold fl, a. by rewrite !length_fmap. }
  assert (forall i c, class_counts !! i = Some c ->
            fl !! i = Some (c * n_draws / N) /\
            rem !! i = Some ((c * n_draws) mod N)) as Hlook.
  { intros i c Hc. unfold fl, rem, a. rewrite !list_lookup_fmap, Hc. done. }
  destruct (decide (0 < n_draws - sum_list fl)) as [Hneed|Hneed]; simpl.
  - set (need := n_draws - sum_list fl) in *.
    set (values := reverse (merge_sort le (remove_dups rem))).
    assert (NoDup values) as Hnodup.
    { unfold values. rewrite reverse_Permutation, merge_sort_Permutation.
      apply NoDup_remove_dups. }
    assert (forall x, x ∈ rem -> x ∈ values) as Hall.
    { intros x Hx. unfold values.
      by rewrite elem_of_reverse, merge_sort_Permutation, elem_of_remove_dups. }
    assert (need <= P) as HneedP by nia.
    destruct (add_by_remainder_spec values rem fl need g Hnodup)
      as (Hlen & Hsum' & Hpt).
    { unfold fl, rem. by rewrite !length_fmap. }
    split; [congruence|]. split.
    { rewrite Hsum'. rewrite (capacity_filter _ _ Hnodup).
      pose proof (length_filter_mono (fun x => x ≠ 0) (fun x => x ∈ values) rem
                    (fun x Hx _ => Hall x Hx)). fold P in H. lia. }
    apply Forall2_same_length_lookup_2; [congruence|].
    intros i b c Hb Hc. destruct (Hlook i c Hc) as [Hfli Hremi].
    destruct (Hpt i _ Hfli) as [Hsame | (Hup & vs1 & v & vs2 & Hvals & Hv & Hcap)].
    + assert (b = c * n_draws / N) as -> by congruence. by apply floored_le.
    + assert (b = S (c * n_draws / N)) as -> by congruence.
      apply floored_lt; [done..|].
      assert (v = (c * n_draws) mod N) as <- by congruence.
      intros ->. pose proof (zero_last _ _ _ Hvals) as ->.
      assert (NoDup vs1) as Hnodup1.
      { fold values in Hvals. rewrite Hvals in Hnodup.
        by apply NoDup_app in Hnodup as (? & _ & _). }
      rewrite (capacity_filter _ _ Hnodup1) in Hcap.
      assert (P <= length (filter (fun x => x ∈ vs1) rem)); [|lia].
      apply length_filter_mono. intros x Hx Hx0.
      apply Hall in Hx. fold values in Hvals. rewrite Hvals in Hx.
      apply elem_of_app in Hx as [Hx|Hx]; [done|].
      by apply elem_of_cons in Hx as [->|Hx%elem_of_nil].
  - split; [done|]. split; [lia|].
    apply Forall2_same_length_lookup_2; [done|].
    intros i b c Hb Hc. destruct (Hlook i c Hc) as [Hfli _].
    assert (b = c * n_draws / N) as -> by congruence. by apply floored_le.
Qed.

(** Asked for as many draws as there are members, it takes them all. *)
Lemma approximate_mode_all (class_counts : list nat) (g : rng) :
  0 < sum_list class_counts ->
  (approximate_mode class_counts (sum_list class_counts) g).1 = class_counts.
Proof.
  intros HN.
  destruct (approximate_mode_spec class_counts (sum_list class_counts) g HN)
    as (_ & Hsum & Hle); [done|].
  by apply Forall2_le_sum_eq.
Qed.

End Allocation.

(** ** The stratified splitter: drawing the rows *)

Section Drawing.
Context {R : RandomState}.

Lemma take_clip_in_range (a idx : list nat) :
  Forall (fun j => j < length a) idx -> take_clip a idx = Pandas.take_at a idx.
Proof.
  intros Hidx. unfold take_clip, Pandas.take_at.
  apply Forall_fmap_ext_1. eapply Forall_impl; [exact Hidx|].
  intros j Hj. simpl in *. f_equal. lia.
Qed.

Lemma draw_classes_drawn (class_counts : list nat) (class_indices : list (list nat))
    (n_i : list nat) (g : rng) :
  Forall2 (fun count indices => length indices = count) class_counts class_indices ->
  Forall2 le n_i class_counts ->
  drawn class_indices n_i (zip_with Nat.sub class_counts n_i)
    (draw_classes class_counts class_indices n_i
       (zip_with Nat.sub class_counts n_i) g).1.1
    (draw_classes class_counts class_indices n_i
       (zip_with Nat.sub class_counts n_i) g).1.2.
Proof.
  intros Hlen. revert n_i g.
  induction Hlen as [|count indices counts idxs Hcount _ IH]; intros n_i g Hle.
  - apply Forall2_nil_inv_r in Hle as ->. simpl. constructor.
  - apply Forall2_cons_inv_r in Hle as (n & n_i' & Hn & Hle & ->).
    cbn [zip_with draw_classes].
    pose proof (rng_permutation_perm g count) as Hp.
    destruct (rng_permutation g count) as [p g1]. simpl in Hp.
    specialize (IH n_i' g1 Hle).
    destruct (draw_classes counts idxs n_i' (zip_with Nat.sub counts n_i') g1)
      as [[train test] g2]. simpl in *.
    rewrite take_clip_in_range
      by (rewrite Hcount; by apply Permutation_seq_bound).
    set (perm := Pandas.take_at indices p).
    assert (perm ≡ₚ indices) as Hperm.
    { apply take_at_all. by rewrite Hcount. }
    assert (length perm = count) as Hlen_perm.
    { by rewrite Hperm. }
    rewrite (take_ge (drop n perm)) by (rewrite length_drop; lia).
    constructor; [|rewrite length_take; lia|rewrite length_drop; lia|done].
    by rewrite take_drop.
Qed.

Lemma drawn_Permutation class_indices n_i t_i train test :
  drawn class_indices n_i t_i train test ->
  train ++ test ≡ₚ concat class_indices.
Proof.
  induction 1 as [|indices idxs n n_i t t_i tr0 te0 train test Hperm _ _ _ IH];
    [done|].
  simpl. rewrite <- Hperm, <- IH.
  rewrite <- !app_assoc. f_equiv. rewrite !app_assoc. f_equiv.
  apply Permutation_app_comm.
Qed.

Lemma drawn_lengths class_indices n_i t_i train test :
  drawn class_indices n_i t_i train test ->
  length train = sum_list n_i /\ length test = sum_list t_i.
Proof.
  induction 1 as [|indices idxs n n_i t t_i tr0 te0 train test _ Hn Ht _ [IH1 IH2]];
    [done|].
  rewrite !length_app. simpl. lia.
Qed.

Lemma elem_of_class_positions (classes y : list value) (i : nat) :
  i ∈ concat (class_positions classes y) <->
  exists c, c ∈ classes /\ y !! i = Some c.
Proof.
  unfold class_positions. induction classes as [|c0 cs IH]; csimpl.
  - split; [by intros ?%elem_of_nil | by intros (c & ?%elem_of_nil & _)].
  - rewrite elem_of_app, IH, list_elem_of_filter, elem_of_seq. split.
    + intros [[Hi _] | (c & Hc & Hi)]; [exists c0 | exists c]; split; auto;
        [by left | by right].
    + intros (c & [-> | Hc]%elem_of_cons & Hi); [left | right; eauto].
      split; [done|]. apply lookup_lt_Some in Hi. lia.
Qed.

Lemma class_positions_Permutation (classes y : list value) :
  NoDup classes -> (forall v, v ∈ y -> v ∈ classes) ->
  concat (class_positions classes y) ≡ₚ seq 0 (length y).
Proof.
  intros Hnodup Hall. apply NoDup_Permutation; [|apply NoDup_seq|].
  - clear Hall. induction Hnodup as [|c0 cs Hc0 _ IH]; [constructor|].
    change (class_positions (c0 :: cs) y)
      with (filter (fun i => y !! i = Some c0) (seq 0 (length y))
            :: class_positions cs y).
    simpl. apply NoDup_app. split; [apply NoDup_filter, NoDup_seq|].
    split; [|done].
    intros i [Hi _]%list_elem_of_filter (c & Hc & Hi')%elem_of_class_positions.
    congruence.
  - intros i. rewrite elem_of_class_positions, elem_of_seq. split.
    + intros (c & _ & Hi). apply lookup_lt_Some in Hi. lia.
    + intros [_ Hi]. destruct (lookup_lt_is_Some_2 y i Hi) as [c Hc].
      exists c. split; [|done]. apply Hall. by eapply list_elem_of_lookup_2.
Qed.

(** In every chunk, the rows of one class only. *)
Lemma drawn_count (classes y : list value) n_i t_i train test :
  NoDup classes ->
  drawn (class_positions classes y) n_i t_i train test ->
  forall j c, classes !! j = Some c ->
    n_i !! j = Some (count_at y c train) /\
    t_i !! j = Some (count_at y c test).
Proof.
  unfold count_at. intros Hnodup. revert n_i t_i train test.
  induction Hnodup as [|c0 cs Hc0 Hcs IH]; intros n_i t_i train test Hdrawn j c Hj;
    [done|].
  change (class_positions (c0 :: cs) y)
    with (filter (fun i => y !! i = Some c0) (seq 0 (length y))
          :: class_positions cs y) in Hdrawn.
  inversion Hdrawn as [|indices idxs n n_i' t t_i' tr0 te0 train' test'
                          Hperm Hn Ht Hrest]; subst.
  assert (forall i, i ∈ tr0 ++ te0 -> y !! i = Some c0) as Hhere.
  { intros i Hi. rewrite Hperm in Hi. by apply list_elem_of_filter in Hi as [? _]. }
  assert (forall i, i ∈ train' ++ test' -> exists c', c' ∈ cs /\ y !! i = Some c')
    as Hthere.
  { intros i Hi. rewrite (drawn_Permutation _ _ _ _ _ Hrest) in Hi.
    by apply elem_of_class_positions. }
  rewrite !filter_app, !length_app.
  destruct j as [|j]; simpl in Hj |- *.
  - injection Hj as <-.
    rewrite (filter_all _ tr0) by (intros i Hi; apply Hhere, elem_of_app; auto).
    rewrite (filter_all _ te0) by (intros i Hi; apply Hhere, elem_of_app; auto).
    rewrite (filter_none _ train'), (filter_none _ test'), !Nat.add_0_r; [done|..].
    all: intros i Hi Hc.
    all: destruct (Hthere i) as (c' & Hc' & Hi'); [apply elem_of_app; auto|].
    all: congruence.
  - destruct (IH _ _ _ _ Hrest j c Hj) as [-> ->].
    assert (c ≠ c0) as Hne.
    { intros ->. apply Hc0. by eapply list_elem_of_lookup_2. }
    rewrite (filter_none _ tr0), (filter_none _ te0); [done|..].
    all: intros i Hi Hc.
    all: specialize (Hhere i ltac:(apply elem_of_app; auto)); congruence.
Qed.

Lemma length_bincount (classes y : list value) :
  length (bincount classes y) = length classes.
Proof. unfold bincount. by rewrite length_fmap. Qed.

Lemma sum_list_bincount (classes y : list value) :
  NoDup classes -> (forall v, v ∈ y -> v ∈ classes) ->
  sum_list (bincount classes y) = length y.
Proof.
  intros Hnodup Hall.
  rewrite <- (filter_all (fun v => v ∈ classes) y Hall) at 2. clear Hall.
  unfold bincount. induction Hnodup as [|c cs Hc _ IH]; csimpl.
  - by rewrite filter_none by (intros x _; apply not_elem_of_nil).
  - rewrite IH. clear IH. induction y as [|v y IHy]; [done|].
    rewrite !filter_cons. destruct (decide (v = c)) as [->|Hne].
    + rewrite (decide_False (P := c ∈ cs)) by done.
      rewrite decide_True by (by left). simpl. lia.
    + destruct (decide (v ∈ cs)) as [Hin|Hout].
      * rewrite decide_True by (by right). simpl. lia.
      * rewrite decide_False; [done|]. intros [?|?]%elem_of_cons; by subst.
Qed.

Lemma bincount_class_positions (classes y : list value) :
  Forall2 (fun count indices => length indices = count)
          (bincount classes y) (class_positions classes y).
Proof.
  unfold bincount, class_positions. apply Forall2_fmap, Forall_Forall2_diag.
  apply Forall_true. intros c. simpl. apply length_filter_lookup.
Qed.

Lemma sum_list_zip_sub (counts n_i : list nat) :
  Forall2 le n_i counts ->
  sum_list (zip_with Nat.sub counts n_i) = sum_list counts - sum_list n_i /\
  sum_list n_i <= sum_list counts.
Proof. induction 1 as [|n c n_i counts Hle _ [IH1 IH2]]; simpl; lia. Qed.

(** One iteration of the splitter: the two sides share out the positions,
    [n_train] and [n_test] of them, and hold of each class what
    [_approximate_mode] allotted to the train side, and the rest. *)
Lemma iter_indices_spec (classes y : list value) (n_train n_test : nat) (g : rng) :
  NoDup classes -> (forall v, v ∈ y -> v ∈ classes) ->
  n_train + n_test = length y -> 0 < n_test ->
  let counts := bincount classes y in
  let n_i := (approximate_mode counts n_train g).1 in
  let out := iter_indices counts (class_positions classes y) n_train n_test g in
  out.1.1 ++ out.1.2 ≡ₚ seq 0 (length y) /\
  length out.1.1 = n_train /\ length out.1.2 = n_test /\
  forall j c, classes !! j = Some c ->
    n_i !! j = Some (count_at y c out.1.1) /\
    zip_with Nat.sub counts n_i !! j = Some (count_at y c out.1.2).
Proof.
  intros Hnodup Hall Hn Htest counts n_i out. subst out n_i.
  pose proof (sum_list_bincount classes y Hnodup Hall) as Hsum. fold counts in Hsum.
  unfold iter_indices.
  destruct (approximate_mode_spec counts n_train g) as (Hlen & Hsum_n & Hle);
    [lia..|].
  destruct (approximate_mode counts n_train g) as [n_i g1]. simpl in *.
  destruct (sum_list_zip_sub counts n_i Hle) as [Hsub _].
  pose proof (approximate_mode_all (zip_with Nat.sub counts n_i) g1) as Hall_t.
  rewrite Hsub, Hsum, Hsum_n in Hall_t.
  replace (length y - n_train) with n_test in Hall_t by lia.
  specialize (Hall_t Htest).
  destruct (approximate_mode (zip_with Nat.sub counts n_i) n_test g1) as [t_i g2].
  simpl in Hall_t. subst t_i.
  pose proof (draw_classes_drawn counts (class_positions classes y) n_i g2
                (bincount_class_positions classes y) Hle) as Hdrawn.
  destruct (draw_classes counts (class_positions classes y) n_i
              (zip_with Nat.sub counts n_i) g2) as [[train test] g3].
  simpl in Hdrawn.
  pose proof (rng_shuffle_perm g3 train) as Htrain.
  destruct (rng_shuffle g3 train) as [train' g4].
  pose proof (rng_shuffle_perm g4 test) as Htest'.
  destruct (rng_shuffle g4 test) as [test' g5]. simpl in *.
  destruct (drawn_lengths _ _ _ _ _ Hdrawn) as [Hl1 Hl2].
  split; [|split; [|split]].
  - rewrite Htrain, Htest', (drawn_Permutation _ _ _ _ _ Hdrawn).
    by apply class_positions_Permutation.
  - rewrite Htrain. lia.
  - rewrite Htest', Hl2, Hsub. lia.
  - intros j c Hj. unfold count_at. rewrite Htrain, Htest'.
    by apply (drawn_count classes y n_i _ train test).
Qed.

End Drawing.

(** ** The stratified splitter: [train_test_split] *)

Section Splitting.
Context {R : RandomState}.

Lemma NoDup_np_unique (y : list value) : NoDup (np_unique y).
Proof. unfold np_unique. rewrite merge_sort_Permutation. apply NoDup_remove_dups. Qed.

Lemma elem_of_np_unique (y : list value) (v : value) : v ∈ np_unique y <-> v ∈ y.
Proof. unfold np_unique. by rewrite merge_sort_Permutation, elem_of_remove_dups. Qed.

Lemma Qceiling_pos (q : Q) : (0 < q)%Q -> (0 < Qceiling q)%Z.
Proof.
  intros Hq. rewrite Zlt_Qlt. eapply Qlt_le_trans; [exact Hq|]. apply Qle_ceiling.
Qed.

Lemma validate_shuffle_split_inv (n_samples : nat) (test_size : Q) n_train n_test :
  validate_shuffle_split n_samples test_size = inr (n_train, n_test) ->
  (0 < test_size)%Q /\ (test_size < 1)%Q /\
  n_test = Z.to_nat (Qceiling (test_size * inject_Z (Z.of_nat n_samples))) /\
  n_train + n_test = n_samples /\ 0 < n_train /\ 0 < n_test.
Proof.
  unfold validate_shuffle_split.
  destruct (Qle_bool test_size 0) eqn:H0; [discriminate|].
  destruct (Qle_bool 1 test_size) eqn:H1; [discriminate|]. simpl.
  destruct (decide _) as [|Hne]; [discriminate|]. intros [= <- <-].
  assert (0 < test_size)%Q as Hpos.
  { apply Qnot_le_lt. intros Hle%Qle_bool_iff. congruence. }
  assert (test_size < 1)%Q as Hlt.
  { apply Qnot_le_lt. intros Hle%Qle_bool_iff. congruence. }
  assert (0 < Qceiling (test_size * inject_Z (Z.of_nat n_samples)))%Z.
  { apply Qceiling_pos. apply Qmult_lt_0_compat; [done|].
    rewrite <- (Zlt_Qlt 0). lia. }
  repeat split; try done; lia.
Qed.

Lemma validate_shuffle_split_error (n_samples : nat) (test_size : Q) e :
  validate_shuffle_split n_samples test_size = inl e -> exists msg, e = ValueError msg.
Proof.
  unfold validate_shuffle_split.
  destruct (_ || _); [intros [= <-]; eauto|].
  destruct (decide _); [intros [= <-]; eauto | discriminate].
Qed.

(** When its checks pass, the stratified splitter returns a split. *)
Lemma stratified_shuffle_split_ok (y : list value) (n_train n_test : nat)
    (random_state : option Z) (g : rng) :
  2 <= np_min (bincount (np_unique y) y) ->
  length (np_unique y) <= n_train -> length (np_unique y) <= n_test ->
  seed_ok random_state = true ->
  n_train + n_test = length y -> 0 < n_test ->
  exists train test g' g0,
    stratified_shuffle_split y n_train n_test random_state g
      = (inr (train, test), g') /\
    train ++ test ≡ₚ seq 0 (length y) /\
    length train = n_train /\ length test = n_test /\
    forall j c, np_unique y !! j = Some c ->
      (approximate_mode (bincount (np_unique y) y) n_train g0).1 !! j
        = Some (count_at y c train) /\
      zip_with Nat.sub (bincount (np_unique y) y)
        (approximate_mode (bincount (np_unique y) y) n_train g0).1 !! j
        = Some (count_at y c test).
Proof.
  intros Hmin Htrain Htest Hseed Hn Hpos. unfold stratified_shuffle_split.
  rewrite decide_False by lia. rewrite decide_False by lia.
  rewrite decide_False by lia.
  destruct random_state as [seed|]; simpl in Hseed.
  - rewrite Hseed.
    pose proof (iter_indices_spec (np_unique y) y n_train n_test (rng_seed seed)
                  (NoDup_np_unique y) (fun v Hv => proj2 (elem_of_np_unique y v) Hv)
                  Hn Hpos) as Hspec.
    cbv zeta in Hspec.
    destruct (iter_indices _ _ n_train n_test (rng_seed seed)) as [[train test] g'].
    exists train, test, g, (rng_seed seed). split; [done|]. exact Hspec.
  - pose proof (iter_indices_spec (np_unique y) y n_train n_test g
                  (NoDup_np_unique y) (fun v Hv => proj2 (elem_of_np_unique y v) Hv)
                  Hn Hpos) as Hspec.
    cbv zeta in Hspec.
    destruct (iter_indices _ _ n_train n_test g) as [[train test] g'].
    exists train, test, g', g. split; [done|]. exact Hspec.
Qed.

(** Otherwise it raises [ValueError]. *)
Lemma stratified_shuffle_split_cases (y : list value) (n_train n_test : nat)
    (random_state : option Z) (g : rng) :
  (exists msg, stratified_shuffle_split y n_train n_test random_state g
               = (inl (ValueError msg), g)) \/
  (2 <= np_min (bincount (np_unique y) y) /\
   length (np_unique y) <= n_train /\ length (np_unique y) <= n_test /\
   seed_ok random_state = true).
Proof.
  unfold stratified_shuffle_split.
  destruct (decide (np_min _ < 2)); [left; eauto|].
  destruct (decide (n_train < _)); [left; eauto|].
  destruct (decide (n_test < _)); [left; eauto|].
  destruct random_state as [seed|]; simpl; [|right; repeat split; lia].
  destruct (valid_seed seed); [right; repeat split; lia | left; eauto].
Qed.

Lemma train_test_split_ok (x : DataFrame) (y : Series) (test_size : Q)
    (random_state : option Z) (g : rng) n_train n_test :
  split_possible x y test_size random_state n_train n_test ->
  exists train test g' g0,
    train_test_split x y test_size random_state g
      = (inr (Pandas.iloc x train, Pandas.iloc x test,
              Pandas.s_iloc y train, Pandas.s_iloc y test), g') /\
    train ++ test ≡ₚ seq 0 (Pandas.nrows x) /\
    length train = n_train /\ length test = n_test /\
    forall j c, np_unique (s_values y) !! j = Some c ->
      (approximate_mode (bincount (np_unique (s_values y)) (s_values y))
         n_train g0).1 !! j = Some (count_at (s_values y) c train) /\
      zip_with Nat.sub (bincount (np_unique (s_values y)) (s_values y))
        (approximate_mode (bincount (np_unique (s_values y)) (s_values y))
           n_train g0).1 !! j = Some (count_at (s_values y) c test).
Proof.
  intros (Hlen & Hval & Hmin & Htrain & Htest & Hseed).
  destruct (validate_shuffle_split_inv _ _ _ _ Hval) as (_ & _ & _ & Hn & _ & Hpos).
  unfold Pandas.s_len in Hlen. rewrite Hlen in Hn.
  destruct (stratified_shuffle_split_ok (s_values y) n_train n_test random_state g
              Hmin Htrain Htest Hseed Hn Hpos)
    as (train & test & g' & g0 & Hrun & Hperm & Hspec).
  exists train, test, g', g0. split.
  - unfold train_test_split. rewrite decide_False by (unfold Pandas.s_len; lia).
    by rewrite Hval, Hrun.
  - by rewrite Hlen.
Qed.

Lemma train_test_split_cases (x : DataFrame) (y : Series) (test_size : Q)
    (random_state : option Z) (g : rng) :
  (exists msg, train_test_split x y test_size random_state g
               = (inl (ValueError msg), g)) \/
  (exists n_train n_test, split_possible x y test_size random_state n_train n_test).
Proof.
  unfold train_test_split, split_possible.
  destruct (decide (Pandas.nrows x ≠ Pandas.s_len y)) as [|Hlen%dec_stable];
    [left; eauto|].
  destruct (validate_shuffle_split (Pandas.nrows x) test_size)
    as [e|[n_train n_test]] eqn:Hval.
  { apply validate_shuffle_split_error in Hval as [msg ->]. left; eauto. }
  destruct (stratified_shuffle_split_cases (s_values y) n_train n_test random_state g)
    as [[msg Hrun] | Hok].
  - left. exists msg. by rewrite Hrun.
  - right. exists n_train, n_test. tauto.
Qed.

(** A split that was returned shares out the rows of its input. *)
Lemma train_test_split_inv (x : DataFrame) (y : Series) (test_size : Q)
    (random_state : option Z) (g g' : rng) x_train x_test y_train y_test :
  train_test_split x y test_size random_state g
    = (inr (x_train, x_test, y_train, y_test), g') ->
  exists train test,
    x_train = Pandas.iloc x train /\ x_test = Pandas.iloc x test /\
    y_train = Pandas.s_iloc y train /\ y_test = Pandas.s_iloc y test /\
    Pandas.nrows x = Pandas.s_len y /\
    train ++ test ≡ₚ seq 0 (Pandas.nrows x).
Proof.
  intros Hrun.
  destruct (train_test_split_cases x y test_size random_state g)
    as [[msg Herr] | (n_train & n_test & Hok)]; [congruence|].
  pose proof Hok as (Hlen & _).
  destruct (train_test_split_ok x y test_size random_state g _ _ Hok)
    as (train & test & g1 & g0 & Hrun' & Hperm & _).
  rewrite Hrun in Hrun'. injection Hrun' as -> -> -> -> _.
  exists train, test. repeat split; done.
Qed.

End Splitting.

(** ** [split_data] *)

Lemma iloc_iloc (x : DataFrame) (p q : list nat) :
  Forall (fun j => j < length p) q ->
  Pandas.iloc (Pandas.iloc x p) q = Pandas.iloc x (Pandas.take_at p q).
Proof.
  intros Hq. unfold Pandas.iloc. simpl. f_equal.
  - by apply take_at_take_at.
  - rewrite <- map_fmap_compose. apply map_fmap_ext. intros c col _. simpl.
    f_equal. by apply take_at_take_at.
Qed.

Lemma s_iloc_s_iloc (y : Series) (p q : list nat) :
  Forall (fun j => j < length p) q ->
  Pandas.s_iloc (Pandas.s_iloc y p) q = Pandas.s_iloc y (Pandas.take_at p q).
Proof.
  intros Hq. unfold Pandas.s_iloc. simpl. f_equal; by apply take_at_take_at.
Qed.

Lemma nrows_iloc (x : DataFrame) (p : list nat) :
  Pandas.nrows (Pandas.iloc x p) = length p.
Proof. unfold Pandas.nrows, Pandas.iloc. simpl. apply length_take_at. Qed.

Lemma s_len_s_iloc (y : Series) (p : list nat) :
  Pandas.s_len (Pandas.s_iloc y p) = length p.
Proof. unfold Pandas.s_len, Pandas.s_iloc. simpl. apply length_take_at. Qed.

Lemma drop_inr (dataset x : DataFrame) (target_col : string) :
  Pandas.drop dataset target_col = inr x ->
  df_index x = df_index dataset /\ target_col ∈ df_columns dataset.
Proof.
  unfold Pandas.drop. destruct (bool_decide _) eqn:Hin; [|discriminate].
  intros [= <-]. split; [done|]. by apply bool_decide_eq_true in Hin.
Qed.

Lemma getitem_inr (dataset : DataFrame) (target_col : string) (y : Series) :
  Pandas.getitem dataset target_col = inr y ->
  s_index y = df_index dataset /\
  exists col, df_data dataset !! target_col = Some col /\ s_values y = col_values col.
Proof.
  unfold Pandas.getitem. destruct (df_data dataset !! target_col) as [col|];
    [|discriminate].
  intros [= <-]. eauto.
Qed.

Lemma foldr_min_le (d : nat) (l : list nat) (x : nat) :
  x ∈ l -> foldr Nat.min d l <= x.
Proof.
  induction l as [|a l IH]; [by intros ?%elem_of_nil|].
  intros [-> | Hin]%elem_of_cons; simpl; [lia|]. specialize (IH Hin). lia.
Qed.

Section SplitData.
Context {R : RandomState}.

(** The two stages of [split_data], put together: the three parts are the
    rows of the table without its target column, and of the target column,
    at three lists of positions that share out all the positions. *)
Lemma split_data_inv (self : DataSplitter) (dataset : DataFrame)
    (target_col : string) (g g' : rng) x_train x_val x_test y_train y_val y_test :
  split_data self dataset target_col g
    = (inr (x_train, x_val, x_test, y_train, y_val, y_test), g') ->
  exists x y train val test,
    Pandas.drop dataset target_col = inr x /\
    Pandas.getitem dataset target_col = inr y /\
    x_train = Pandas.iloc x train /\ x_val = Pandas.iloc x val /\
    x_test = Pandas.iloc x test /\
    y_train = Pandas.s_iloc y train /\ y_val = Pandas.s_iloc y val /\
    y_test = Pandas.s_iloc y test /\
    train ++ val ++ test ≡ₚ seq 0 (Pandas.nrows dataset).
Proof.
  unfold split_data. intros Hrun.
  destruct (Pandas.drop dataset target_col) as [e|x] eqn:Hdrop; [discriminate|].
  destruct (Pandas.getitem dataset target_col) as [e|y] eqn:Hget; [discriminate|].
  simpl in Hrun.
  destruct (train_test_split x y (test_size self) (random_state self) g)
    as [[e|[[[x1 x2] y1] y2]] g1] eqn:Hfirst; [discriminate|].
  destruct (Qeq_bool _ 0); [discriminate|].
  destruct (train_test_split x1 y1 _ (random_state self) g1)
    as [[e|[[[x3 x4] y3] y4]] g2] eqn:Hsecond; [discriminate|].
  injection Hrun as <- <- <- <- <- <- <-.
  apply train_test_split_inv in Hfirst
    as (tr1 & te & -> & -> & -> & -> & Hlen1 & Hperm1).
  apply train_test_split_inv in Hsecond
    as (tr2 & va2 & -> & -> & -> & -> & Hlen2 & Hperm2).
  rewrite nrows_iloc in Hperm2.
  pose proof (Permutation_seq_bound _ _ Hperm2) as Hbound.
  apply Forall_app in Hbound as [Hb_tr Hb_va].
  exists x, y, (Pandas.take_at tr1 tr2), (Pandas.take_at tr1 va2), te.
  rewrite !iloc_iloc, !s_iloc_s_iloc by done.
  repeat split; try done.
  rewrite app_assoc, <- take_at_app.
  rewrite (take_at_all tr1 (tr2 ++ va2) Hperm2).
  apply drop_inr in Hdrop as [Hidx _].
  unfold Pandas.nrows in *. by rewrite <- Hidx.
Qed.

(** C1 (as the code has it): whenever [split_data] returns, the six outputs
    are the rows of the source at three lists of positions that together
    are all its positions, each once: the sizes add up to the number of
    rows of the source, no row is in two parts, and each label part holds the
    labels of the rows of its feature part. *)
Theorem split_data_partition (self : DataSplitter) (dataset : DataFrame)
    (target_col : string) (g g' : rng) x_train x_val x_test y_train y_val y_test :
  split_data self dataset target_col g
    = (inr (x_train, x_val, x_test, y_train, y_val, y_test), g') ->
  Pandas.nrows x_train + Pandas.nrows x_val + Pandas.nrows x_test
    = Pandas.nrows dataset /\
  Pandas.s_len y_train = Pandas.nrows x_train /\
  Pandas.s_len y_val = Pandas.nrows x_val /\
  Pandas.s_len y_test = Pandas.nrows x_test /\
  df_index x_train ++ df_index x_val ++ df_index x_test ≡ₚ df_index dataset /\
  exists (x : DataFrame) (y : Series) (train val test : list nat),
    Pandas.drop dataset target_col = inr x /\
    Pandas.getitem dataset target_col = inr y /\
    train ++ val ++ test ≡ₚ seq 0 (Pandas.nrows dataset) /\
    NoDup (train ++ val ++ test) /\
    train ## val /\ train ## test /\ val ## test /\
    x_train = Pandas.iloc x train /\ y_train = Pandas.s_iloc y train /\
    x_val = Pandas.iloc x val /\ y_val = Pandas.s_iloc y val /\
    x_test = Pandas.iloc x test /\ y_test = Pandas.s_iloc y test.
Proof.
  intros Hrun.
  destruct (split_data_inv _ _ _ _ _ _ _ _ _ _ _ Hrun)
    as (x & y & train & val & test & Hdrop & Hget
        & -> & -> & -> & -> & -> & -> & Hperm).
  destruct (drop_inr _ _ _ Hdrop) as [Hidx _].
  rewrite !nrows_iloc, !s_len_s_iloc.
  assert (NoDup (train ++ val ++ test)) as Hnodup.
  { rewrite Hperm. apply NoDup_seq. }
  split; [|split; [|split; [|split; [|split]]]]; try done.
  - apply Permutation_length in Hperm.
    rewrite !length_app, length_seq in Hperm. lia.
  - simpl. rewrite <- !take_at_app, Hidx.
    apply take_at_all. by rewrite Hperm.
  - exists x, y, train, val, test.
    pose proof Hnodup as Hnodup0.
    apply NoDup_app in Hnodup0 as (_ & Hd1 & Hnodup').
    apply NoDup_app in Hnodup' as (_ & Hd2 & _).
    repeat split; try done.
    + intros i Hi Hi'. apply (Hd1 i Hi). apply elem_of_app. by left.
    + intros i Hi Hi'. apply (Hd1 i Hi). apply elem_of_app. by right.
Qed.

Lemma train_test_split_seeded (x : DataFrame) (y : Series) (test_size : Q)
    (seed : Z) :
  exists r, forall g : rng, train_test_split x y test_size (Some seed) g = (r, g).
Proof.
  unfold train_test_split, stratified_shuffle_split.
  destruct (decide (Pandas.nrows x ≠ Pandas.s_len y)); [eauto|].
  destruct (validate_shuffle_split _ _) as [e|[n_train n_test]]; [eauto|].
  destruct (decide (np_min _ < 2)); [eauto|].
  destruct (decide (n_train < _)); [eauto|].
  destruct (decide (n_test < _)); [eauto|].
  destruct (valid_seed seed); [|eauto].
  destruct (iter_indices _ _ _ _ _) as [[train test] g0]. eauto.
Qed.

(** With a seed, [split_data] draws from a generator of its own: the result
    is the same whatever the state of the generator of [numpy.random], which
    it leaves as it found it. *)
Lemma split_data_seeded (t v : Q) (seed : Z) (dataset : DataFrame)
    (target_col : string) :
  exists r, forall g : rng,
    split_data (mkDataSplitter t v (Some seed)) dataset target_col g = (r, g).
Proof.
  unfold split_data. simpl.
  destruct (Pandas.drop dataset target_col) as [e|x]; [eauto|].
  destruct (Pandas.getitem dataset target_col) as [e|y]; [eauto|].
  destruct (train_test_split_seeded x y t seed) as [[e|[[[x1 x2] y1] y2]] Hfirst].
  { exists (inl e). intros g. by rewrite Hfirst. }
  destruct (Qeq_bool (1 - t) 0) eqn:Hz.
  { exists (inl ZeroDivisionError). intros g. by rewrite Hfirst. }
  destruct (train_test_split_seeded x1 y1 (v / (1 - t)) seed)
    as [[e|[[[x3 x4] y3] y4]] Hsecond].
  { exists (inl e). intros g. by rewrite Hfirst, Hsecond. }
  eexists. intros g. by rewrite Hfirst, Hsecond.
Qed.

(** C3: two runs of [split_data] on the same table, target column and
    fractions with the same seed return the same six outputs, the same rows
    in the same order in each part, whatever state the ambient generator is
    in at each run. *)
Theorem split_data_deterministic (t v : Q) (seed : Z) (dataset : DataFrame)
    (target_col : string) (g1 g2 : rng) :
  (split_data (mkDataSplitter t v (Some seed)) dataset target_col g1).1
  = (split_data (mkDataSplitter t v (Some seed)) dataset target_col g2).1.
Proof.
  destruct (split_data_seeded t v seed dataset target_col) as [r Hr].
  by rewrite !Hr.
Qed.

(** C4 (as the code has it): a class of the target column with a single
    member makes [split_data] fail with the [ValueError] of the splitting
    library. *)
Theorem split_data_single_member (self : DataSplitter) (dataset : DataFrame)
    (target_col : string) (col : Column) (c : value) (g : rng) :
  target_col ∈ df_columns dataset ->
  df_data dataset !! target_col = Some col ->
  length (filter (fun v => v = c) (col_values col)) = 1 ->
  exists msg, (split_data self dataset target_col g).1 = inl (ValueError msg).
Proof.
  intros Hcol Hdata Hone. unfold split_data, Pandas.drop, Pandas.getitem.
  rewrite bool_decide_eq_true_2 by done. rewrite Hdata. simpl.
  match goal with |- context [train_test_split ?x ?y _ _ _] =>
    destruct (train_test_split_cases x y (test_size self) (random_state self) g)
      as [[msg Herr] | (n_train & n_test & Hok)] end.
  { rewrite Herr. eauto. }
  exfalso. destruct Hok as (_ & _ & Hmin & _). simpl in Hmin.
  assert (c ∈ np_unique (col_values col)) as Hc.
  { apply elem_of_np_unique.
    destruct (filter (fun v => v = c) (col_values col)) as [|v l] eqn:Hf;
      [discriminate|].
    assert (v ∈ filter (fun v => v = c) (col_values col)) as Hv
        by (rewrite Hf; by left).
    apply list_elem_of_filter in Hv as [-> ?]. done. }
  assert (1 ∈ bincount (np_unique (col_values col)) (col_values col)) as H1.
  { unfold bincount. apply list_elem_of_fmap. exists c. by rewrite Hone. }
  pose proof (foldr_min_le (hd 0 (bincount (np_unique (col_values col))
                                    (col_values col))) _ _ H1) as Hle.
  unfold np_min in Hmin. lia.
Qed.

End SplitData.

(** ** A table with two classes *)

Lemma two_counts_le {A} `{EqDecision A} (a b : A) (l : list A) :
  a ≠ b ->
  length (filter (fun v => v = a) l) + length (filter (fun v => v = b) l) <= length l.
Proof.
  intros Hab. induction l as [|x l IH]; [done|].
  rewrite !filter_cons.
  destruct (decide (x = a)) as [Hxa|Ha]; destruct (decide (x = b)) as [Hxb|Hb];
    simpl; try lia. congruence.
Qed.

Lemma two_values {A} `{EqDecision A} (a b : A) (l : list A) :
  a ≠ b ->
  length (filter (fun v => v = a) l) + length (filter (fun v => v = b) l) = length l ->
  forall v, v ∈ l -> v = a \/ v = b.
Proof.
  intros Hab. induction l as [|x l IH]; [by intros _ v ?%elem_of_nil|].
  rewrite !filter_cons. intros Hlen v Hv.
  pose proof (two_counts_le a b l Hab) as Hle.
  destruct (decide (x = a)) as [Hxa|Ha]; destruct (decide (x = b)) as [Hxb|Hb];
    simpl in Hlen; try congruence; try lia.
  - apply elem_of_cons in Hv as [->|Hv]; [by left|]. apply IH; [lia|done].
  - apply elem_of_cons in Hv as [->|Hv]; [by right|]. apply IH; [lia|done].
Qed.

Lemma filter_nonempty_elem {A} `{EqDecision A} (a : A) (l : list A) :
  0 < length (filter (fun v => v = a) l) -> a ∈ l.
Proof.
  intros Hlen. destruct (filter (fun v => v = a) l) as [|v f] eqn:Hf; [simpl in Hlen; lia|].
  assert (v ∈ filter (fun v => v = a) l) as Hv by (rewrite Hf; by left).
  by apply list_elem_of_filter in Hv as [-> ?].
Qed.

Lemma count_take_at (yv : list value) (c : value) (pos : list nat) :
  Forall (fun j => j < length yv) pos ->
  length (filter (fun v => v = c) (Pandas.take_at yv pos)) = count_at yv c pos.
Proof.
  intros Hpos. unfold count_at. rewrite filter_take_at, length_take_at. f_equal.
  apply filter_ext_elem. intros j Hj. rewrite Forall_forall in Hpos.
  rewrite (list_lookup_lookup_total_lt yv j (Hpos j Hj)). split; congruence.
Qed.

Section TwoClasses.
Context {R : RandomState}.

Lemma np_unique_binary (y : list value) :
  (forall v, v ∈ y -> v = VInt 0 \/ v = VInt 1) ->
  VInt 0 ∈ y -> VInt 1 ∈ y ->
  np_unique y = [VInt 0; VInt 1].
Proof.
  intros Hall H0 H1. unfold np_unique.
  assert ([VInt 0; VInt 1] ≡ₚ remove_dups y) as Hperm.
  { apply NoDup_Permutation; [|apply NoDup_remove_dups|].
    - compute_done.
    - intros v. rewrite elem_of_remove_dups. split.
      + intros [->|[->|?%elem_of_nil]%elem_of_cons]%elem_of_cons; done.
      + intros [->| ->]%Hall; [by left | right; by left]. }
  apply Permutation_length_2_inv in Hperm as [-> | ->]; reflexivity.
Qed.

(** One stratified split of a frame whose labels are [n0] zeros and [n1]
    ones. *)
Lemma train_test_split_binary (x : DataFrame) (y : Series) (t : Q)
    (random_state : option Z) (g : rng) (n0 n1 n_train n_test : nat) :
  Pandas.nrows x = Pandas.s_len y ->
  count_of (VInt 0) y = n0 -> count_of (VInt 1) y = n1 ->
  n0 + n1 = Pandas.s_len y -> 2 <= n0 -> 2 <= n1 ->
  validate_shuffle_split (Pandas.nrows x) t = inr (n_train, n_test) ->
  2 <= n_train -> 2 <= n_test -> seed_ok random_state = true ->
  exists train test g' g0,
    train_test_split x y t random_state g
      = (inr (Pandas.iloc x train, Pandas.iloc x test,
              Pandas.s_iloc y train, Pandas.s_iloc y test), g') /\
    length train = n_train /\ length test = n_test /\
    (approximate_mode [n0; n1] n_train g0).1 !! 0
      = Some (count_of (VInt 0) (Pandas.s_iloc y train)) /\
    (approximate_mode [n0; n1] n_train g0).1 !! 1
      = Some (count_of (VInt 1) (Pandas.s_iloc y train)) /\
    zip_with Nat.sub [n0; n1] (approximate_mode [n0; n1] n_train g0).1 !! 0
      = Some (count_of (VInt 0) (Pandas.s_iloc y test)) /\
    zip_with Nat.sub [n0; n1] (approximate_mode [n0; n1] n_train g0).1 !! 1
      = Some (count_of (VInt 1) (Pandas.s_iloc y test)).
Proof.
  unfold count_of, Pandas.s_len.
  intros Hlen Hc0 Hc1 Hsum Hn0 Hn1 Hval Htrain Htest Hseed.
  assert (forall v, v ∈ s_values y -> v = VInt 0 \/ v = VInt 1) as Hall.
  { apply two_values; [done|]. lia. }
  assert (np_unique (s_values y) = [VInt 0; VInt 1]) as Hclasses.
  { apply np_unique_binary; [done|..]; apply filter_nonempty_elem; lia. }
  assert (bincount [VInt 0; VInt 1] (s_values y) = [n0; n1]) as Hcounts.
  { unfold bincount. csimpl. by rewrite Hc0, Hc1. }
  destruct (train_test_split_ok x y t random_state g n_train n_test)
    as (train & test & g' & g0 & Hrun & Hperm & Hltrain & Hltest & Hspec).
  { unfold split_possible, Pandas.s_len. rewrite Hclasses, Hcounts.
    repeat split; try done. unfold np_min. simpl. lia. }
  rewrite Hclasses, Hcounts in Hspec.
  exists train, test, g', g0.
  pose proof (Permutation_seq_bound _ _ Hperm) as Hbound.
  rewrite Hlen in Hbound. apply Forall_app in Hbound as [Hb1 Hb2].
  destruct (Hspec 0 (VInt 0) eq_refl) as [Ha0 Hb0].
  destruct (Hspec 1 (VInt 1) eq_refl) as [Ha1 Hb1'].
  simpl. rewrite !count_take_at by done. repeat split; done.
Qed.

(** The scenario of C8, followed through both stages. *)
Lemma split_data_scenario (dataset : DataFrame) (target_col : string)
    (col : Column) (g : rng) :
  target_col ∈ df_columns dataset ->
  df_data dataset !! target_col = Some col ->
  Pandas.nrows dataset = 1000 ->
  length (col_values col) = 1000 ->
  length (filter (fun v => v = VInt 1) (col_values col)) = 200 ->
  length (filter (fun v => v = VInt 0) (col_values col)) = 800 ->
  exists x_train x_val x_test y_train y_val y_test g',
    split_data (mkDataSplitter (1 # 5) (1 # 5) (Some 1%Z)) dataset target_col g
      = (inr (x_train, x_val, x_test, y_train, y_val, y_test), g') /\
    Pandas.nrows x_test = 200 /\ eligible y_test = 40 /\
    Pandas.nrows x_train = 600 /\ eligible y_train = 120 /\
    Pandas.nrows x_val = 200 /\ eligible y_val = 40.
Proof.
  intros Hcol Hdata Hrows Hlen Hpos Hneg.
  unfold split_data, Pandas.drop, Pandas.getitem.
  rewrite bool_decide_eq_true_2 by done. rewrite Hdata.
  cbn [ret bind raise test_size validation_size random_state].
  rewrite logger_info_data_splitting.
  set (x := mkDataFrame _ _ _). set (y := mkSeries _ _ _ _).
  assert (validate_shuffle_split 1000 (1 # 5) = inr (800, 200)) as Hval1
    by (vm_compute; reflexivity).
  destruct (train_test_split_binary x y (1 # 5) (Some 1%Z) g 800 200 800 200)
    as (tr1 & te & g1 & g0 & Hrun1 & Hltr1 & Hlte & Ha0 & Ha1 & Hb0 & Hb1);
    [ unfold Pandas.s_len; simpl; by rewrite Hlen
    | exact Hneg | exact Hpos
    | unfold Pandas.s_len; simpl; by rewrite Hlen
    | lia | lia
    | change (Pandas.nrows x) with (Pandas.nrows dataset); by rewrite Hrows
    | lia | lia | reflexivity | ].
  rewrite Hrun1.
  assert ((approximate_mode [800; 200] 800 g0).1 = [640; 160]) as Hmode1
    by (vm_compute; reflexivity).
  rewrite Hmode1 in Ha0, Ha1, Hb0, Hb1.
  cbn [lookup list_lookup zip_with Nat.sub] in Ha0, Ha1, Hb0, Hb1.
  injection Ha0 as Ha0. injection Ha1 as Ha1.
  injection Hb0 as Hb0. injection Hb1 as Hb1.
  assert (Qeq_bool (1 - (1 # 5)) 0 = false) as -> by reflexivity.
  assert (validate_shuffle_split 800 ((1 # 5) / (1 - (1 # 5))) = inr (600, 200))
    as Hval2 by (vm_compute; reflexivity).
  destruct (train_test_split_binary (Pandas.iloc x tr1) (Pandas.s_iloc y tr1)
              ((1 # 5) / (1 - (1 # 5))) (Some 1%Z) g1 640 160 600 200)
    as (tr2 & va & g2 & g0' & Hrun2 & Hltr2 & Hlva & Hc0 & Hc1 & Hd0 & Hd1);
    [ by rewrite nrows_iloc, s_len_s_iloc
    | congruence | congruence
    | rewrite s_len_s_iloc; lia
    | lia | lia
    | by rewrite nrows_iloc, Hltr1
    | lia | lia | reflexivity | ].
  rewrite Hrun2.
  assert ((approximate_mode [640; 160] 600 g0').1 = [480; 120]) as Hmode2
    by (vm_compute; reflexivity).
  rewrite Hmode2 in Hc0, Hc1, Hd0, Hd1.
  cbn [lookup list_lookup zip_with Nat.sub] in Hc0, Hc1, Hd0, Hd1.
  injection Hc1 as Hc1. injection Hd1 as Hd1.
  do 7 eexists. split; [reflexivity|].
  unfold eligible. rewrite !nrows_iloc. repeat split; congruence.
Qed.

End TwoClasses.

(** ** The end-to-end scenario *)

Section Scenario.
Context {R : RandomState}.

(** C8 (as the code has it): a table of 1000 rows with 200 positive and 800
    negative labels, split with fractions 0.2 and 0.2 and seed 1, gives a
    test part of 200 rows with 40 positives; the second stage uses the
    fraction 0.2 / 0.8 = 0.25 of the remaining 800 rows, which gives a
    validation part of 200 rows with 40 positives and a train part of 600
    rows with 120 positives. *)
Theorem split_data_end_to_end (dataset : DataFrame) (target_col : string)
    (col : Column) (g : rng) :
  target_col ∈ df_columns dataset ->
  df_data dataset !! target_col = Some col ->
  Pandas.nrows dataset = 1000 ->
  length (col_values col) = 1000 ->
  length (filter (fun v => v = VInt 1) (col_values col)) = 200 ->
  length (filter (fun v => v = VInt 0) (col_values col)) = 800 ->
  (validation_size main_splitter / (1 - test_size main_splitter) == 1 # 4)%Q /\
  exists x_train x_val x_test y_train y_val y_test g',
    split_data main_splitter dataset target_col g
      = (inr (x_train, x_val, x_test, y_train, y_val, y_test), g') /\
    Pandas.nrows x_test = 200 /\ eligible y_test = 40 /\
    Pandas.nrows x_train = 600 /\ eligible y_train = 120 /\
    Pandas.nrows x_val = 200 /\ eligible y_val = 40.
Proof.
  intros Hcol Hdata Hrows Hlen Hpos Hneg. split; [reflexivity|].
  by apply (split_data_scenario dataset target_col col g).
Qed.

End Scenario.

(** * The model at work: instances of the theorems, and inputs on which the
      stated behaviour fails *)

Lemma table_1000_facts :
  "y" ∈ df_columns table_1000 /\
  Pandas.nrows table_1000 = 1000 /\
  exists col, df_data table_1000 !! "y" = Some col /\
    length (col_values col) = 1000 /\
    length (filter (fun v => v = VInt 1) (col_values col)) = 200 /\
    length (filter (fun v => v = VInt 0) (col_values col)) = 800.
Proof.
  split; [compute_done|]. split; [by vm_compute|].
  eexists. split; [by vm_compute|]. repeat split; by vm_compute.
Defined.

(** C1, the claim as stated fails: four rows, two of each class, and the
    fractions 0.2 and 0.2; the first stage asks for a test part of one row,
    fewer than there are classes, and [split_data] raises [ValueError]. *)
Lemma split_data_two_members_each_fails :
  count_of (VInt 0) (mkSeries "y" [] int64 (VInt <$> [0; 1; 0; 1]%Z)) = 2 /\
  count_of (VInt 1) (mkSeries "y" [] int64 (VInt <$> [0; 1; 0; 1]%Z)) = 2 /\
  df_data table_tiny !! "y" = Some (int_column [0; 1; 0; 1]%Z) /\
  (0 < test_size main_splitter)%Q /\ (0 < validation_size main_splitter)%Q /\
  (test_size main_splitter + validation_size main_splitter < 1)%Q /\
  split_data (R := lcg_random_state) main_splitter table_tiny "y" 0%Z
  = (inl (ValueError "The test_size should be greater or equal to the number of classes"),
     0%Z).
Proof. repeat split; by vm_compute. Qed.

(** The partition of the ten purchases. *)
Lemma split_data_partition_witness :
  split_data (R := lcg_random_state) main_splitter table_small "y" 0%Z
    = (inr outputs_small, 0%Z) /\
  Pandas.nrows outputs_small.1.1.1.1.1 + Pandas.nrows outputs_small.1.1.1.1.2
    + Pandas.nrows outputs_small.1.1.1.2
  = Pandas.nrows table_small.
Proof.
  split; [by vm_compute|].
  apply (split_data_partition (R := lcg_random_state) main_splitter table_small "y"
           0%Z 0%Z outputs_small.1.1.1.1.1 outputs_small.1.1.1.1.2
           outputs_small.1.1.1.2 outputs_small.1.1.2 outputs_small.1.2
           outputs_small.2).
  by vm_compute.
Defined.

(** Saving and reloading the bundle of the ten purchases. *)
Lemma save_load_round_trip_witness :
  bundle_small.*1 ≡ₚ bundle_names /\
  exists loaded opened,
    load_data_splits (pkl := plain_pickle) (scripts_dir ++ ["load_splits.py"])
      (PStr "outputs/splits") (Some 1%Z) fs_saved = (inr loaded, opened) /\
    loaded.*1 = bundle_names /\
    forall name, dict_get name loaded = dict_get name bundle_small.
Proof.
  assert (bundle_small.*1 ≡ₚ bundle_names) as Hkeys by (by vm_compute).
  split; [exact Hkeys|].
  apply (save_load_round_trip (pkl := plain_pickle) scripts_dir main_splitter
           bundle_small (PStr "outputs/splits") (Some 1%Z) ∅ fs_saved Hkeys).
  unfold fs_saved.
  destruct (save_splits _ _ _ _ _ _) as [r fs'] eqn:Hrun. simpl.
  assert (r = inr tt) as ->; [|reflexivity].
  change r with (r, fs').1. rewrite <- Hrun. by vm_compute.
Defined.

(** Without a seed the split follows the generator of [numpy.random]: two
    states of it, two different train parts. *)
Lemma split_data_unseeded_varies :
  train_index
    (split_data (R := lcg_random_state) (mkDataSplitter (1 # 5) (1 # 5) None)
       table_small "y" 0%Z).1
  <> train_index
       (split_data (R := lcg_random_state) (mkDataSplitter (1 # 5) (1 # 5) None)
          table_small "y" 5%Z).1.
Proof. vm_compute. discriminate. Qed.

(** C4, the claim as stated fails: the eligible class of the ten purchases
    has two members, fewer than the three partitions; [split_data] returns
    all the same, and the test part, which is not empty, has no eligible
    row. *)
Lemma split_data_two_member_class_silent :
  df_data table_small !! "y" = Some (int_column [0; 0; 1; 0; 0; 0; 0; 1; 0; 0]%Z) /\
  length (filter (fun v => v = VInt 1)
            (col_values (int_column [0; 0; 1; 0; 0; 0; 0; 1; 0; 0]%Z))) = 2 /\
  split_data (R := lcg_random_state) main_splitter table_small "y" 0%Z
    = (inr outputs_small, 0%Z) /\
  0 < Pandas.s_len outputs_small.2 /\
  eligible outputs_small.2 = 0.
Proof. repeat split; try (by vm_compute). vm_compute. lia. Qed.

(** Five purchases, one eligible: the split is refused. *)
Lemma split_data_single_member_witness :
  length (filter (fun v => v = VInt 1)
            (col_values (int_column [0; 0; 0; 1; 0]%Z))) = 1 /\
  exists msg,
    (split_data (R := lcg_random_state) main_splitter table_single "y" 0%Z).1
    = inl (ValueError msg).
Proof.
  split; [by vm_compute|].
  apply (split_data_single_member (R := lcg_random_state) main_splitter table_single
           "y" (int_column [0; 0; 0; 1; 0]%Z) (VInt 1) 0%Z).
  - compute_done.
  - by vm_compute.
  - by vm_compute.
Defined.

(** Loading when nothing was saved. *)
Lemma load_data_splits_fail_fast_witness :
  exists before first after,
    required_files = before ++ first :: after /\
    Forall (fun f => exists_ (∅ : FS PyObj)
                       (split_dir (scripts_dir ++ ["load_splits.py"])
                          (PStr "outputs/splits") (Some 1%Z) // f) = true) before /\
    exists_ (∅ : FS PyObj)
      (split_dir (scripts_dir ++ ["load_splits.py"])
         (PStr "outputs/splits") (Some 1%Z) // first) = false /\
    load_data_splits (pkl := plain_pickle) (scripts_dir ++ ["load_splits.py"])
      (PStr "outputs/splits") (Some 1%Z) ∅
    = (inl (FileNotFoundError
              (split_dir (scripts_dir ++ ["load_splits.py"])
                 (PStr "outputs/splits") (Some 1%Z) // first)), []).
Proof.
  apply (load_data_splits_fail_fast (pkl := plain_pickle)).
  exists "x_train.pkl". split; [compute_done | by vm_compute].
Defined.

(** Loading a csv file, a text file and a missing file. *)
Lemma load_dataset_contract_witness :
  load_dataset (readers := plain_readers) fs_data (PStr "data/compras.csv")
    = inr table_small /\
  (exists msg, load_dataset (readers := plain_readers) fs_data (PStr "data/notas.txt")
               = inl (ValueError msg)) /\
  load_dataset (readers := plain_readers) fs_data (PStr "data/vendas.csv")
    = inl (FileNotFoundError ["data"; "vendas.csv"]).
Proof.
  split; [|split].
  - destruct (load_dataset_contract (readers := plain_readers) fs_data
                (PStr "data/compras.csv")) as (_ & _ & Hcsv & _).
    destruct Hcsv as [_ Htable]; [by vm_compute | by vm_compute |].
    apply Htable. unfold pd_read_csv. by vm_compute.
  - destruct (load_dataset_contract (readers := plain_readers) fs_data
                (PStr "data/notas.txt")) as (_ & Hother & _).
    apply Hother; vm_compute; congruence.
  - destruct (load_dataset_contract (readers := plain_readers) fs_data
                (PStr "data/vendas.csv")) as (Hmissing & _).
    apply Hmissing. by vm_compute.
Defined.

(** Missing files of two kinds, and a file of the wrong kind that is there. *)
Lemma load_dataset_existence_first_witness :
  load_dataset (readers := plain_readers) fs_data (PStr "data/vendas.csv")
    = inl (FileNotFoundError ["data"; "vendas.csv"]) /\
  load_dataset (readers := plain_readers) fs_data (PStr "data/vendas.txt")
    = inl (FileNotFoundError ["data"; "vendas.txt"]) /\
  exists_ fs_data ["data"; "notas.txt"] = true.
Proof.
  split; [|split].
  - destruct (load_dataset_existence_first (readers := plain_readers) fs_data
                (PStr "data/vendas.csv")) as (Hmissing & _).
    apply Hmissing. by vm_compute.
  - destruct (load_dataset_existence_first (readers := plain_readers) fs_data
                (PStr "data/vendas.txt")) as (Hmissing & _).
    apply Hmissing. by vm_compute.
  - destruct (load_dataset_existence_first (readers := plain_readers) fs_data
                (PStr "data/notas.txt")) as (_ & Hformat & _).
    eapply Hformat. by vm_compute.
Defined.



(** The scenario on the thousand purchases. *)
Lemma split_data_end_to_end_witness :
  Pandas.nrows table_1000 = 1000 /\
  exists x_train x_val x_test y_train y_val y_test g',
    split_data (R := lcg_random_state) main_splitter table_1000 "y" 0%Z
      = (inr (x_train, x_val, x_test, y_train, y_val, y_test), g') /\
    Pandas.nrows x_test = 200 /\ eligible y_test = 40 /\
    Pandas.nrows x_train = 600 /\ eligible y_train = 120 /\
    Pandas.nrows x_val = 200 /\ eligible y_val = 40.
Proof.
  destruct table_1000_facts as (Hcol & Hrows & col & Hdata & Hlen & Hpos & Hneg).
  split; [exact Hrows|].
  exact (proj2 (split_data_end_to_end (R := lcg_random_state) table_1000 "y" col 0%Z
                  Hcol Hdata Hrows Hlen Hpos Hneg)).
Defined.

(** C8, the claim as stated fails: on the thousand purchases the train part
    has 600 rows, 120 of them positive, and the validation part 200 rows, not
    approximately 480, 96 and 160. *)
Lemma split_data_end_to_end_not_as_stated :
  exists x_train x_val x_test y_train y_val y_test g',
    split_data (R := lcg_random_state) main_splitter table_1000 "y" 0%Z
      = (inr (x_train, x_val, x_test, y_train, y_val, y_test), g') /\
    Pandas.nrows x_test = 200 /\
    ~ approximately 480 (Pandas.nrows x_train) /\
    ~ approximately 96 (eligible y_train) /\
    ~ approximately 160 (Pandas.nrows x_val).
Proof.
  destruct table_1000_facts as (Hcol & Hrows & col & Hdata & Hlen & Hpos & Hneg).
  destruct (split_data_scenario (R := lcg_random_state) table_1000 "y" col 0%Z
              Hcol Hdata Hrows Hlen Hpos Hneg)
    as (x_train & x_val & x_test & y_train & y_val & y_test & g' & Hrun
        & Hte & _ & Htr & Htre & Hva & _).
  exists x_train, x_val, x_test, y_train, y_val, y_test, g'.
  split; [exact Hrun|]. split; [exact Hte|].
  rewrite Htr, Htre, Hva. unfold approximately. repeat split; lia.
Qed.

(** * Further properties *)

(** ** More on the allocation: every class close to its share *)

Section Shares.
Context {R : RandomState}.

(** [_approximate_mode] gives every class its proportional share of the
    draws, rounded down or up: less than one draw away from it. *)
Lemma approximate_mode_near (class_counts : list nat) (n_draws : nat) (g : rng)
    (i c b : nat) :
  0 < sum_list class_counts -> n_draws <= sum_list class_counts ->
  class_counts !! i = Some c ->
  (approximate_mode class_counts n_draws g).1 !! i = Some b ->
  b * sum_list class_counts < c * n_draws + sum_list class_counts /\
  c * n_draws < b * sum_list class_counts + sum_list class_counts.
Proof.
  intros HN Hn Hc. unfold approximate_mode. cbv zeta.
  set (N := sum_list class_counts) in *.
  set (a := (fun c => c * n_draws) <$> class_counts).
  set (fl := (fun x => x / N) <$> a).
  set (rem := (fun x => x mod N) <$> a).
  assert (N * n_draws = N * sum_list fl + sum_list rem) as Hsum.
  { pose proof (sum_list_div_mod a N) as Hdm. unfold a in Hdm at 1.
    rewrite sum_list_scale in Hdm. unfold fl, rem. fold N in Hdm. lia. }
  assert (Forall (fun x => x < N) rem) as Hrem.
  { unfold rem. apply Forall_fmap, Forall_true. intros x. simpl.
    apply Nat.mod_upper_bound. lia. }
  pose proof (sum_list_nonzero_bound rem N Hrem) as Hbound.
  set (P := length (filter (fun x => x ≠ 0) rem)) in *.
  assert (fl !! i = Some (c * n_draws / N) /\
          rem !! i = Some ((c * n_draws) mod N)) as [Hfli Hremi].
  { unfold fl, rem, a. rewrite !list_lookup_fmap, Hc. done. }
  pose proof (Nat.div_mod_eq (c * n_draws) N) as Hdiv.
  pose proof (Nat.mod_upper_bound (c * n_draws) N ltac:(lia)) as Hmod.
  destruct (decide (0 < n_draws - sum_list fl)) as [Hneed|Hneed]; simpl.
  - set (need := n_draws - sum_list fl) in *.
    set (values := reverse (merge_sort le (remove_dups rem))).
    assert (NoDup values) as Hnodup.
    { unfold values. rewrite reverse_Permutation, merge_sort_Permutation.
      apply NoDup_remove_dups. }
    assert (forall x, x ∈ rem -> x ∈ values) as Hall.
    { intros x Hx. unfold values.
      by rewrite elem_of_reverse, merge_sort_Permutation, elem_of_remove_dups. }
    assert (need <= P) as HneedP by nia.
    destruct (add_by_remainder_spec values rem fl need g Hnodup)
      as (_ & _ & Hpt).
    { unfold fl, rem. by rewrite !length_fmap. }
    intros Hb.
    destruct (Hpt i _ Hfli) as [Hsame | (Hup & vs1 & v & vs2 & Hvals & Hv & Hcap)].
    + assert (b = c * n_draws / N) as -> by congruence. nia.
    + assert (b = S (c * n_draws / N)) as -> by congruence.
      assert (v = (c * n_draws) mod N) as Hveq by congruence.
      assert (v ≠ 0) as Hv0.
      { intros ->. pose proof (zero_last _ _ _ Hvals) as ->.
        assert (NoDup vs1) as Hnodup1.
        { fold values in Hvals. rewrite Hvals in Hnodup.
          by apply NoDup_app in Hnodup as (? & _ & _). }
        rewrite (capacity_filter _ _ Hnodup1) in Hcap.
        assert (P <= length (filter (fun x => x ∈ vs1) rem)); [|lia].
        apply length_filter_mono. intros x Hx Hx0.
        apply Hall in Hx. fold values in Hvals. rewrite Hvals in Hx.
        apply elem_of_app in Hx as [Hx|Hx]; [done|].
        by apply elem_of_cons in Hx as [->|Hx%elem_of_nil]. }
      nia.
  - intros Hb. assert (b = c * n_draws / N) as -> by congruence. nia.
Qed.

(** One stratified split, class by class: the two sides share out the rows
    of every class, and the test side holds its proportional share of the
    class, less than one row away from it. *)
Lemma train_test_split_shares (x : DataFrame) (y : Series) (t : Q)
    (random_state : option Z) (g : rng) (n_train n_test : nat) :
  split_possible x y t random_state n_train n_test ->
  exists train test g',
    train_test_split x y t random_state g
      = (inr (Pandas.iloc x train, Pandas.iloc x test,
              Pandas.s_iloc y train, Pandas.s_iloc y test), g') /\
    train ++ test ≡ₚ seq 0 (Pandas.nrows x) /\
    length train = n_train /\ length test = n_test /\
    forall c,
      count_of c (Pandas.s_iloc y train) + count_of c (Pandas.s_iloc y test)
        = count_of c y /\
      count_of c (Pandas.s_iloc y test) * Pandas.s_len y
        < count_of c y * n_test + Pandas.s_len y /\
      count_of c y * n_test
        < count_of c (Pandas.s_iloc y test) * Pandas.s_len y + Pandas.s_len y.
Proof.
  intros Hok.
  destruct (train_test_split_ok x y t random_state g n_train n_test Hok)
    as (train & test & g' & g0 & Hrun & Hperm & Hltrain & Hltest & Hspec).
  destruct Hok as (Hlen & Hval & Hmin & Htrain & Htest & Hseed).
  destruct (validate_shuffle_split_inv _ _ _ _ Hval) as (_ & _ & _ & Hn & Hpos1 & Hpos2).
  exists train, test, g'. split; [done|]. split; [done|].
  split; [done|]. split; [done|]. intros c.
  unfold count_of, Pandas.s_len in *. simpl.
  pose proof (Permutation_seq_bound _ _ Hperm) as Hbound.
  rewrite Hlen in Hbound. apply Forall_app in Hbound as [Hb1 Hb2].
  rewrite !count_take_at by done.
  set (yv := s_values y) in *.
  pose proof (sum_list_bincount (np_unique yv) yv (NoDup_np_unique yv)
                (fun v Hv => proj2 (elem_of_np_unique yv v) Hv)) as Hsum.
  destruct (decide (c ∈ yv)) as [Hin|Hout].
  - apply elem_of_np_unique, list_elem_of_lookup_1 in Hin as [j Hj].
    destruct (Hspec j c Hj) as [Ha Hb].
    assert (bincount (np_unique yv) yv !! j
            = Some (length (filter (fun v => v = c) yv))) as Hcount
      by (unfold bincount; by rewrite list_lookup_fmap, Hj).
    destruct (approximate_mode_spec (bincount (np_unique yv) yv) n_train g0)
      as (_ & _ & Hle); [lia | lia |].
    pose proof (Forall2_lookup_lr _ _ _ _ _ _ Hle Ha Hcount) as Hble.
    rewrite lookup_zip_with, Hcount in Hb. simpl in Hb. rewrite Ha in Hb.
    simpl in Hb. injection Hb as Hb.
    destruct (approximate_mode_near (bincount (np_unique yv) yv) n_train g0
                j _ _ ltac:(lia) ltac:(lia) Hcount Ha) as [Hn1 Hn2].
    rewrite Hsum in Hn1, Hn2. nia.
  - rewrite (filter_none (fun v => v = c) yv) by (by intros v Hv ->).
    unfold count_at. rewrite (filter_none _ train), (filter_none _ test); simpl.
    + lia.
    + intros i _ Hi. apply Hout. by eapply list_elem_of_lookup_2.
    + intros i _ Hi. apply Hout. by eapply list_elem_of_lookup_2.
Qed.

End Shares.

(** ** More on [split_data] *)

Section SplitDataMore.
Context {R : RandomState}.

(** Both stages of a run of [split_data] that returned, with what each
    stage checked and how it shared out the rows. *)
Lemma split_data_stages (self : DataSplitter) (dataset : DataFrame)
    (target_col : string) (g g' : rng) x_train x_val x_test y_train y_val y_test :
  split_data self dataset target_col g
    = (inr (x_train, x_val, x_test, y_train, y_val, y_test), g') ->
  exists x y tr1 te tr2 va,
    Pandas.drop dataset target_col = inr x /\
    Pandas.getitem dataset target_col = inr y /\
    split_possible x y (test_size self) (random_state self) (length tr1) (length te) /\
    split_possible (Pandas.iloc x tr1) (Pandas.s_iloc y tr1)
      (validation_size self / (1 - test_size self)) (random_state self)
      (length tr2) (length va) /\
    x_train = Pandas.iloc (Pandas.iloc x tr1) tr2 /\
    x_val = Pandas.iloc (Pandas.iloc x tr1) va /\
    x_test = Pandas.iloc x te /\
    y_train = Pandas.s_iloc (Pandas.s_iloc y tr1) tr2 /\
    y_val = Pandas.s_iloc (Pandas.s_iloc y tr1) va /\
    y_test = Pandas.s_iloc y te /\
    (forall c,
       count_of c (Pandas.s_iloc y tr1) + count_of c y_test = count_of c y /\
       count_of c y_test * Pandas.s_len y
         < count_of c y * length te + Pandas.s_len y /\
       count_of c y * length te
         < count_of c y_test * Pandas.s_len y + Pandas.s_len y) /\
    (forall c,
       count_of c y_train + count_of c y_val = count_of c (Pandas.s_iloc y tr1) /\
       count_of c y_val * length tr1
         < count_of c (Pandas.s_iloc y tr1) * length va + length tr1 /\
       count_of c (Pandas.s_iloc y tr1) * length va
         < count_of c y_val * length tr1 + length tr1).
Proof.
  unfold split_data. intros Hrun.
  destruct (Pandas.drop dataset target_col) as [e|x] eqn:Hdrop; [discriminate|].
  destruct (Pandas.getitem dataset target_col) as [e|y] eqn:Hget; [discriminate|].
  simpl in Hrun.
  destruct (train_test_split_cases x y (test_size self) (random_state self) g)
    as [[msg Herr] | (n1 & m1 & Hok1)]; [by rewrite Herr in Hrun|].
  destruct (train_test_split_shares x y _ _ g _ _ Hok1)
    as (tr1 & te & g1 & Hrun1 & Hperm1 & <- & <- & Hshare1).
  rewrite Hrun1 in Hrun.
  destruct (Qeq_bool _ 0); [discriminate|].
  destruct (train_test_split_cases (Pandas.iloc x tr1) (Pandas.s_iloc y tr1)
              (validation_size self / (1 - test_size self)) (random_state self) g1)
    as [[msg Herr] | (n2 & m2 & Hok2)]; [by rewrite Herr in Hrun|].
  destruct (train_test_split_shares _ _ _ _ g1 _ _ Hok2)
    as (tr2 & va & g2 & Hrun2 & Hperm2 & <- & <- & Hshare2).
  rewrite Hrun2 in Hrun. injection Hrun as <- <- <- <- <- <- <-.
  exists x, y, tr1, te, tr2, va.
  rewrite s_len_s_iloc in Hshare2.
  do 10 (split; [done|]). split; [exact Hshare1 | exact Hshare2].
Qed.

End SplitDataMore.

Section SplitDataExtras.
Context {R : RandomState}.

Lemma drop_inr_full (dataset x : DataFrame) (target_col : string) :
  Pandas.drop dataset target_col = inr x ->
  target_col ∈ df_columns dataset /\
  df_index x = df_index dataset /\
  df_columns x
    = List.filter (fun c => negb (String.eqb c target_col)) (df_columns dataset) /\
  df_data x = delete target_col (df_data dataset).
Proof.
  unfold Pandas.drop. case_bool_decide as Hin; [|discriminate].
  intros [= <-]. done.
Qed.

Lemma getitem_inr_full (dataset : DataFrame) (target_col : string) (y : Series) :
  Pandas.getitem dataset target_col = inr y ->
  exists col, df_data dataset !! target_col = Some col /\
    y = mkSeries target_col (df_index dataset) (col_dtype col) (col_values col).
Proof.
  unfold Pandas.getitem. destruct (df_data dataset !! target_col) as [col|]; [|discriminate].
  intros [= <-]. by exists col.
Qed.

Lemma filter_negb_eqb (target_col : string) (l : list string) :
  (target_col ∉ List.filter (fun c => negb (String.eqb c target_col)) l) /\
  sublist (List.filter (fun c => negb (String.eqb c target_col)) l) l /\
  forall c, c ∈ (List.filter (fun c => negb (String.eqb c target_col)) l)
            <-> c ∈ l /\ c ≠ target_col.
Proof.
  assert (forall c, c ∈ (List.filter (fun c => negb (String.eqb c target_col)) l)
                    <-> c ∈ l /\ c ≠ target_col) as Hiff.
  { intros c. rewrite !list_elem_of_In, filter_In.
    destruct (String.eqb_spec c target_col) as [->|Hne]; simpl.
    - split; [by intros [_ ?] | by intros [_ ?]].
    - split; [by intros [? _] | by intros [? _]]. }
  split; [|split; [|done]].
  - intros Hin. apply Hiff in Hin. by destruct Hin.
  - clear Hiff. induction l as [|a l IH]; simpl; [done|].
    destruct (negb (a =? target_col)%string);
      [apply sublist_skip | apply sublist_cons]; exact IH.
Qed.

(** X1: whenever [split_data] returns, each of the three feature parts has
    the columns of the source table without the target column, in the order
    of the source and with the dtypes of the source, and stores nothing
    under the name of the target; each of the three label parts is named
    after the target column and has its dtype. *)
Theorem split_data_columns (self : DataSplitter) (dataset : DataFrame)
    (target_col : string) (g g' : rng) x_train x_val x_test y_train y_val y_test :
  split_data self dataset target_col g
    = (inr (x_train, x_val, x_test, y_train, y_val, y_test), g') ->
  exists col, df_data dataset !! target_col = Some col /\
    target_col ∈ df_columns dataset /\
    Forall (fun part : DataFrame =>
              df_columns part
                = List.filter (fun c => negb (String.eqb c target_col))
                    (df_columns dataset) /\
              sublist (df_columns part) (df_columns dataset) /\
              (forall c, c ∈ df_columns part
                         <-> c ∈ df_columns dataset /\ c ≠ target_col) /\
              df_data part !! target_col = None /\
              forall c, c ≠ target_col ->
                col_dtype <$> df_data part !! c = col_dtype <$> df_data dataset !! c)
           [x_train; x_val; x_test] /\
    Forall (fun part : Series =>
              s_name part = target_col /\ s_dtype part = col_dtype col)
           [y_train; y_val; y_test].
Proof.
  intros Hrun.
  destruct (split_data_inv _ _ _ _ _ _ _ _ _ _ _ Hrun)
    as (x & y & train & val & test & Hdrop & Hget & -> & -> & -> & -> & -> & -> & _).
  apply drop_inr_full in Hdrop as (Hin & _ & Hcols & Hdata).
  apply getitem_inr_full in Hget as (col & Hcol & ->).
  exists col. split; [done|]. split; [done|].
  destruct (filter_negb_eqb target_col (df_columns dataset)) as (Hnot & Hsub & Hiff).
  assert (forall pos, 
            df_columns (Pandas.iloc x pos)
              = List.filter (fun c => negb (String.eqb c target_col))
                  (df_columns dataset) /\
            sublist (df_columns (Pandas.iloc x pos)) (df_columns dataset) /\
            (forall c, c ∈ df_columns (Pandas.iloc x pos)
                       <-> c ∈ df_columns dataset /\ c ≠ target_col) /\
            df_data (Pandas.iloc x pos) !! target_col = None /\
            forall c, c ≠ target_col ->
              col_dtype <$> df_data (Pandas.iloc x pos) !! c
              = col_dtype <$> df_data dataset !! c) as Hpart.
  { intros pos. simpl. rewrite Hcols, Hdata.
    split; [done|]. split; [done|]. split; [done|]. split.
    - by rewrite lookup_fmap, lookup_delete_eq.
    - intros c Hc. rewrite lookup_fmap, lookup_delete_ne by done.
      by destruct (df_data dataset !! c). }
  split.
  - do 3 (constructor; [apply Hpart|]). constructor.
  - do 3 (constructor; [done|]). constructor.
Qed.

Lemma np_min_classes (yv : list value) (c : value) :
  2 <= np_min (bincount (np_unique yv) yv) -> c ∈ yv ->
  2 <= length (filter (fun v => v = c) yv).
Proof.
  intros Hmin Hc. etrans; [exact Hmin|]. unfold np_min. apply foldr_min_le.
  unfold bincount. apply list_elem_of_fmap. exists c. split; [done|].
  by apply elem_of_np_unique.
Qed.


(** The sizes of the three parts of a run that returned are those that the
    size checks of the two stages gave. *)
Lemma split_data_validated (self : DataSplitter) (dataset : DataFrame)
    (target_col : string) (g g' : rng) (outputs : Splits) :
  split_data self dataset target_col g = (inr outputs, g') ->
  exists n_rest,
    validate_shuffle_split (Pandas.nrows dataset) (test_size self)
      = inr (n_rest, (part_sizes outputs).2) /\
    validate_shuffle_split n_rest (validation_size self / (1 - test_size self))
      = inr ((part_sizes outputs).1.1, (part_sizes outputs).1.2).
Proof.
  destruct outputs as [[[[[x_train x_val] x_test] y_train] y_val] y_test].
  intros Hrun.
  destruct (split_data_stages _ _ _ _ _ _ _ _ _ _ _ Hrun)
    as (x & y & tr1 & te & tr2 & va & Hdrop & Hget & Hok1 & Hok2
        & -> & -> & -> & -> & -> & -> & _).
  destruct Hok1 as (_ & Hval1 & _). destruct Hok2 as (_ & Hval2 & _).
  apply drop_inr_full in Hdrop as (_ & Hindex & _).
  assert (Pandas.nrows x = Pandas.nrows dataset) as Hrows
    by (unfold Pandas.nrows; congruence).
  rewrite nrows_iloc in Hval2. rewrite Hrows in Hval1.
  exists (length tr1). simpl. by rewrite !nrows_iloc.
Qed.


(** X4: stratification.  For every label, the counts in the three parts add
    up to its count in the source; the count in the test part is less than
    one row away from the proportional share [count * test / n]; and the
    count in the validation part is less than one row away from the
    proportional share of the rows left after the test part was taken. *)
Theorem split_data_stratified (self : DataSplitter) (dataset : DataFrame)
    (target_col : string) (g g' : rng) x_train x_val x_test y_train y_val y_test :
  split_data self dataset target_col g
    = (inr (x_train, x_val, x_test, y_train, y_val, y_test), g') ->
  exists y, Pandas.getitem dataset target_col = inr y /\
    forall c,
      let pool := Pandas.nrows x_train + Pandas.nrows x_val in
      let pool_c := count_of c y_train + count_of c y_val in
      pool_c + count_of c y_test = count_of c y /\
      count_of c y_test * Pandas.nrows dataset
        < count_of c y * Pandas.nrows x_test + Pandas.nrows dataset /\
      count_of c y * Pandas.nrows x_test
        < count_of c y_test * Pandas.nrows dataset + Pandas.nrows dataset /\
      count_of c y_val * pool < pool_c * Pandas.nrows x_val + pool /\
      pool_c * Pandas.nrows x_val < count_of c y_val * pool + pool.
Proof.
  intros Hrun.
  destruct (split_data_stages _ _ _ _ _ _ _ _ _ _ _ Hrun)
    as (x & y & tr1 & te & tr2 & va & Hdrop & Hget & Hok1 & Hok2
        & -> & -> & -> & -> & -> & -> & Hshare1 & Hshare2).
  destruct Hok1 as (Hlen1 & _).
  destruct Hok2 as (_ & Hval2 & _).
  destruct (validate_shuffle_split_inv _ _ _ _ Hval2) as (_ & _ & _ & Hsum2 & _).
  apply drop_inr_full in Hdrop as (Hin & Hindex & _).
  assert (Pandas.s_len y = Pandas.nrows dataset) as Hrows
    by (unfold Pandas.nrows in *; congruence).
  exists y. split; [done|]. intros c. cbv zeta.
  rewrite !nrows_iloc in *.
  destruct (Hshare1 c) as (Ha & Hb & Hc). destruct (Hshare2 c) as (Hd & He & Hf).
  rewrite Hrows in Hb, Hc. rewrite Hsum2, Hd.
  split; [done|]. split; [done|]. split; [done|]. split; done.
Qed.

End SplitDataExtras.

(** ** Sizes that are ints *)

Section NumbersProperties.
Context {R : RandomState}.

(** With fractions, [split_data_number] is [split_data]. *)
Lemma split_data_number_float (t v : Q) (random_state : option Z)
    (dataset : DataFrame) (target_col : string) (g : rng) :
  split_data_number (PyFloat t) (PyFloat v) random_state dataset target_col g
  = split_data (mkDataSplitter t v random_state) dataset target_col g.
Proof.
  unfold split_data_number, split_data, py_truediv, py_sub. simpl.
  destruct (Pandas.drop dataset target_col) as [e|x]; [done|].
  destruct (Pandas.getitem dataset target_col) as [e|y]; [done|].
  change (train_test_split_number x y (PyFloat t) random_state g)
    with (train_test_split x y t random_state g).
  destruct (train_test_split x y t random_state g)
    as [[e|[[[x_train x_test] y_train] y_test]] g1]; [done|].
  change (inject_Z 1 - t)%Q with (1 - t)%Q.
  by destruct (Qeq_bool (1 - t) 0).
Qed.

Lemma validate_shuffle_split_number_inv (n_samples : nat) (test_size : number)
    (n_train n_test : nat) :
  validate_shuffle_split_number n_samples test_size = inr (n_train, n_test) ->
  n_train + n_test = n_samples /\ 0 < n_train /\ 0 < n_test /\
  match test_size with
  | PyFloat q => (q < 1)%Q
  | PyInt z => (0 < z)%Z
  end.
Proof.
  destruct test_size as [z|q]; simpl.
  - destruct ((z <=? 0) || (Z.of_nat n_samples <=? z))%Z eqn:Hbad; [discriminate|].
    apply orb_false_iff in Hbad as [H1%Z.leb_gt H2%Z.leb_gt].
    case_decide as Hz; [discriminate|]. intros [= <- <-]. lia.
  - intros Hval.
    destruct (validate_shuffle_split_inv _ _ _ _ Hval) as (_ & ? & _ & ? & ? & ?).
    done.
Qed.

Lemma validate_shuffle_split_number_error (n_samples : nat) (test_size : number)
    (e : exn) :
  validate_shuffle_split_number n_samples test_size = inl e ->
  exists msg, e = ValueError msg.
Proof.
  destruct test_size as [z|q]; simpl; [|apply validate_shuffle_split_error].
  destruct ((z <=? 0) || (Z.of_nat n_samples <=? z))%Z;
    [intros [= <-]; by eexists|].
  case_decide; [intros [= <-]; by eexists | discriminate].
Qed.

(** One stratified split with an int or a float for a size: a [ValueError],
    or a split; a float that was accepted is below 1. *)
Lemma train_test_split_number_cases (x : DataFrame) (y : Series)
    (test_size : number) (random_state : option Z) (g : rng) :
  (exists msg, train_test_split_number x y test_size random_state g
               = (inl (ValueError msg), g)) \/
  (exists r g', train_test_split_number x y test_size random_state g = (inr r, g') /\
     match test_size with
     | PyFloat q => (q < 1)%Q
     | PyInt z => (0 < z)%Z
     end).
Proof.
  unfold train_test_split_number.
  case_decide as Hlen; [left; by eexists|].
  destruct (validate_shuffle_split_number (Pandas.nrows x) test_size)
    as [e|[n_train n_test]] eqn:Hval.
  { left. destruct (validate_shuffle_split_number_error _ _ _ Hval) as [msg ->].
    by eexists. }
  destruct (validate_shuffle_split_number_inv _ _ _ _ Hval) as (Hsum & Hp1 & Hp2 & Hsize).
  destruct (stratified_shuffle_split_cases (s_values y) n_train n_test random_state g)
    as [[msg Herr] | (Hmin & Hc1 & Hc2 & Hseed)].
  { left. exists msg. by rewrite Herr. }
  destruct (stratified_shuffle_split_ok (s_values y) n_train n_test random_state g
              Hmin Hc1 Hc2 Hseed) as (train & test & g' & g0 & Hrun & _).
  { unfold Pandas.nrows, Pandas.s_len in *. lia. }
  { done. }
  right. rewrite Hrun. by eexists _, _.
Qed.


End NumbersProperties.

(** ** The seed and the generator of [numpy.random] *)

Section SplitDataSeeded.
Context {R : RandomState}.

(** X6: with a seed, [split_data] leaves the generator of [numpy.random] as
    it found it, whether it returns or raises. *)
Theorem split_data_keeps_generator (t v : Q) (seed : Z) (dataset : DataFrame)
    (target_col : string) (g : rng) :
  (split_data (mkDataSplitter t v (Some seed)) dataset target_col g).2 = g.
Proof.
  destruct (split_data_seeded t v seed dataset target_col) as [r Hr].
  by rewrite Hr.
Qed.

End SplitDataSeeded.

(** ** More on the categorical feature identifier *)

Lemma categorical_among_sublist (x_train : DataFrame) (columns cats : list string) :
  categorical_among x_train columns = inr cats -> sublist cats columns.
Proof.
  revert cats. induction columns as [|c columns IH]; intros cats; simpl.
  - intros [= <-]. constructor.
  - destruct (Pandas.getitem x_train c) as [e|s]; [discriminate|]. simpl.
    destruct (categorical_among x_train columns) as [e|rest]; [discriminate|].
    simpl. intros [= <-].
    destruct (is_categorical (s_dtype s)); [apply sublist_skip | apply sublist_cons];
      by apply IH.
Qed.

Lemma getitem_iloc (x : DataFrame) (pos : list nat) (c : string) :
  Pandas.getitem (Pandas.iloc x pos) c
  = match Pandas.getitem x c with
    | inl e => inl e
    | inr s => inr (Pandas.s_iloc s pos)
    end.
Proof.
  unfold Pandas.getitem. simpl. rewrite lookup_fmap.
  by destruct (df_data x !! c).
Qed.

Lemma categorical_among_iloc (x : DataFrame) (pos : list nat) (columns : list string) :
  categorical_among (Pandas.iloc x pos) columns = categorical_among x columns.
Proof.
  induction columns as [|c columns IH]; simpl; [done|].
  rewrite getitem_iloc, IH. by destruct (Pandas.getitem x c).
Qed.

Lemma identify_categorical_features_iloc (x : DataFrame) (pos : list nat) :
  identify_categorical_features (Pandas.iloc x pos) = identify_categorical_features x.
Proof.
  unfold identify_categorical_features. by rewrite categorical_among_iloc.
Qed.

(** X7: the labels that [identify_categorical_features] returns come in the
    order of the columns of the table: they are a sub-list of the columns,
    no longer than it, and without repetition when the columns have none. *)
Theorem identify_categorical_features_ordered (x_train : DataFrame)
    (cats : list string) :
  identify_categorical_features x_train = inr cats ->
  sublist cats (df_columns x_train) /\
  length cats <= length (df_columns x_train) /\
  (NoDup (df_columns x_train) -> NoDup cats).
Proof.
  unfold identify_categorical_features. intros Hrun.
  destruct (categorical_among x_train (df_columns x_train)) as [e|cats0] eqn:Hcats;
    [discriminate|].
  simpl in Hrun. injection Hrun as <-.
  apply categorical_among_sublist in Hcats.
  split; [done|]. split; [by apply sublist_length|].
  intros Hnodup. by eapply sublist_NoDup.
Qed.

Lemma categorical_among_dtypes (x1 x2 : DataFrame) (columns : list string) :
  (forall c, c ∈ columns ->
     col_dtype <$> df_data x1 !! c = col_dtype <$> df_data x2 !! c) ->
  categorical_among x1 columns = categorical_among x2 columns.
Proof.
  induction columns as [|c columns IH]; intros Hsame; simpl; [done|].
  rewrite IH by (intros c' Hc'; apply Hsame; by right).
  pose proof (Hsame c ltac:(by left)) as Hc. unfold Pandas.getitem.
  destruct (df_data x1 !! c) as [col1|], (df_data x2 !! c) as [col2|];
    simpl in *; try done.
  injection Hc as ->. done.
Qed.

(** X8: [identify_categorical_features] looks at the column labels and the
    dtypes only: two tables with the same labels and the same dtype under
    each label give the same outcome, whatever their rows. *)
Theorem identify_categorical_features_dtypes (x1 x2 : DataFrame) :
  df_columns x1 = df_columns x2 ->
  (forall c, c ∈ df_columns x1 ->
     col_dtype <$> df_data x1 !! c = col_dtype <$> df_data x2 !! c) ->
  identify_categorical_features x1 = identify_categorical_features x2.
Proof.
  intros Hcols Hsame. unfold identify_categorical_features.
  by rewrite <- Hcols, (categorical_among_dtypes x1 x2).
Qed.

Section SplitParts.
Context {R : RandomState}.

(** X9: the three feature parts of a split have the same categorical
    columns, so the list that [main] computes on the train part and stores
    once holds for the validation and test parts as well; it follows the
    order of the columns of the source and never names the target. *)
Theorem split_data_categorical_cols (self : DataSplitter) (dataset : DataFrame)
    (target_col : string) (g g' : rng) x_train x_val x_test y_train y_val y_test :
  split_data self dataset target_col g
    = (inr (x_train, x_val, x_test, y_train, y_val, y_test), g') ->
  identify_categorical_features x_val = identify_categorical_features x_train /\
  identify_categorical_features x_test = identify_categorical_features x_train /\
  forall cats, identify_categorical_features x_train = inr cats ->
    (target_col ∉ cats) /\ sublist cats (df_columns dataset).
Proof.
  intros Hrun.
  destruct (split_data_inv _ _ _ _ _ _ _ _ _ _ _ Hrun)
    as (x & y & train & val & test & Hdrop & Hget & -> & -> & -> & _).
  rewrite !identify_categorical_features_iloc.
  split; [done|]. split; [done|]. intros cats Hcats.
  apply drop_inr_full in Hdrop as (_ & _ & Hcols & _).
  destruct (filter_negb_eqb target_col (df_columns dataset)) as (Hnot & Hsub & _).
  rewrite <- Hcols in Hnot, Hsub.
  unfold identify_categorical_features in Hcats.
  destruct (categorical_among x (df_columns x)) as [e|cats0] eqn:Hc; [discriminate|].
  simpl in Hcats. injection Hcats as <-.
  apply categorical_among_sublist in Hc. split.
  - intros Hin. apply Hnot. by eapply elem_of_sublist.
  - by etrans.
Qed.

End SplitParts.

(** ** What [save_splits] leaves behind *)

Section Footprint.
Context {bytes : Type} {pkl : Pickle bytes}.

Lemma mkdir_one_inv (full : Path) (fs fs' : FS bytes) (p : Path) :
  mkdir_one full fs p = inr fs' ->
  fs' = fs \/ (fs !! p = None /\ fs' = <[p := Dir]> fs).
Proof.
  unfold mkdir_one, ret, raise. destruct p as [|c p]; [left; congruence|].
  destruct (fs !! (c :: p)) as [[d|]|] eqn:Hp; [discriminate | left; congruence|].
  right. split; [done | congruence].
Qed.

Lemma mkdir_one_dir (full : Path) (fs fs' : FS bytes) (p : Path) :
  mkdir_one full fs p = inr fs' -> p ≠ [] -> fs' !! p = Some Dir.
Proof.
  unfold mkdir_one, ret, raise. destruct p as [|c p]; [done|]. intros Hrun _.
  destruct (fs !! (c :: p)) as [[d|]|] eqn:Hp; [discriminate | congruence|].
  injection Hrun as <-. apply lookup_insert_eq.
Qed.

(** [mkdir] adds directories along the path it is given, and nothing else. *)
Lemma mkdir_prefixes_frame (full made todo : Path) (fs fs' : FS bytes)
    (r : result unit) (p : Path) :
  mkdir_prefixes full made todo fs = (r, fs') ->
  fs' !! p = fs !! p \/
  (fs !! p = None /\ fs' !! p = Some Dir /\ exists k, p = made ++ take k todo).
Proof.
  revert made fs. induction todo as [|c todo IH]; intros made fs Hrun.
  - simpl in Hrun. left. congruence.
  - simpl in Hrun.
    destruct (mkdir_one full fs (made ++ [c])) as [e|fs1] eqn:Hone.
    { left. congruence. }
    destruct (IH _ _ Hrun) as [Hsame | (Hnone & Hdir & k & ->)].
    + destruct (mkdir_one_inv _ _ _ _ Hone) as [-> | [Hnone ->]]; [by left|].
      destruct (decide (p = made ++ [c])) as [->|Hne].
      * right. split; [done|]. split.
        -- by rewrite Hsame, lookup_insert_eq.
        -- by exists 1.
      * left. by rewrite Hsame, lookup_insert_ne.
    + right. destruct (mkdir_one_inv _ _ _ _ Hone) as [-> | [Hnone' ->]].
      * split; [done|]. split; [done|]. exists (S k). by rewrite <- app_assoc.
      * destruct (decide ((made ++ [c]) ++ take k todo = made ++ [c])) as [Heq|Hne].
        { rewrite Heq, lookup_insert_eq in Hnone. discriminate. }
        rewrite lookup_insert_ne in Hnone by done.
        split; [done|]. split; [done|]. exists (S k). by rewrite <- app_assoc.
Qed.

(** After a successful [mkdir], every step of the path is a directory. *)
Lemma mkdir_prefixes_dirs (full made todo : Path) (fs fs' : FS bytes) (k : nat) :
  mkdir_prefixes full made todo fs = (inr tt, fs') ->
  0 < k <= length todo -> fs' !! (made ++ take k todo) = Some Dir.
Proof.
  revert made fs k. induction todo as [|c todo IH]; intros made fs k Hrun Hk.
  - simpl in Hk. lia.
  - simpl in Hrun.
    destruct (mkdir_one full fs (made ++ [c])) as [e|fs1] eqn:Hone; [discriminate|].
    destruct k as [|[|k]]; [lia | |].
    + change (take 1 (c :: todo)) with [c]. apply mkdir_one_dir in Hone; [|by destruct made].
      destruct (mkdir_prefixes_frame _ _ _ _ _ _ (made ++ [c]) Hrun)
        as [-> | (Hnone & _)]; [done | congruence].
    + simpl in Hk. specialize (IH (made ++ [c]) fs1 (S k) Hrun ltac:(lia)).
      by rewrite <- app_assoc in IH.
Qed.

(** On a path whose steps are all directories, [mkdir] does nothing. *)
Lemma mkdir_prefixes_noop (full made todo : Path) (fs : FS bytes) :
  (forall k, 0 < k <= length todo -> fs !! (made ++ take k todo) = Some Dir) ->
  mkdir_prefixes full made todo fs = (inr tt, fs).
Proof.
  revert made. induction todo as [|c todo IH]; intros made Hdirs; simpl; [done|].
  assert (mkdir_one full fs (made ++ [c]) = inr fs) as ->.
  { pose proof (Hdirs 1 ltac:(simpl; lia)) as H1.
    change (take 1 (c :: todo)) with [c] in H1.
    unfold mkdir_one. destruct (made ++ [c]) as [|a l] eqn:Heq; [by destruct made|].
    by rewrite H1. }
  apply IH. intros k Hk. specialize (Hdirs (S k) ltac:(simpl; lia)).
  by rewrite <- app_assoc.
Qed.

Lemma write_bytes_inv (p : Path) (data : bytes) (fs fs' : FS bytes) :
  write_bytes p data fs = inr fs' ->
  fs' = <[p := File data]> fs /\ fs !! p ≠ Some Dir /\
  is_dir fs (Pathlib.parent p) = true.
Proof.
  unfold write_bytes, ret, raise.
  destruct (is_dir fs (Pathlib.parent p)); simpl; [|discriminate].
  destruct (fs !! p) as [[d|]|]; intros [= <-]; done.
Qed.

(** [dump_items] writes the files of its items, and nothing else. *)
Lemma dump_items_frame (full : Path) (items : Dict) (fs fs' : FS bytes)
    (r : result unit) (p : Path) :
  dump_items full items fs = (r, fs') ->
  fs' !! p = fs !! p \/
  (fs !! p ≠ Some Dir /\ exists k v, (k, v) ∈ items /\
     p = full // (k +:+ ".pkl") /\ fs' !! p = Some (File (pickle_dumps v))).
Proof.
  revert fs. induction items as [|[k0 v0] items IH]; intros fs Hrun.
  - simpl in Hrun. left. congruence.
  - simpl in Hrun.
    destruct (write_bytes _ _ fs) as [e|fs1] eqn:Hw; [left; congruence|].
    apply write_bytes_inv in Hw as (-> & Hnodir & _).
    destruct (IH _ Hrun) as [Hsame | (Hnd & k & v & Hin & -> & Hfile)].
    + destruct (decide (p = full // (k0 +:+ ".pkl"))) as [->|Hne].
      * right. split; [done|]. exists k0, v0. split; [by left|]. split; [done|].
        by rewrite Hsame, lookup_insert_eq.
      * left. by rewrite Hsame, lookup_insert_ne.
    + right. split.
      * destruct (decide (full // (k +:+ ".pkl") = full // (k0 +:+ ".pkl")))
          as [Heq|Hne]; [by rewrite Heq|].
        by rewrite lookup_insert_ne in Hnd.
      * exists k, v. split; [by right|]. done.
Qed.

(** Items that are in their files already are written over with what the
    files hold. *)
Lemma dump_items_again (full : Path) (items : Dict) (fs : FS bytes) :
  (forall k v, (k, v) ∈ items ->
     fs !! (full // (k +:+ ".pkl")) = Some (File (pickle_dumps v)) /\
     is_dir fs (Pathlib.parent (full // (k +:+ ".pkl"))) = true) ->
  dump_items full items fs = (inr tt, fs).
Proof.
  induction items as [|[k0 v0] items IH]; intros Hfiles; simpl; [done|].
  destruct (Hfiles k0 v0 ltac:(by left)) as [Hfile Hdir].
  unfold write_bytes. rewrite Hdir, Hfile. simpl.
  rewrite insert_id by done. apply IH. intros k v Hin. apply Hfiles. by right.
Qed.

Lemma save_splits_frame (file : Path) (self : DataSplitter) (splits_data : Dict)
    (output_dir : PathLike) (tag : option Z) (fs fs' : FS bytes)
    (r : result unit) (p : Path) :
  save_splits file self splits_data output_dir tag fs = (r, fs') ->
  fs' !! p = fs !! p \/
  (fs !! p = None /\ fs' !! p = Some Dir /\
   p `prefix_of` split_dir file output_dir tag) \/
  (fs !! p ≠ Some Dir /\ exists k v, (k, v) ∈ splits_data /\
     p = split_dir file output_dir tag // (k +:+ ".pkl") /\
     fs' !! p = Some (File (pickle_dumps v))).
Proof.
  rewrite save_splits_dir. set (dir := split_dir file output_dir tag).
  intros Hrun. unfold mkdir_parents in Hrun.
  destruct (mkdir_prefixes dir [] dir fs) as [r1 fs1] eqn:Hmk.
  pose proof (mkdir_prefixes_frame _ _ _ _ _ _ p Hmk) as Hfr1.
  assert (fs1 !! p = fs !! p \/
          fs !! p = None /\ fs1 !! p = Some Dir /\ p `prefix_of` dir) as Hfr1'.
  { destruct Hfr1 as [?|(? & ? & k & ->)]; [by left|]. right.
    split; [done|]. split; [done|]. simpl. apply prefix_take. }
  clear Hfr1. destruct r1 as [e|[]].
  { injection Hrun as <- <-. destruct Hfr1' as [?|?]; [by left | right; by left]. }
  destruct (dump_items_frame _ _ _ _ _ p Hrun) as [Hsame | (Hnd & Hitem)].
  - rewrite Hsame. destruct Hfr1' as [?|(? & ? & ?)]; [by left | right; by left].
  - right. right. split; [|done].
    destruct Hfr1' as [<-|(_ & Hd & _)]; [done | congruence].
Qed.


Lemma bundle_paths (dir : Path) (bundle : Dict) :
  bundle.*1 ≡ₚ bundle_names ->
  NoDup bundle.*1 /\
  (forall k, k ∈ bundle.*1 -> dir // (k +:+ ".pkl") = dir ++ [k +:+ ".pkl"]) /\
  (forall k k', k ∈ bundle.*1 -> k' ∈ bundle.*1 ->
     dir // (k +:+ ".pkl") = dir // (k' +:+ ".pkl") -> k = k').
Proof.
  intros Hkeys. split; [|split].
  - rewrite Hkeys. unfold bundle_names. compute_done.
  - intros k Hk. rewrite Hkeys in Hk. by apply required_file_path.
  - intros k1 k2 H1 H2. rewrite Hkeys in H1, H2.
    rewrite !required_file_path by done.
    intros Heq%app_inv_head. injection Heq as Heq.
    by apply bundle_file_inj.
Qed.

Lemma is_dir_after_mkdir (dir : Path) (fs fs1 : FS bytes) :
  mkdir_parents dir fs = (inr tt, fs1) ->
  forall k, 0 < k <= length dir -> fs1 !! take k dir = Some Dir.
Proof.
  unfold mkdir_parents. intros Hmk k Hk.
  by apply (mkdir_prefixes_dirs _ _ _ _ _ k Hmk).
Qed.

(** Saving a bundle a second time changes nothing. *)
Lemma save_splits_again (file : Path) (self : DataSplitter) (bundle : Dict)
    (root : PathLike) (tag : option Z) (fs fs' : FS bytes) :
  bundle.*1 ≡ₚ bundle_names ->
  save_splits file self bundle root tag fs = (inr tt, fs') ->
  save_splits file self bundle root tag fs' = (inr tt, fs').
Proof.
  intros Hkeys Hsave. rewrite save_splits_dir in *.
  set (dir := split_dir file root tag) in *.
  destruct (mkdir_parents dir fs) as [[e|[]] fs1] eqn:Hmk; [discriminate|].
  destruct (bundle_paths dir bundle Hkeys) as (Hnodup & Hpath & Hinj).
  assert (forall k, 0 < k <= length dir -> fs' !! take k dir = Some Dir) as Hdirs.
  { intros k Hk. pose proof (is_dir_after_mkdir _ _ _ Hmk k Hk) as Hd.
    destruct (dump_items_frame _ _ _ _ _ (take k dir) Hsave)
      as [-> | (Hnd & _)]; done. }
  assert (mkdir_parents dir fs' = (inr tt, fs')) as ->.
  { unfold mkdir_parents. by apply mkdir_prefixes_noop. }
  assert (is_dir fs' dir = true) as Hdir.
  { unfold is_dir. destruct dir as [|c dir'] eqn:Hd; [done|].
    specialize (Hdirs (length (c :: dir')) ltac:(simpl; lia)).
    rewrite firstn_all in Hdirs. by rewrite Hdirs. }
  apply dump_items_again. intros k v Hin.
  assert (k ∈ bundle.*1) as Hk.
  { apply list_elem_of_fmap. by exists (k, v). }
  split.
  - by eapply dump_items_written.
  - by rewrite Hpath, parent_child.
Qed.

(** X11: saving a bundle with the seven names a second time, to the same
    place, succeeds and leaves the file system exactly as the first save
    left it, with every item in the file of its name. *)
Theorem save_splits_idempotent (file : Path) (self : DataSplitter) (bundle : Dict)
    (root : PathLike) (tag : option Z) (fs fs' : FS bytes) :
  bundle.*1 ≡ₚ bundle_names ->
  save_splits file self bundle root tag fs = (inr tt, fs') ->
  save_splits file self bundle root tag fs' = (inr tt, fs') /\
  forall name, name ∈ bundle_names ->
    exists v, dict_get name bundle = Some v /\
      fs' !! (split_dir file root tag ++ [name +:+ ".pkl"])
        = Some (File (pickle_dumps v)).
Proof.
  intros Hkeys Hsave.
  split; [exact (save_splits_again _ _ _ _ _ _ _ Hkeys Hsave)|].
  intros name Hname. rewrite <- Hkeys in Hname.
  destruct (dict_get_elem_of _ _ Hname) as (v & Hget & Hel).
  exists v. split; [done|].
  destruct (bundle_paths (split_dir file root tag) bundle Hkeys)
    as (Hnodup & Hpath & Hinj).
  rewrite <- Hpath by done. rewrite save_splits_dir in Hsave.
  destruct (mkdir_parents _ fs) as [[e|[]] fs1]; [discriminate|].
  eapply dump_items_written; eauto.
Qed.

End Footprint.

(** ** More on reading the persisted splits *)

Section LoadMore.
Context {bytes : Type} {pkl : Pickle bytes}.

Lemma check_files_inv (full : Path) (files : list string) (fs : FS bytes) :
  check_files full files fs = inr tt ->
  Forall (fun f => exists_ fs (full // f) = true) files.
Proof.
  induction files as [|f files IH]; simpl; [by constructor|].
  destruct (exists_ fs (full // f)) eqn:Hf; simpl; [|discriminate].
  intros Hrun. constructor; [done | by apply IH].
Qed.

Lemma load_files_inv (full : Path) (files : list string) (fs : FS bytes)
    (loaded d : Dict) (opened op : list Path) :
  load_files full files fs loaded opened = (inr d, op) ->
  exists objs,
    Forall2 (fun f o => exists data, fs !! (full // f) = Some (File data) /\
                                     pickle_loads data = inr o) files objs /\
    d = foldl (fun d fo => dict_set (str_replace ".pkl" "" fo.1) fo.2 d)
          loaded (zip files objs) /\
    op = opened ++ ((fun f => full // f) <$> files).
Proof.
  revert loaded opened. induction files as [|f files IH]; intros loaded opened.
  - simpl. intros [= <- <-]. exists []. split; [constructor|].
    split; [done | by rewrite app_nil_r].
  - cbn [load_files]. unfold read_bytes, ret, raise.
    destruct (fs !! (full // f)) as [[data|]|] eqn:Hf; [|discriminate..].
    destruct (pickle_loads data) as [e|obj] eqn:Hload; [discriminate|].
    rewrite logger_info_load_splits. intros Hrun.
    destruct (IH _ _ Hrun) as (objs & Hall & -> & ->).
    exists (obj :: objs). split; [|split].
    + constructor; [by exists data | done].
    + done.
    + cbn [fmap list_fmap]. by rewrite <- app_assoc.
Qed.

Lemma load_files_local (full : Path) (files : list string) (fs1 fs2 : FS bytes)
    (loaded : Dict) (opened : list Path) :
  (forall f, f ∈ files -> fs1 !! (full // f) = fs2 !! (full // f)) ->
  check_files full files fs1 = check_files full files fs2 /\
  load_files full files fs1 loaded opened = load_files full files fs2 loaded opened.
Proof.
  revert loaded opened. induction files as [|f files IH]; intros loaded opened Hsame.
  - done.
  - cbn [load_files check_files]. unfold read_bytes, exists_.
    rewrite (Hsame f) by (by left).
    assert (forall f', f' ∈ files -> fs1 !! (full // f') = fs2 !! (full // f')) as Hrest
      by (intros f' Hf'; apply Hsame; by right).
    split.
    + destruct (fs2 !! (full // f)); simpl; [|done].
      exact (proj1 (IH [] [] Hrest)).
    + destruct (fs2 !! (full // f)) as [[data|]|]; [|reflexivity..].
      unfold ret. destruct (pickle_loads data); [reflexivity|].
      rewrite logger_info_load_splits.
      exact (proj2 (IH _ _ Hrest)).
Qed.

(** X12: what [load_data_splits] returns when it returns: a mapping with
    exactly the seven keys, in the order of [required_files]; under each key
    what [pickle.load] made of the file of that name; and all seven files
    were opened, in that order. *)
Theorem load_data_splits_returns (file : Path) (splits_path : PathLike)
    (random_state : option Z) (fs : FS bytes) (loaded : Dict) (opened : list Path) :
  load_data_splits file splits_path random_state fs = (inr loaded, opened) ->
  loaded.*1 = bundle_names /\
  opened = (fun f => split_dir file splits_path random_state // f) <$> required_files /\
  forall name, name ∈ bundle_names ->
    exists data obj,
      fs !! (split_dir file splits_path random_state // (name +:+ ".pkl"))
        = Some (File data) /\
      pickle_loads data = inr obj /\
      dict_get name loaded = Some obj.
Proof.
  rewrite load_data_splits_dir. set (dir := split_dir file splits_path random_state).
  destruct (check_files dir required_files fs) as [e|[]]; [discriminate|].
  intros Hrun. apply load_files_inv in Hrun as (objs & Hall & -> & ->).
  unfold required_files in Hall.
  repeat (match goal with
          | H : Forall2 _ (_ :: _) _ |- _ =>
              apply Forall2_cons_inv_l in H as (? & ? & (? & ? & ?) & H & ->)
          end).
  apply Forall2_nil_inv_l in Hall as ->.
  split; [reflexivity|]. split; [reflexivity|].
  intros name Hname. unfold bundle_names in Hname.
  repeat (apply elem_of_cons in Hname as [-> | Hname];
          [eexists _, _; split; [eassumption|]; split; [eassumption|]; reflexivity|]).
  by apply elem_of_nil in Hname.
Qed.

(** X13: [load_data_splits] depends on the seven files only: two file
    systems that agree on them give the same outcome and the same files
    opened. *)
Theorem load_data_splits_local (file : Path) (splits_path : PathLike)
    (random_state : option Z) (fs1 fs2 : FS bytes) :
  (forall f, f ∈ required_files ->
     fs1 !! (split_dir file splits_path random_state // f)
     = fs2 !! (split_dir file splits_path random_state // f)) ->
  load_data_splits file splits_path random_state fs1
  = load_data_splits file splits_path random_state fs2.
Proof.
  intros Hsame. rewrite !load_data_splits_dir.
  destruct (load_files_local _ _ _ _ [] [] Hsame) as [-> ->]. done.
Qed.

(** A bundle with the seven names in order, once written, is read back as
    it is. *)
Lemma dumped_bundle_loads (dir : Path) (items : Dict) (fs1 fs' : FS bytes) :
  items.*1 = bundle_names ->
  dump_items dir items fs1 = (inr tt, fs') ->
  check_files dir required_files fs' = inr tt /\
  load_files dir required_files fs' [] []
    = (inr items, (fun f => dir // f) <$> required_files).
Proof.
  intros Hkeys Hdump.
  assert (items.*1 ≡ₚ bundle_names) as Hperm by (by rewrite Hkeys).
  destruct (bundle_paths dir items Hperm) as (Hnodup & Hpath & Hinj).
  pose proof (dump_items_written _ _ _ _ Hdump Hnodup Hinj) as Hfile.
  unfold bundle_names in Hkeys.
  destruct items as [|[k1 v1] [|[k2 v2] [|[k3 v3] [|[k4 v4] [|[k5 v5] [|[k6 v6]
    [|[k7 v7] [|? ?]]]]]]]]; try discriminate.
  injection Hkeys as -> -> -> -> -> -> ->.
  assert (Forall2 (fun f o => fs' !! (dir // f) = Some (File (pickle_dumps o)))
            required_files [v1; v2; v3; v4; v5; v6; v7]) as Hall.
  { unfold required_files.
    constructor; [apply (Hfile "x_train" v1); repeat first [by left | right]|].
    constructor; [apply (Hfile "x_val" v2); repeat first [by left | right]|].
    constructor; [apply (Hfile "x_test" v3); repeat first [by left | right]|].
    constructor; [apply (Hfile "y_train" v4); repeat first [by left | right]|].
    constructor; [apply (Hfile "y_val" v5); repeat first [by left | right]|].
    constructor; [apply (Hfile "y_test" v6); repeat first [by left | right]|].
    constructor; [apply (Hfile "categorical_cols" v7); repeat first [by left | right]|].
    constructor. }
  split.
  - apply check_files_ok. eapply Forall2_Forall_l; [exact Hall|].
    apply Forall_forall. intros o _ f Hf. unfold exists_. by rewrite Hf.
  - by rewrite (load_files_all _ _ _ _ _ _ Hall).
Qed.

End LoadMore.

(** ** The entry point *)

Lemma main_dataset_path_parts (file : Path) :
  main_dataset_path file
  = project_root file ++ ["data"; "processed"; "Ficheiro_Compras_Processado.csv"].
Proof.
  unfold main_dataset_path.
  change (project_root file // "data" // "processed"
            // "Ficheiro_Compras_Processado.csv")
    with (((project_root file ++ ["data"]) ++ ["processed"])
            ++ ["Ficheiro_Compras_Processado.csv"]).
  by rewrite <- !app_assoc.
Qed.

Lemma main_split_dir_parts (file : Path) :
  split_dir file (PPath (main_output_dir file)) (Some 1%Z)
  = project_root file ++ ["outputs"; "splits"; "split_1"].
Proof.
  unfold split_dir, main_output_dir.
  change (project_root file // "outputs" // "splits" // ("split_" +:+ pretty 1%Z))
    with (((project_root file ++ ["outputs"]) ++ ["splits"]) ++ ["split_1"]).
  by rewrite <- !app_assoc.
Qed.

Lemma default_split_dir_parts (file : Path) :
  split_dir file default_splits_path (Some 1%Z)
  = project_root file ++ ["outputs"; "splits"; "split_1"].
Proof.
  unfold split_dir, default_splits_path. fold (project_root file).
  change (project_root file // "outputs/splits" // ("split_" +:+ pretty 1%Z))
    with ((project_root file ++ ["outputs"; "splits"]) ++ ["split_1"]).
  by rewrite <- !app_assoc.
Qed.

Lemma project_root_scripts (scripts : Path) (script : string) :
  project_root (scripts ++ [script]) = Pathlib.parent scripts.
Proof. unfold project_root. by rewrite parent_child. Qed.

Lemma splits_data_of_keys (outputs : Splits) (cats : list string) :
  (splits_data_of outputs cats).*1 = bundle_names.
Proof. by destruct outputs as [[[[[??]?]?]?]?]. Qed.

Section LoaderLocal.
Context {bytes : Type} {readers : TableReaders bytes}.

Lemma load_dataset_same (fs1 fs2 : FS bytes) (p : PathLike) :
  fs1 !! Path_of p = fs2 !! Path_of p ->
  load_dataset fs1 p = load_dataset fs2 p.
Proof.
  intros Hsame. unfold load_dataset, pd_read_csv, pd_read_excel, read_bytes, exists_.
  by rewrite Hsame.
Qed.

End LoaderLocal.

Section MainProperties.
Context {bytes : Type} {readers : TableReaders bytes} {pkl : Pickle bytes}
        {R : RandomState}.

Lemma main_inv (file : Path) (fs fs' : FS bytes) (g g' : rng) :
  main file fs g = (inr tt, fs', g') ->
  exists dataset outputs cats,
    load_dataset fs (PPath (main_dataset_path file)) = inr dataset /\
    split_data main_splitter dataset default_target_col g = (inr outputs, g') /\
    identify_categorical_features outputs.1.1.1.1.1 = inr cats /\
    save_splits file main_splitter (splits_data_of outputs cats)
      (PPath (main_output_dir file)) (Some 1%Z) fs = (inr tt, fs').
Proof.
  unfold main. cbv zeta. fold (project_root file). fold (main_dataset_path file).
  fold (main_output_dir file). fold main_splitter.
  destruct (load_dataset fs _) as [e|dataset] eqn:Hload; [discriminate|].
  destruct (split_data main_splitter dataset default_target_col g)
    as [[e|[[[[[x_train x_val] x_test] y_train] y_val] y_test]] g1] eqn:Hsplit;
    [discriminate|].
  destruct (identify_categorical_features x_train) as [e|cats] eqn:Hcats;
    [discriminate|].
  destruct (save_splits _ _ _ _ _ fs) as [[e|[]] fs1] eqn:Hsave; [discriminate|].
  simpl. intros [= <- <-].
  by exists dataset, (x_train, x_val, x_test, y_train, y_val, y_test), cats.
Qed.

Lemma main_run (file : Path) (fs fs' : FS bytes) (g g' : rng)
    dataset outputs cats :
  load_dataset fs (PPath (main_dataset_path file)) = inr dataset ->
  split_data main_splitter dataset default_target_col g = (inr outputs, g') ->
  identify_categorical_features outputs.1.1.1.1.1 = inr cats ->
  save_splits file main_splitter (splits_data_of outputs cats)
    (PPath (main_output_dir file)) (Some 1%Z) fs = (inr tt, fs') ->
  main file fs g = (inr tt, fs', g').
Proof.
  intros Hload Hsplit Hcats Hsave.
  unfold main. cbv zeta. fold (project_root file). fold (main_dataset_path file).
  fold (main_output_dir file). fold main_splitter.
  rewrite Hload, Hsplit.
  destruct outputs as [[[[[x_train x_val] x_test] y_train] y_val] y_test].
  simpl in Hcats. rewrite Hcats.
  unfold splits_data_of in Hsave. by rewrite Hsave.
Qed.

(** X14: after a run of [main] that succeeded, [load_data_splits] called
    with its default path and the tag 1 from the sibling script returns
    exactly the bundle that [main] built: the six outputs of [split_data] on
    the dataset and the categorical columns of the train part.  [main] hands
    [save_splits] a path, the loader resolves a string against the project
    root: both reach the same directory. *)
Theorem main_then_load (scripts : Path) (fs fs' : FS bytes) (g g' : rng) :
  main (scripts ++ ["data_splitting.py"]) fs g = (inr tt, fs', g') ->
  exists dataset outputs cats,
    load_dataset fs (PPath (main_dataset_path (scripts ++ ["data_splitting.py"])))
      = inr dataset /\
    split_data main_splitter dataset default_target_col g = (inr outputs, g') /\
    identify_categorical_features outputs.1.1.1.1.1 = inr cats /\
    load_data_splits (scripts ++ ["load_splits.py"]) default_splits_path
      (Some 1%Z) fs'
    = (inr (splits_data_of outputs cats),
       (fun f => Pathlib.parent scripts ++ ["outputs"; "splits"; "split_1"; f])
         <$> required_files).
Proof.
  intros Hrun.
  destruct (main_inv _ _ _ _ _ Hrun)
    as (dataset & outputs & cats & Hload & Hsplit & Hcats & Hsave).
  exists dataset, outputs, cats. do 3 (split; [done|]).
  rewrite save_splits_dir, main_split_dir_parts, project_root_scripts in Hsave.
  rewrite load_data_splits_dir, default_split_dir_parts, project_root_scripts.
  set (dir := Pathlib.parent scripts ++ ["outputs"; "splits"; "split_1"]) in *.
  destruct (mkdir_parents dir fs) as [[e|[]] fs1]; [discriminate|].
  destruct (dumped_bundle_loads dir _ _ _ (splits_data_of_keys outputs cats) Hsave)
    as [-> ->].
  f_equal. unfold required_files, dir. simpl.
  repeat match goal with
         | |- context [?d // ?f] => change (d // f) with (d ++ [f])
         end.
  by rewrite <- !app_assoc.
Qed.

(** X15: a second run of [main], on the file system the first run left,
    succeeds and changes nothing; the generator of [numpy.random] is as it
    was before the first run. *)
Theorem main_idempotent (file : Path) (fs fs' : FS bytes) (g g' : rng) :
  main file fs g = (inr tt, fs', g') ->
  g' = g /\ main file fs' g = (inr tt, fs', g).
Proof.
  intros Hrun.
  destruct (main_inv _ _ _ _ _ Hrun)
    as (dataset & outputs & cats & Hload & Hsplit & Hcats & Hsave).
  assert (g' = g) as ->.
  { destruct (split_data_seeded (1 # 5) (1 # 5) 1 dataset default_target_col)
      as [r Hr]. unfold main_splitter in Hsplit. rewrite Hr in Hsplit. congruence. }
  split; [done|].
  pose proof (splits_data_of_keys outputs cats) as Hkeys.
  assert ((splits_data_of outputs cats).*1 ≡ₚ bundle_names) as Hperm
    by (by rewrite Hkeys).
  apply (main_run _ _ _ _ _ dataset outputs cats); try done.
  - rewrite <- Hload. apply load_dataset_same. simpl.
    destruct (save_splits_frame _ _ _ _ _ _ _ _ (main_dataset_path file) Hsave)
      as [Hsame | [(Hnone & _) | (_ & k & v & Hin & Hp & _)]]; [done | |].
    + unfold load_dataset, exists_ in Hload. simpl in Hload.
      rewrite Hnone in Hload. discriminate.
    + exfalso. assert (k ∈ bundle_names) as Hk.
      { rewrite <- Hkeys. apply list_elem_of_fmap. by exists (k, v). }
      rewrite required_file_path in Hp by done.
      rewrite main_split_dir_parts, main_dataset_path_parts, <- app_assoc in Hp.
      apply app_inv_head in Hp. discriminate.
  - by eapply save_splits_again.
Qed.

(** X16: the footprint of [main], whatever its outcome: the generator of
    [numpy.random] is untouched, and every path of the file system is as it
    was, except for new directories on the way to [outputs/splits/split_1]
    and for the files of the seven items in that directory. *)
Theorem main_footprint (file : Path) (fs fs' : FS bytes) (g g' : rng)
    (r : result unit) :
  main file fs g = (r, fs', g') ->
  g' = g /\
  forall p,
    fs' !! p = fs !! p \/
    (fs !! p = None /\ fs' !! p = Some Dir /\
     p `prefix_of` project_root file ++ ["outputs"; "splits"; "split_1"]) \/
    (fs !! p ≠ Some Dir /\ exists name data,
       name ∈ bundle_names /\
       p = project_root file ++ ["outputs"; "splits"; "split_1"; name +:+ ".pkl"] /\
       fs' !! p = Some (File data)).
Proof.
  unfold main. cbv zeta. fold (project_root file). fold (main_dataset_path file).
  fold (main_output_dir file). fold main_splitter.
  destruct (load_dataset fs _) as [e|dataset].
  { intros [= <- <- <-]. split; [done|]. intros p. by left. }
  destruct (split_data_seeded (1 # 5) (1 # 5) 1 dataset default_target_col)
    as [r0 Hr]. unfold main_splitter. rewrite Hr.
  destruct r0 as [e|[[[[[x_train x_val] x_test] y_train] y_val] y_test]].
  { intros [= <- <- <-]. split; [done|]. intros p. by left. }
  destruct (identify_categorical_features x_train) as [e|cats].
  { intros [= <- <- <-]. split; [done|]. intros p. by left. }
  fold main_splitter.
  destruct (save_splits _ _ _ _ _ fs) as [r1 fs1] eqn:Hsave.
  intros Hrun.
  assert (fs1 = fs' /\ g = g') as [-> <-].
  { destruct r1 as [e|[]]; simpl in Hrun; by injection Hrun as _ <- <-. }
  split; [done|]. intros p.
  destruct (save_splits_frame _ _ _ _ _ _ _ _ p Hsave)
    as [Hsame | [(Hnone & Hdir & Hpre) | (Hnd & k & v & Hin & Hp & Hfile)]].
  - by left.
  - right. left. by rewrite main_split_dir_parts in Hpre.
  - right. right. split; [done|]. exists k, (pickle_dumps v).
    assert (k ∈ bundle_names) as Hk.
    { change bundle_names with
        ((splits_data_of (x_train, x_val, x_test, y_train, y_val, y_test) cats).*1).
      apply list_elem_of_fmap. by exists (k, v). }
    split; [done|]. split; [|done].
    rewrite Hp, required_file_path, main_split_dir_parts by done.
    by rewrite <- app_assoc.
Qed.

(** X17: when the processed dataset is not at its place, [main] ends in
    [FileNotFoundError] for that path and has created nothing. *)
Theorem main_missing_dataset (file : Path) (fs : FS bytes) (g : rng) :
  exists_ fs (main_dataset_path file) = false ->
  main file fs g = (inl (FileNotFoundError (main_dataset_path file)), fs, g).
Proof.
  intros Hmissing. unfold main. cbv zeta. fold (project_root file).
  fold (main_dataset_path file).
  by rewrite (load_dataset_missing fs (PPath (main_dataset_path file)) Hmissing).
Qed.

(** X18: [main] splits on the default target column: a dataset without a
    column of that name makes it end in [KeyError], with nothing created. *)
Theorem main_missing_target (file : Path) (fs : FS bytes) (g : rng)
    (dataset : DataFrame) :
  load_dataset fs (PPath (main_dataset_path file)) = inr dataset ->
  default_target_col ∉ df_columns dataset ->
  main file fs g = (inl (KeyError default_target_col), fs, g).
Proof.
  intros Hload Hcol. unfold main. cbv zeta. fold (project_root file).
  fold (main_dataset_path file). rewrite Hload.
  unfold split_data, Pandas.drop. by rewrite bool_decide_eq_false_2.
Qed.

End MainProperties.

(** ** More on the dataset loader: the suffix of a file name *)

Lemma rfind_app (c : Ascii.ascii) (a b : string) :
  Pathlib.rfind c (a +:+ b)
  = match Pathlib.rfind c b with
    | Some i => Some (String.length a + i)
    | None => Pathlib.rfind c a
    end.
Proof.
  induction a as [|x a IH].
  - change ("" +:+ b) with b. by destruct (Pathlib.rfind c b).
  - change (String x a +:+ b) with (String x (a +:+ b)). simpl.
    rewrite IH. by destruct (Pathlib.rfind c b).
Qed.

Lemma substring_all (s : string) : substring 0 (String.length s) s = s.
Proof. induction s as [|x s IH]; simpl; [done | by rewrite IH]. Qed.

Lemma substring_app_r (a b : string) :
  substring (String.length a) (String.length b) (a +:+ b) = b.
Proof.
  induction a as [|x a IH]; [apply substring_all|].
  change (String x a +:+ b) with (String x (a +:+ b)). by simpl.
Qed.

Lemma string_length_app (a b : string) :
  String.length (a +:+ b) = String.length a + String.length b.
Proof.
  induction a as [|x a IH]; [done|].
  change (String x a +:+ b) with (String x (a +:+ b)). simpl. by rewrite IH.
Qed.

Lemma name_last (p : Path) (s : string) :
  s ≠ "/" -> Pathlib.name (p ++ [s]) = s.
Proof.
  intros Hs. unfold Pathlib.name. rewrite last_snoc.
  destruct s as [|[b0 b1 b2 b3 b4 b5 b6 b7] s]; [done|].
  destruct b0, b1, b2, b3, b4, b5, b6, b7; try reflexivity.
  by destruct s.
Qed.

Lemma suffix_stem_ext (dir : Path) (stem ext : string) :
  stem ≠ "" -> ext ≠ "" -> Pathlib.rfind "." ext = None ->
  Pathlib.suffix (dir ++ [stem +:+ "." +:+ ext]) = "." +:+ ext.
Proof.
  intros Hstem Hext Hdot. unfold Pathlib.suffix.
  assert (0 < String.length stem) as H1 by (destruct stem; [done | simpl; lia]).
  assert (0 < String.length ext) as H2 by (destruct ext; [done | simpl; lia]).
  change ("." +:+ ext) with (String "." ext).
  rewrite name_last.
  2:{ intros Heq. apply (f_equal String.length) in Heq.
      rewrite string_length_app in Heq. simpl in Heq. lia. }
  rewrite rfind_app.
  cbn [Pathlib.rfind]. rewrite Hdot. simpl Ascii.eqb. cbv iota.
  rewrite Nat.add_0_r, string_length_app. cbn [String.length].
  assert (Nat.ltb 0 (String.length stem) = true) as -> by (apply Nat.ltb_lt; lia).
  assert (Nat.ltb (String.length stem)
            (String.length stem + S (String.length ext) - 1) = true) as ->
    by (apply Nat.ltb_lt; lia).
  simpl andb. cbv iota.
  replace (String.length stem + S (String.length ext) - String.length stem)
    with (String.length (String "." ext)) by (simpl; lia).
  apply substring_app_r.
Qed.

Lemma suffix_none (dir : Path) (nm : string) :
  nm ≠ "/" ->
  Pathlib.rfind "." nm = None \/ Pathlib.rfind "." nm = Some 0 \/
  Pathlib.rfind "." nm = Some (String.length nm - 1) ->
  Pathlib.suffix (dir ++ [nm]) = "".
Proof.
  intros Hnm Hdot. unfold Pathlib.suffix. rewrite name_last by done.
  destruct Hdot as [-> | [-> | ->]]; [done | done |].
  by rewrite Nat.ltb_irrefl, andb_false_r.
Qed.

Section LoaderSuffix.
Context {bytes : Type} {readers : TableReaders bytes}.

(** X19: for an existing file whose name is a non-empty stem, a dot and an
    extension without a dot, the extension alone decides: [csv] goes to
    [read_csv], [xlsx] to [read_excel], anything else is refused. *)
Theorem load_dataset_by_extension (fs : FS bytes) (dir : Path) (stem ext : string) :
  stem ≠ "" -> ext ≠ "" -> Pathlib.rfind "." ext = None ->
  exists_ fs (dir ++ [stem +:+ "." +:+ ext]) = true ->
  load_dataset fs (PPath (dir ++ [stem +:+ "." +:+ ext]))
  = if decide (ext = "csv") then pd_read_csv fs (dir ++ [stem +:+ "." +:+ ext])
    else if decide (ext = "xlsx")
         then pd_read_excel fs (dir ++ [stem +:+ "." +:+ ext])
         else inl (ValueError
                "Formato do ficheiro não é compatível com o workflow -> Aceita csv e xlsx").
Proof.
  intros Hstem Hext Hdot Hexists.
  pose proof (suffix_stem_ext dir stem ext Hstem Hext Hdot) as Hsuffix.
  destruct (decide (ext = "csv")) as [->|Hcsv].
  { by apply (load_dataset_csv fs (PPath _)). }
  destruct (decide (ext = "xlsx")) as [->|Hxlsx].
  { by apply (load_dataset_xlsx fs (PPath _)). }
  unfold load_dataset. simpl Path_of. rewrite Hexists, Hsuffix. simpl negb. cbv iota.
  change ("." +:+ ext) with (String "." ext).
  assert (String.eqb (String "." ext) ".csv" = false) as ->
    by (apply String.eqb_neq; congruence).
  assert (String.eqb (String "." ext) ".xlsx" = false) as ->
    by (apply String.eqb_neq; congruence).
  done.
Qed.

(** X20: an existing file whose name has no dot, or whose last dot is its
    first or its last character (a name like [.csv]), has no suffix and is
    refused with [ValueError]. *)
Theorem load_dataset_no_suffix (fs : FS bytes) (dir : Path) (nm : string) :
  nm ≠ "/" ->
  Pathlib.rfind "." nm = None \/ Pathlib.rfind "." nm = Some 0 \/
  Pathlib.rfind "." nm = Some (String.length nm - 1) ->
  exists_ fs (dir ++ [nm]) = true ->
  load_dataset fs (PPath (dir ++ [nm]))
  = inl (ValueError
           "Formato do ficheiro não é compatível com o workflow -> Aceita csv e xlsx").
Proof.
  intros Hnm Hdot Hexists. unfold load_dataset. simpl Path_of.
  by rewrite Hexists, (suffix_none dir nm Hnm Hdot).
Qed.

End LoaderSuffix.

(** ** One directory per tag *)

Lemma rfind_cons_none (c x : Ascii.ascii) (s : string) :
  Pathlib.rfind c s = None -> x ≠ c -> Pathlib.rfind c (String x s) = None.
Proof.
  intros Hs Hx. simpl. rewrite Hs.
  by destruct (Ascii.eqb_spec x c).
Qed.

Lemma pretty_N_go_no_slash (x : N) (s : string) :
  Pathlib.rfind "/" s = None -> Pathlib.rfind "/" (pretty_N_go x s) = None.
Proof.
  revert s. induction (N.lt_wf_0 x) as [x _ IH]; intros s Hs.
  assert (x = 0 \/ 0 < x)%N as [->|Hpos] by lia.
  - by rewrite pretty_N_go_0.
  - rewrite pretty_N_go_step by done. apply IH.
    { by apply N.div_lt. }
    apply rfind_cons_none; [done|].
    unfold pretty_N_char. by repeat case_match.
Qed.

Lemma pretty_Z_no_slash (r : Z) : Pathlib.rfind "/" (pretty r) = None.
Proof.
  assert (forall x : positive, Pathlib.rfind "/" (pretty x) = None) as Hpos.
  { intros x. unfold pretty, pretty_positive, pretty, pretty_N.
    case_decide; [done|]. by apply pretty_N_go_no_slash. }
  destruct r as [|x|x]; [done | apply Hpos |].
  unfold pretty, pretty_Z. change ("-" +:+ pretty x) with (String "-" (pretty x)).
  apply rfind_cons_none; [apply Hpos | done].
Qed.

Lemma split_no_slash (s : string) :
  Pathlib.rfind "/" s = None -> Pathlib.split "/" s = [s].
Proof.
  induction s as [|c s IH]; [done|]. simpl.
  destruct (Pathlib.rfind "/" s); [done|].
  destruct (Ascii.eqb c "/"); [done|]. intros _. by rewrite IH.
Qed.

Lemma tag_component (full : Path) (r : Z) :
  full // ("split_" +:+ pretty r) = full ++ ["split_" +:+ pretty r].
Proof.
  unfold Pathlib.div, Pathlib.of_str.
  rewrite split_no_slash.
  2:{ rewrite rfind_app, pretty_Z_no_slash. done. }
  change ("split_" +:+ pretty r) with (String "s" ("plit_" +:+ pretty r)).
  reflexivity.
Qed.

Lemma tag_inj (r1 r2 : Z) :
  "split_" +:+ pretty r1 = "split_" +:+ pretty r2 -> r1 = r2.
Proof.
  change ("split_" +:+ pretty r1)
    with (String "s" (String "p" (String "l" (String "i" (String "t"
            (String "_" (pretty r1))))))).
  change ("split_" +:+ pretty r2)
    with (String "s" (String "p" (String "l" (String "i" (String "t"
            (String "_" (pretty r2))))))).
  intros [= Heq]. by apply (inj pretty).
Qed.

Lemma split_dir_tag (file : Path) (root : PathLike) (r : Z) :
  split_dir file root (Some r)
  = split_dir file root None ++ ["split_" +:+ pretty r].
Proof. unfold split_dir. apply tag_component. Qed.

Lemma required_file_component (full : Path) (f : string) :
  f ∈ required_files -> full // f = full ++ [f].
Proof.
  unfold required_files. intros Hin.
  repeat (apply elem_of_cons in Hin as [-> | Hin]; [reflexivity|]).
  by apply elem_of_nil in Hin.
Qed.

Lemma cons_head_eq {A} (a b : A) (l l' : list A) : a :: l = b :: l' -> a = b.
Proof. by intros [= -> _]. Qed.

Section Tags.
Context {bytes : Type} {pkl : Pickle bytes}.


End Tags.

(** ** Well-formed tables stay well formed *)

Lemma wf_table_iloc (x : DataFrame) (pos : list nat) :
  wf_table x -> wf_table (Pandas.iloc x pos).
Proof.
  intros (Hnodup & Hdom & Hlen). split; [done|]. split.
  - simpl. by rewrite dom_fmap_L.
  - simpl. intros c col. rewrite lookup_fmap.
    destruct (df_data x !! c) as [col0|]; [|done]. simpl. intros [= <-]. simpl.
    by rewrite !length_take_at.
Qed.

Lemma wf_table_drop (dataset x : DataFrame) (target_col : string) :
  wf_table dataset -> Pandas.drop dataset target_col = inr x -> wf_table x.
Proof.
  intros (Hnodup & Hdom & Hlen) Hdrop.
  apply drop_inr_full in Hdrop as (Hin & Hindex & Hcols & Hdata).
  destruct (filter_negb_eqb target_col (df_columns dataset)) as (Hnot & Hsub & Hiff).
  rewrite <- Hcols in Hnot, Hsub, Hiff.
  split; [by eapply sublist_NoDup|]. split.
  - rewrite Hdata, dom_delete_L, Hdom. apply set_eq. intros c.
    rewrite elem_of_difference, !elem_of_list_to_set, Hiff, elem_of_singleton. done.
  - rewrite Hdata, Hindex. intros c col Hc.
    apply lookup_delete_Some in Hc as [_ Hc]. by apply (Hlen c).
Qed.

Section WellFormed.
Context {R : RandomState}.

(** X22: on a well-formed table, the three feature parts that [split_data]
    returns are well formed, and each label part has the row labels of its
    feature part, one label per row. *)
Theorem split_data_well_formed (self : DataSplitter) (dataset : DataFrame)
    (target_col : string) (g g' : rng) x_train x_val x_test y_train y_val y_test :
  wf_table dataset ->
  split_data self dataset target_col g
    = (inr (x_train, x_val, x_test, y_train, y_val, y_test), g') ->
  wf_table x_train /\ wf_table x_val /\ wf_table x_test /\
  s_index y_train = df_index x_train /\ s_index y_val = df_index x_val /\
  s_index y_test = df_index x_test /\
  length (s_values y_train) = length (s_index y_train) /\
  length (s_values y_val) = length (s_index y_val) /\
  length (s_values y_test) = length (s_index y_test).
Proof.
  intros Hwf Hrun.
  destruct (split_data_inv _ _ _ _ _ _ _ _ _ _ _ Hrun)
    as (x & y & train & val & test & Hdrop & Hget & -> & -> & -> & -> & -> & -> & _).
  pose proof (wf_table_drop _ _ _ Hwf Hdrop) as Hwfx.
  apply drop_inr_full in Hdrop as (_ & Hindex & _).
  apply getitem_inr_full in Hget as (col & Hcol & ->).
  do 3 (split; [by apply wf_table_iloc|]). simpl.
  rewrite Hindex, !length_take_at. done.
Qed.

End WellFormed.

(** ** When the output directory cannot be made *)

Section Blocked.
Context {bytes : Type} {pkl : Pickle bytes}.

Lemma mkdir_one_error (full : Path) (fs : FS bytes) (p : Path) (e : exn) :
  mkdir_one full fs p = inl e ->
  (exists data, fs !! p = Some (File data)) /\
  (e = FileExistsError full /\ p = full \/ e = NotADirectoryError p /\ p ≠ full).
Proof.
  unfold mkdir_one, ret, raise. destruct p as [|c p]; [discriminate|].
  destruct (fs !! (c :: p)) as [[d|]|]; [|discriminate..].
  intros [= <-]. split; [by exists d|].
  destruct (decide (c :: p = full)) as [<-|Hne]; [by left | by right].
Qed.

Lemma mkdir_prefixes_blocked (full made todo : Path) (fs : FS bytes)
    (k : nat) (data : bytes) :
  0 < k <= length todo -> fs !! (made ++ take k todo) = Some (File data) ->
  exists e fs', mkdir_prefixes full made todo fs = (inl e, fs') /\
    (e = FileExistsError full \/ exists p, e = NotADirectoryError p).
Proof.
  revert made fs k. induction todo as [|c todo IH]; intros made fs k Hk Hfile.
  - simpl in Hk. lia.
  - simpl. destruct (mkdir_one full fs (made ++ [c])) as [e|fs1] eqn:Hone.
    + exists e, fs. split; [done|].
      destruct (mkdir_one_error _ _ _ _ Hone) as (_ & [[-> _] | [-> _]]);
        [by left | right; by eexists].
    + destruct k as [|[|k]]; [lia | |].
      * change (take 1 (c :: todo)) with [c] in Hfile.
        pose proof (mkdir_one_dir _ _ _ _ Hone ltac:(by destruct made)) as Hdir.
        destruct (mkdir_one_inv _ _ _ _ Hone) as [-> | [Hnone _]]; congruence.
      * apply (IH (made ++ [c]) fs1 (S k)); [simpl in Hk; lia|].
        rewrite <- app_assoc. simpl in Hfile |- *.
        destruct (mkdir_one_inv _ _ _ _ Hone) as [-> | [_ ->]]; [done|].
        rewrite lookup_insert_ne; [done|].
        intros Heq. apply (f_equal length) in Heq.
        rewrite !length_app in Heq. simpl in Heq, Hk.
        rewrite length_take in Heq. lia.
Qed.

(** X23: when a file is in the way of the split directory, [save_splits]
    fails with [FileExistsError] or [NotADirectoryError] and writes no file:
    all it may have done is create directories above the file. *)
Theorem save_splits_blocked (file : Path) (self : DataSplitter) (splits_data : Dict)
    (output_dir : PathLike) (tag : option Z) (fs : FS bytes)
    (p : Path) (data : bytes) :
  p ≠ [] -> p `prefix_of` split_dir file output_dir tag ->
  fs !! p = Some (File data) ->
  exists e fs',
    save_splits file self splits_data output_dir tag fs = (inl e, fs') /\
    (e = FileExistsError (split_dir file output_dir tag) \/
     exists q, e = NotADirectoryError q) /\
    forall q, fs' !! q = fs !! q \/ (fs !! q = None /\ fs' !! q = Some Dir).
Proof.
  intros Hp [rest Hpre] Hfile.
  set (dir := split_dir file output_dir tag) in *.
  assert (0 < length p <= length dir /\ take (length p) dir = p) as [Hk Htake].
  { rewrite Hpre, length_app, take_app_length. split; [|done].
    destruct p; [done | simpl; lia]. }
  destruct (mkdir_prefixes_blocked dir [] dir fs (length p) data Hk)
    as (e & fs' & Hmk & He).
  { simpl. by rewrite Htake. }
  exists e, fs'. rewrite save_splits_dir. fold dir. unfold mkdir_parents.
  rewrite Hmk. split; [done|]. split; [done|]. intros q.
  destruct (mkdir_prefixes_frame _ _ _ _ _ _ q Hmk) as [?|(? & ? & _)];
    [by left | by right].
Qed.

End Blocked.

(** ** When saving goes through *)

Section Succeeds.
Context {bytes : Type} {pkl : Pickle bytes}.

Lemma mkdir_prefixes_ok (full made todo : Path) (fs : FS bytes) :
  (forall k data, 0 < k <= length todo ->
     fs !! (made ++ take k todo) ≠ Some (File data)) ->
  exists fs', mkdir_prefixes full made todo fs = (inr tt, fs').
Proof.
  revert made fs. induction todo as [|c todo IH]; intros made fs Hfree.
  - by exists fs.
  - simpl.
    destruct (mkdir_one full fs (made ++ [c])) as [e|fs1] eqn:Hone.
    { destruct (mkdir_one_error _ _ _ _ Hone) as [[data Hfile] _].
      destruct (Hfree 1 data ltac:(simpl; lia)). exact Hfile. }
    apply IH. intros k data Hk.
    rewrite <- app_assoc.
    assert (fs1 !! (made ++ [c] ++ take k todo) = fs !! (made ++ [c] ++ take k todo))
      as ->.
    { destruct (mkdir_one_inv _ _ _ _ Hone) as [-> | [_ ->]]; [done|].
      apply lookup_insert_ne. intros Heq. apply (f_equal length) in Heq.
      rewrite !length_app, length_take in Heq. simpl in Heq. lia. }
    apply (Hfree (S k) data). simpl. lia.
Qed.

Lemma is_dir_insert_file (fs : FS bytes) (dir p : Path) (data : bytes) :
  p ≠ dir -> is_dir (<[p := File data]> fs) dir = is_dir fs dir.
Proof.
  intros Hne. unfold is_dir. destruct dir as [|c dir]; [done|].
  by rewrite lookup_insert_ne.
Qed.

Lemma dump_items_ok (dir : Path) (items : Dict) (fs : FS bytes) :
  is_dir fs dir = true ->
  (forall k, k ∈ items.*1 -> dir // (k +:+ ".pkl") = dir ++ [k +:+ ".pkl"]) ->
  (forall k, k ∈ items.*1 -> fs !! (dir ++ [k +:+ ".pkl"]) ≠ Some Dir) ->
  exists fs', dump_items dir items fs = (inr tt, fs').
Proof.
  revert fs. induction items as [|[k0 v0] items IH]; intros fs Hdir Hpath Hfree.
  - by exists fs.
  - simpl. rewrite (Hpath k0) by (by left).
    unfold write_bytes. rewrite parent_child, Hdir. simpl.
    pose proof (Hfree k0 ltac:(by left)) as Hk0.
    assert (forall fs1, fs1 = <[dir ++ [k0 +:+ ".pkl"] := File (pickle_dumps v0)]> fs ->
              exists fs', dump_items dir items fs1 = (inr tt, fs')) as Hrest.
    { intros fs1 ->. apply IH.
      - rewrite is_dir_insert_file; [done|]. intros Heq.
        apply (f_equal length) in Heq. rewrite length_app in Heq. simpl in Heq. lia.
      - intros k Hk. apply Hpath. by right.
      - intros k Hk.
        destruct (decide (dir ++ [k +:+ ".pkl"] = dir ++ [k0 +:+ ".pkl"])) as [->|Hne].
        + by rewrite lookup_insert_eq.
        + rewrite lookup_insert_ne by done. apply Hfree. by right. }
    destruct (fs !! (dir ++ [k0 +:+ ".pkl"])) as [[d|]|]; [|done|]; by apply Hrest.
Qed.

Lemma save_splits_ok (file : Path) (self : DataSplitter) (bundle : Dict)
    (root : PathLike) (tag : option Z) (fs : FS bytes) :
  bundle.*1 ≡ₚ bundle_names ->
  (forall p data, p `prefix_of` split_dir file root tag ->
     fs !! p ≠ Some (File data)) ->
  (forall name, name ∈ bundle_names ->
     fs !! (split_dir file root tag ++ [name +:+ ".pkl"]) ≠ Some Dir) ->
  exists fs', save_splits file self bundle root tag fs = (inr tt, fs').
Proof.
  intros Hkeys Hfree Hfiles. rewrite save_splits_dir.
  set (dir := split_dir file root tag) in *.
  destruct (mkdir_prefixes_ok dir [] dir fs) as [fs1 Hmk].
  { intros k data _. simpl. apply Hfree, prefix_take. }
  unfold mkdir_parents. rewrite Hmk.
  destruct (bundle_paths dir bundle Hkeys) as (_ & Hpath & _).
  apply dump_items_ok; [|done|].
  - unfold is_dir. destruct dir as [|c dir'] eqn:Hd; [done|].
    pose proof (mkdir_prefixes_dirs _ _ _ _ _ (length (c :: dir')) Hmk
                  ltac:(simpl; lia)) as Hdirs.
    rewrite firstn_all in Hdirs. simpl in Hdirs. by rewrite Hdirs.
  - intros k Hk. rewrite Hkeys in Hk.
    destruct (mkdir_prefixes_frame _ _ _ _ _ _ (dir ++ [k +:+ ".pkl"]) Hmk)
      as [-> | (_ & _ & j & Heq)]; [by apply Hfiles|].
    simpl in Heq. apply (f_equal length) in Heq.
    rewrite length_app, length_take in Heq. simpl in Heq. lia.
Qed.


End Succeeds.

Section MainSucceeds.
Context {bytes : Type} {readers : TableReaders bytes} {pkl : Pickle bytes}
        {R : RandomState}.

Lemma identify_categorical_features_wf (x_train : DataFrame) :
  wf_table x_train -> exists cats, identify_categorical_features x_train = inr cats.
Proof.
  intros (_ & Hdom & _).
  destruct (categorical_among_spec x_train (df_columns x_train)) as (cats & Hcats & _).
  { intros c Hc. apply elem_of_dom. rewrite Hdom. by apply elem_of_list_to_set. }
  exists cats. unfold identify_categorical_features. by rewrite Hcats.
Qed.


End MainSucceeds.

(** * Further instances *)

(** The split of the ten purchases, part by part. *)
Lemma split_data_small_run :
  split_data (R := lcg_random_state) main_splitter table_small "y" 0%Z
  = (inr (outputs_small.1.1.1.1.1, outputs_small.1.1.1.1.2, outputs_small.1.1.1.2,
          outputs_small.1.1.2, outputs_small.1.2, outputs_small.2), 0%Z).
Proof. by vm_compute. Qed.

(** The columns of the parts of the ten purchases. *)
Lemma split_data_columns_witness :
  exists col, df_data table_small !! "y" = Some col /\
    df_columns outputs_small.1.1.1.1.1 = ["valor"; "fornecedor"] /\
    s_name outputs_small.2 = "y".
Proof.
  destruct (split_data_columns (R := lcg_random_state) main_splitter table_small "y"
              0%Z 0%Z _ _ _ _ _ _ split_data_small_run)
    as (col & Hcol & _ & Hx & Hy).
  exists col. split; [exact Hcol|].
  apply Forall_cons in Hx as [(Hcols & _) _].
  apply Forall_cons in Hy as [_ Hy]. apply Forall_cons in Hy as [_ Hy].
  apply Forall_cons in Hy as [[Hname _] _].
  split; [exact Hcols | exact Hname].
Defined.



(** The eligible rows of the ten purchases, shared out. *)
Lemma split_data_stratified_witness :
  exists y, Pandas.getitem table_small "y" = inr y /\
    eligible outputs_small.1.1.2 + eligible outputs_small.1.2
      + eligible outputs_small.2 = eligible y.
Proof.
  destruct (split_data_stratified (R := lcg_random_state) main_splitter table_small
              "y" 0%Z 0%Z _ _ _ _ _ _ split_data_small_run)
    as (y & Hget & Hshares).
  exists y. split; [exact Hget|]. exact (proj1 (Hshares (VInt 1))).
Defined.


(** The ten purchases are a well-formed table. *)
Lemma wf_table_small : wf_table table_small.
Proof. split; [compute_done|]. split; compute_done. Qed.

(** The categorical column of the ten purchases, in its place. *)
Lemma identify_categorical_features_ordered_witness :
  sublist ["fornecedor"] (df_columns table_small) /\
  length ["fornecedor"] <= length (df_columns table_small) /\
  (NoDup (df_columns table_small) -> NoDup ["fornecedor"]).
Proof.
  apply (identify_categorical_features_ordered table_small ["fornecedor"]).
  by vm_compute.
Defined.

(** The ten purchases and their first two rows: the same outcome. *)
Lemma identify_categorical_features_dtypes_witness :
  identify_categorical_features table_small
  = identify_categorical_features (Pandas.iloc table_small [0; 1]).
Proof.
  apply identify_categorical_features_dtypes; [reflexivity|].
  intros c Hc. simpl in Hc.
  repeat (apply elem_of_cons in Hc as [-> | Hc]; [by vm_compute|]).
  by apply elem_of_nil in Hc.
Defined.

(** The parts of the ten purchases have the same categorical columns. *)
Lemma split_data_categorical_cols_witness :
  identify_categorical_features outputs_small.1.1.1.1.2
  = identify_categorical_features outputs_small.1.1.1.1.1 /\
  identify_categorical_features outputs_small.1.1.1.2
  = identify_categorical_features outputs_small.1.1.1.1.1.
Proof.
  destruct (split_data_categorical_cols (R := lcg_random_state) main_splitter
              table_small "y" 0%Z 0%Z _ _ _ _ _ _ split_data_small_run)
    as (Hval & Htest & _).
  split; [exact Hval | exact Htest].
Defined.

(** The parts of the ten purchases are well formed. *)
Lemma split_data_well_formed_witness :
  wf_table table_small /\ wf_table outputs_small.1.1.1.1.1 /\
  s_index outputs_small.1.1.2 = df_index outputs_small.1.1.1.1.1.
Proof.
  split; [exact wf_table_small|].
  destruct (split_data_well_formed (R := lcg_random_state) main_splitter
              table_small "y" 0%Z 0%Z _ _ _ _ _ _ wf_table_small split_data_small_run)
    as (Hwf & _ & _ & Hindex & _).
  split; [exact Hwf | exact Hindex].
Defined.

(** Saving the bundle of the ten purchases in an empty file system. *)
Lemma save_small_run :
  save_splits (pkl := plain_pickle) (scripts_dir ++ ["data_splitting.py"])
    main_splitter bundle_small (PStr "outputs/splits") (Some 1%Z) ∅
  = (inr tt, fs_saved).
Proof.
  unfold fs_saved.
  destruct (save_splits _ _ _ _ _ _) as [r fs'] eqn:Hrun. simpl.
  assert (r = inr tt) as ->; [|reflexivity].
  change r with (r, fs').1. rewrite <- Hrun. by vm_compute.
Qed.

(** The bundle of the ten purchases has the seven names. *)
Lemma bundle_small_keys : bundle_small.*1 ≡ₚ bundle_names.
Proof. by vm_compute. Qed.

Lemma bundle_small_paths (k : string) :
  k ∈ bundle_small.*1 ->
  ".." ∉ split_dir (scripts_dir ++ ["data_splitting.py"]) (PStr "outputs/splits")
           (Some 1%Z) // (k +:+ ".pkl").
Proof.
  rewrite bundle_small_keys. unfold bundle_names. intros Hk.
  repeat (apply elem_of_cons in Hk as [-> | Hk]; [compute_done|]).
  by apply elem_of_nil in Hk.
Qed.


(** Saving the bundle of the ten purchases again. *)
Lemma save_splits_idempotent_witness :
  save_splits (pkl := plain_pickle) (scripts_dir ++ ["data_splitting.py"])
    main_splitter bundle_small (PStr "outputs/splits") (Some 1%Z) fs_saved
  = (inr tt, fs_saved).
Proof.
  exact (proj1 (save_splits_idempotent (pkl := plain_pickle) _ _ _ _ _ _ _
                  bundle_small_keys save_small_run)).
Defined.

(** Loading the saved bundle of the ten purchases. *)
Lemma load_data_splits_returns_witness :
  exists loaded opened,
    load_data_splits (pkl := plain_pickle) (scripts_dir ++ ["load_splits.py"])
      (PStr "outputs/splits") (Some 1%Z) fs_saved = (inr loaded, opened) /\
    loaded.*1 = bundle_names /\ length opened = 7.
Proof.
  destruct (load_data_splits (pkl := plain_pickle) (scripts_dir ++ ["load_splits.py"])
              (PStr "outputs/splits") (Some 1%Z) fs_saved) as [r opened] eqn:Hrun.
  assert (r = inr bundle_small) as ->.
  { change r with (r, opened).1. rewrite <- Hrun. by vm_compute. }
  exists bundle_small, opened. split; [reflexivity|].
  destruct (load_data_splits_returns (pkl := plain_pickle) _ _ _ _ _ _ Hrun)
    as (Hkeys & -> & _).
  split; [exact Hkeys | reflexivity].
Defined.

(** A directory elsewhere does not change what is loaded. *)
Lemma load_data_splits_local_witness :
  load_data_splits (pkl := plain_pickle) (scripts_dir ++ ["load_splits.py"])
    (PStr "outputs/splits") (Some 1%Z) (<[ ["tmp"] := Dir ]> fs_saved)
  = load_data_splits (pkl := plain_pickle) (scripts_dir ++ ["load_splits.py"])
      (PStr "outputs/splits") (Some 1%Z) fs_saved.
Proof.
  apply load_data_splits_local. intros f Hf.
  apply lookup_insert_ne. unfold required_files in Hf.
  repeat (apply elem_of_cons in Hf as [-> | Hf]; [by vm_compute|]).
  by apply elem_of_nil in Hf.
Defined.


(** A file named [outputs] where the directory should be. *)
Lemma save_splits_blocked_witness :
  exists e fs',
    save_splits (pkl := plain_pickle) (scripts_dir ++ ["data_splitting.py"])
      main_splitter bundle_small (PStr "outputs/splits") (Some 1%Z) fs_blocked
    = (inl e, fs') /\
    (e = FileExistsError
           (split_dir (scripts_dir ++ ["data_splitting.py"]) (PStr "outputs/splits")
              (Some 1%Z)) \/
     exists q, e = NotADirectoryError q) /\
    forall q, fs' !! q = fs_blocked !! q \/
              (fs_blocked !! q = None /\ fs' !! q = Some Dir).
Proof.
  apply (save_splits_blocked (pkl := plain_pickle) _ _ _ _ _ _
           ["/"; "repo"; "outputs"] (OStrList [])).
  - discriminate.
  - by exists ["splits"; "split_1"].
  - apply lookup_insert_eq.
Defined.

(** The csv file of the ten purchases. *)
Lemma load_dataset_by_extension_witness :
  load_dataset (readers := plain_readers) fs_data (PPath ["data"; "compras.csv"])
  = pd_read_csv (readers := plain_readers) fs_data ["data"; "compras.csv"].
Proof.
  apply (load_dataset_by_extension (readers := plain_readers) fs_data ["data"]
           "compras" "csv"); [discriminate | discriminate | reflexivity |].
  by vm_compute.
Defined.

(** A file named [.csv]. *)
Lemma load_dataset_no_suffix_witness :
  load_dataset (readers := plain_readers) fs_hidden (PPath ["data"; ".csv"])
  = inl (ValueError
           "Formato do ficheiro não é compatível com o workflow -> Aceita csv e xlsx").
Proof.
  apply (load_dataset_no_suffix (readers := plain_readers) fs_hidden ["data"] ".csv").
  - discriminate.
  - right. left. reflexivity.
  - by vm_compute.
Defined.

(** A run of [main] on the repository of the ten purchases. *)
Lemma main_repo_run :
  exists fs',
    main (readers := plain_readers) (pkl := plain_pickle) (R := lcg_random_state)
      (scripts_dir ++ ["data_splitting.py"]) fs_repo 0%Z = (inr tt, fs', 0%Z).
Proof.
  destruct (main (readers := plain_readers) (pkl := plain_pickle)
              (R := lcg_random_state) (scripts_dir ++ ["data_splitting.py"])
              fs_repo 0%Z) as [[r fs'] g'] eqn:Hrun.
  exists fs'.
  assert (r = inr tt) as Hr.
  { change r with (r, fs', g').1.1. rewrite <- Hrun. by vm_compute. }
  assert (g' = 0%Z) as Hg.
  { change g' with (r, fs', g').2. rewrite <- Hrun. by vm_compute. }
  by rewrite Hr, Hg.
Defined.

(** Loading what that run of [main] saved. *)
Lemma main_then_load_witness :
  exists fs' outputs cats opened,
    main (readers := plain_readers) (pkl := plain_pickle) (R := lcg_random_state)
      (scripts_dir ++ ["data_splitting.py"]) fs_repo 0%Z = (inr tt, fs', 0%Z) /\
    load_data_splits (pkl := plain_pickle) (scripts_dir ++ ["load_splits.py"])
      default_splits_path (Some 1%Z) fs'
    = (inr (splits_data_of outputs cats), opened).
Proof.
  destruct main_repo_run as [fs' Hrun]. 
  destruct (main_then_load (readers := plain_readers) (pkl := plain_pickle)
              (R := lcg_random_state) scripts_dir fs_repo fs' 0%Z 0%Z Hrun)
    as (dataset & outputs & cats & _ & _ & _ & Hload).
  exists fs', outputs, cats. eexists. split; [exact Hrun | exact Hload].
Defined.

(** Running [main] a second time. *)
Lemma main_idempotent_witness :
  exists fs',
    main (readers := plain_readers) (pkl := plain_pickle) (R := lcg_random_state)
      (scripts_dir ++ ["data_splitting.py"]) fs_repo 0%Z = (inr tt, fs', 0%Z) /\
    main (readers := plain_readers) (pkl := plain_pickle) (R := lcg_random_state)
      (scripts_dir ++ ["data_splitting.py"]) fs' 0%Z = (inr tt, fs', 0%Z).
Proof.
  destruct main_repo_run as [fs' Hrun]. exists fs'. split; [exact Hrun|].
  exact (proj2 (main_idempotent (readers := plain_readers) (pkl := plain_pickle)
                  (R := lcg_random_state) _ _ _ _ _ Hrun)).
Defined.

(** The dataset is still in its place after [main]. *)
Lemma main_footprint_witness :
  exists fs',
    main (readers := plain_readers) (pkl := plain_pickle) (R := lcg_random_state)
      (scripts_dir ++ ["data_splitting.py"]) fs_repo 0%Z = (inr tt, fs', 0%Z) /\
    fs' !! ["/"; "repo"; "data"; "processed"; "Ficheiro_Compras_Processado.csv"]
    = Some (File (OFrame table_compras)).
Proof.
  destruct main_repo_run as [fs' Hrun]. exists fs'. split; [exact Hrun|].
  destruct (main_footprint (readers := plain_readers) (pkl := plain_pickle)
              (R := lcg_random_state) _ _ _ _ _ _ Hrun) as [_ Hframe].
  destruct (Hframe ["/"; "repo"; "data"; "processed";
                    "Ficheiro_Compras_Processado.csv"])
    as [-> | [(Hnone & _) | (_ & name & data & _ & Hp & _)]].
  - reflexivity.
  - discriminate Hnone.
  - apply (f_equal length) in Hp. rewrite length_app in Hp.
    unfold project_root in Hp. rewrite parent_child in Hp. simpl in Hp. lia.
Defined.

(** [main] on an empty file system. *)
Lemma main_missing_dataset_witness :
  main (readers := plain_readers) (pkl := plain_pickle) (R := lcg_random_state)
    (scripts_dir ++ ["data_splitting.py"]) ∅ 0%Z
  = (inl (FileNotFoundError (main_dataset_path (scripts_dir ++ ["data_splitting.py"]))),
     ∅, 0%Z).
Proof.
  apply (main_missing_dataset (readers := plain_readers) (pkl := plain_pickle)
           (R := lcg_random_state)).
  reflexivity.
Defined.

(** [main] on a dataset whose target has another name. *)
Lemma main_missing_target_witness :
  main (readers := plain_readers) (pkl := plain_pickle) (R := lcg_random_state)
    (scripts_dir ++ ["data_splitting.py"]) fs_repo_other 0%Z
  = (inl (KeyError default_target_col), fs_repo_other, 0%Z).
Proof.
  apply (main_missing_target (readers := plain_readers) (pkl := plain_pickle)
           (R := lcg_random_state) _ _ _ table_small).
  - by vm_compute.
  - compute_done.
Defined.


(** The dataset of the repository is a well-formed table. *)
Lemma wf_table_compras : wf_table table_compras.
Proof. split; [compute_done|]. split; compute_done. Qed.

(** No file of the repository is in the way of the split directory. *)
Lemma fs_repo_free (p : Path) (data : PyObj) :
  p `prefix_of` ["/"; "repo"; "outputs"; "splits"; "split_1"] ->
  fs_repo !! p ≠ Some (File data).
Proof.
  intros [rest Hp].
  repeat (destruct p as [|? p]; [by vm_compute | injection Hp as <- Hp]).
  destruct p; [by vm_compute | discriminate Hp].
Qed.

(** No directory of the repository has the name of an item file. *)
Lemma fs_repo_no_dirs (name : string) :
  name ∈ bundle_names ->
  fs_repo !! ["/"; "repo"; "outputs"; "splits"; "split_1"; name +:+ ".pkl"]
    ≠ Some Dir.
Proof.
  unfold bundle_names. intros Hname.
  repeat (apply elem_of_cons in Hname as [-> | Hname]; [by vm_compute|]).
  by apply elem_of_nil in Hname.
Qed.

